(** * mOS sysfs control surface (mOS/mos.c)

    A shallow embedding of the CPU-partition bookkeeping of mOS: the three
    global CPU masks, the per-CPU system-call routing masks, the per-process
    record, the two callback registries and the [lwkcpus=] specification
    parser and controller.

    Conventions of the embedding.
    - A [cpumask] is the bitmap the kernel keeps, read as a natural number:
      bit [c] is set when CPU [c] is in the mask.
    - A C string is a [string] holding the bytes before its terminating NUL.
    - A function that writes global state takes the state and returns the
      new one, together with its return code and the list of observable
      events it caused (calls into other subsystems and [mos_ras] reports).
    - Collaborators that live outside this file (the CPU on-/off-lining
      driver, the registered callbacks, the allocator) are fields of a
      [kernel_env] record: each call is made in one such environment.
    - The mutex that serialises the calls is not modelled: every function
      is one step on the state.

    The first part embeds the functions that keep the CPU partition and
    the process records; the second part, "The other sysfs files", embeds
    the files written by a process to ask for memory, to order its CPUs
    and to set its utility threads, and [lwk_config], which hands its
    [lwkcpus=] value to [lwk_config_lwkcpus]. The show functions of the
    masks, of the memory quantities and of the processes, whose work is the
    formatting done by the kernel library, and [mos_sysfs_init] are left
    out. *)

From Stdlib Require Import NArith ZArith List String Ascii Bool Lia.
From Stdlib Require Import Sorted.
Import ListNotations.

(** ** Error numbers *)

Definition EINVAL : Z := 22.
Definition ENOMEM : Z := 12.
Definition EBUSY : Z := 16.
Definition ERANGE : Z := 34.

(** ** CPU masks *)

Definition cpumask := N.

Definition cpumask_clear : cpumask := 0%N.
Definition cpumask_empty (m : cpumask) : bool := N.eqb m 0.
Definition cpumask_subset (a b : cpumask) : bool := N.eqb (N.ldiff a b) 0.
Definition cpumask_intersects (a b : cpumask) : bool :=
  negb (N.eqb (N.land a b) 0).
Definition cpumask_or (a b : cpumask) : cpumask := N.lor a b.
Definition cpumask_xor (a b : cpumask) : cpumask := N.lxor a b.
Definition cpumask_andnot (a b : cpumask) : cpumask := N.ldiff a b.
Definition cpumask_set_cpu (cpu : N) (m : cpumask) : cpumask := N.setbit m cpu.
Definition cpumask_test_cpu (cpu : N) (m : cpumask) : bool := N.testbit m cpu.

(** [cpumask_clear(m); cpumask_set_cpu(cpu, m)]: the mask holding one CPU. *)
Definition cpumask_of (cpu : N) : cpumask := cpumask_set_cpu cpu cpumask_clear.

(** The CPUs of a mask in increasing order: the values [for_each_cpu] binds. *)
Fixpoint pos_cpus (p : positive) (i : N) : list N :=
  match p with
  | xH => [i]
  | xO q => pos_cpus q (N.succ i)
  | xI q => i :: pos_cpus q (N.succ i)
  end.

Definition for_each_cpu (m : cpumask) : list N :=
  match m with
  | N0 => []
  | Npos p => pos_cpus p 0
  end.

Fixpoint pos_weight (p : positive) : Z :=
  match p with
  | xH => 1
  | xO q => pos_weight q
  | xI q => 1 + pos_weight q
  end.

Definition cpumask_weight (m : cpumask) : Z :=
  match m with
  | N0 => 0
  | Npos p => pos_weight p
  end.

(** A mask written as the list of its CPUs. *)
Definition cpumask_of_list (l : list N) : cpumask :=
  fold_left (fun m c => cpumask_set_cpu c m) l cpumask_clear.

(** The CPUs [a], [a+1], ..., [a+n-1] added to [m] ([bitmap_set]). *)
Fixpoint bitmap_set (m : cpumask) (a : N) (n : nat) : cpumask :=
  match n with
  | O => m
  | S k => bitmap_set (cpumask_set_cpu a m) (N.succ a) k
  end.

(** ** C strings *)

Definition NUL : ascii := Ascii.zero.

(** [strchr(s, c)]: [None] when [c] does not occur, otherwise the text
    before the first [c] and the text after it (the code overwrites that
    [c] with NUL and steps over it). *)
Fixpoint strchr (s : string) (c : ascii) : option (string * string) :=
  match s with
  | EmptyString => None
  | String x r =>
      if Ascii.eqb x c then Some (EmptyString, r)
      else match strchr r c with
           | Some (pre, post) => Some (String x pre, post)
           | None => None
           end
  end.

(** The tokens [strsep(&p, d)] returns, call after call, until it returns
    NULL: the pieces of [s] between the delimiters, empty pieces included. *)
Fixpoint strsep_all (d : ascii) (s : string) : list string :=
  match s with
  | EmptyString => [EmptyString]
  | String x r =>
      if Ascii.eqb x d then EmptyString :: strsep_all d r
      else match strsep_all d r with
           | tok :: toks => String x tok :: toks
           | [] => [String x EmptyString]
           end
  end.

Definition is_digit (c : ascii) : bool :=
  let n := N_of_ascii c in (48 <=? n)%N && (n <=? 57)%N.

(** Decimal digits read left to right, [acc] the value read so far. *)
Fixpoint parse_digits (s : string) (acc : N) : option N :=
  match s with
  | EmptyString => Some acc
  | String c r =>
      if is_digit c then parse_digits r (acc * 10 + (N_of_ascii c - 48))%N
      else None
  end.

Definition parse_uint (s : string) : option N :=
  match s with
  | EmptyString => None
  | _ => parse_digits s 0
  end.

(** ** [cpulist_parse] *)

(** Modelled from the spec: one region of a comma/hyphen CPU list, [a] or
    [a-b], as the kernel library reads it. The result is the return code
    and the mask after the region. *)
Definition parse_region (nmaskbits : N) (tok : string) (m : cpumask)
  : Z * cpumask :=
  match tok with
  | EmptyString => (0%Z, m)
  | _ =>
      match strchr tok "-" with
      | None =>
          match parse_uint tok with
          | None => ((- EINVAL)%Z, m)
          | Some a =>
              if (nmaskbits <=? a)%N then ((- ERANGE)%Z, m)
              else (0%Z, cpumask_set_cpu a m)
          end
      | Some (lo, hi) =>
          match parse_uint lo, parse_uint hi with
          | Some a, Some b =>
              if (b <? a)%N then ((- EINVAL)%Z, m)
              else if (nmaskbits <=? b)%N then ((- ERANGE)%Z, m)
              else (0%Z, bitmap_set m a (N.to_nat (b - a + 1)))
          | _, _ => ((- EINVAL)%Z, m)
          end
      end
  end.

(** Modelled from the spec: the regions of a CPU list read left to right
    until one fails. *)
Fixpoint parse_regions (nmaskbits : N) (toks : list string) (m : cpumask)
  : Z * cpumask :=
  match toks with
  | [] => (0%Z, m)
  | tok :: rest =>
      match parse_region nmaskbits tok m with
      | (0%Z, m') => parse_regions nmaskbits rest m'
      | err => err
      end
  end.

(** Modelled from the spec: the kernel library routine [cpulist_parse] is
    not part of this file. The spec describes its input as a comma/hyphen
    list of CPU ids; the model clears the destination, then reads the
    regions left to right, stopping at the first one that is malformed
    ([-EINVAL]) or names a CPU at or beyond [nmaskbits] ([-ERANGE]). The
    destination keeps the regions read before the error. *)
Definition cpulist_parse (nmaskbits : N) (buf : string) : Z * cpumask :=
  parse_regions nmaskbits (strsep_all "," buf) cpumask_clear.


(** ** What the file sees of the rest of the kernel *)

(** A function pointer; [0] is NULL. *)
Definition fnptr := N.

(** The allocations of this file, by the place that makes them. *)
Inductive alloc_site :=
| VmallocCallbacksElem   (* mos_register_process_callbacks *)
| VmallocOptionElem      (* mos_register_option_callback *)
| VmallocProcess         (* mos_get_process: the record *)
| ZallocProcessCpumasks  (* mos_get_process: its two masks *)
| VmallocCpuList         (* _lwkcpus_request_set: the sequence array *)
| KstrndupOption         (* lwk_options_store: the copy of one option *)
| KstrdupValidate        (* validate_lwkcpus_spec: the copy of the spec *)
| ZallocValidate         (* validate_lwkcpus_spec: its masks *)
| KstrdupConfig          (* lwk_config_lwkcpus: the copy of the spec *)
| ZallocConfig.          (* lwk_config_lwkcpus: its masks *)

(** The per-process record, [struct mos_process_t], as far as this file
    reads and writes it. [lwkcpus_sequence] is [None] for a NULL pointer;
    [yod_mm] is [None] until it is first written. *)
Record mos_process_t := {
  tgid : Z;
  lwkcpus : cpumask;
  utilcpus : cpumask;
  lwkcpus_sequence : option (list Z);
  num_lwkcpus : Z;
  num_util_threads : Z;
  alive : Z;
  yod_mm : option N
}.

(** [struct mos_process_callbacks_t] as this file gets it, through a
    pointer: [callbacks] is the address of the structure, which is what a
    list element keeps in its field of that name, and the four function
    pointers are what is read through it. *)
Record mos_process_callbacks_t := {
  callbacks : N;
  mos_process_init : fnptr;
  mos_process_start : fnptr;
  mos_thread_exit : fnptr;
  mos_process_exit : fnptr
}.

(** [struct mos_process_option_callback_elem_t] without its list link;
    [opt_name] and [opt_callback] are its fields [name] and [callback]. *)
Record mos_process_option_callback_elem_t := {
  opt_name : string;
  opt_callback : fnptr
}.

(** The calling task, [current]: the fields this file touches, [task_tgid]
    being its [tgid]. The record
    [mos_process] points to is carried with the task ([None] for a NULL
    pointer). The threads of a process point to one record: a thread is
    given the record as the thread that ran before it left it. *)
Record task_struct := {
  task_tgid : Z;
  mm : N;
  mos_flags : Z;
  mos_process : option mos_process_t
}.

(** Constants of headers, kernel state the file only reads, and the
    behaviour of the code it calls. A callback is called through its
    pointer and answers with a return code; what a callback does to data
    that is not in this file is not part of the model. *)
Record kernel_env := {
  nr_cpu_ids : N;
  cpu_online_mask : cpumask;
  cpu_possible_mask : cpumask;
  MOS_IS_LWK_PROCESS : Z;
  LWKCPU_PROF_NOR : string;
  alloc_ok : alloc_site -> bool;
  lwkcpu_partition_create : cpumask -> Z;
  lwkcpu_partition_destroy : cpumask -> Z;
  lwkcpu_state_init : string -> Z;
  process_callback : fnptr -> mos_process_t -> Z;
  option_callback : fnptr -> option string -> mos_process_t -> Z
}.

(** The reports made through [mos_ras], by what they say. *)
Inductive ras_report :=
| RasProcessCpumaskAlloc                 (* CPU mask allocation failure. *)
| RasProcessInitFailed (cb : fnptr)      (* Non-zero return code from LWK process initialization callback *)
| RasNullProcess                         (* Unexpected NULL LWK process object pointer *)
| RasOptionsNonLwk                       (* Attempted to set LWK options for a non-LWK process. *)
| RasOptionCallbackError (name : string) (cb : fnptr) (rc : Z)
| RasNoOptionCallback (name : string)    (* No option callback found *)
| RasOptionsOverflow                     (* Overflow in options buffer. *)
| RasProcessStartFailed (cb : fnptr)     (* Non-zero return code from process start callback *)
| RasDupFailure                          (* Failure duplicating CPU param_value string *)
| RasCpumaskAlloc                        (* Could not allocate cpumasks. *)
| RasInvalidCharacter                    (* Invalid character in CPU specification. *)
| RasMultipleTargets                     (* More than one syscall target CPU specified. *)
| RasOverlapOnline (lwk online : cpumask)   (* Overlap detected. LWK CPUs / Online CPUs *)
| RasOverlapSyscall (lwk syscall : cpumask) (* Overlap detected. LWK CPUs / syscall CPUs *)
| RasModifyExisting                      (* Attempt to modify existing LWKCPU configuration. *)
| RasProfileWarning (profile : string).  (* Failed to set lwkcpu_profile *)

(** What a call lets the rest of the system observe, in order. *)
Inductive event :=
| Ras (r : ras_report)
| CallProcessInit (cb : fnptr)
| CallProcessStart (cb : fnptr)
| CallThreadExit (cb : fnptr)
| CallProcessExit (cb : fnptr)
| CallOption (cb : fnptr) (value : option string)
| CallPartitionDestroy (cpus : cpumask)
| CallStateDeinit
| CallStateInit (profile : string)
| CallPartitionCreate (cpus : cpumask).

(** ** The state of the file *)

(** The static variables of the file. The two per-CPU variables are tables
    indexed by CPU id. *)
Record mos_state := {
  lwkcpus_map : cpumask;
  utility_cpus_map : cpumask;
  lwkcpus_reserved_map : cpumask;
  mos_syscall_mask : N -> cpumask;
  lwkcpus_mask : N -> cpumask;
  mos_process_option_callbacks : list mos_process_option_callback_elem_t;
  mos_process_callbacks : list mos_process_callbacks_t
}.

(** The state at boot: static storage is zeroed, both lists are empty. *)
Definition boot_state : mos_state := {|
  lwkcpus_map := cpumask_clear;
  utility_cpus_map := cpumask_clear;
  lwkcpus_reserved_map := cpumask_clear;
  mos_syscall_mask := fun _ => cpumask_clear;
  lwkcpus_mask := fun _ => cpumask_clear;
  mos_process_option_callbacks := [];
  mos_process_callbacks := []
|}.

Definition set_lwkcpus_reserved_map (m : cpumask) (st : mos_state) : mos_state := {|
  lwkcpus_map := lwkcpus_map st;
  utility_cpus_map := utility_cpus_map st;
  lwkcpus_reserved_map := m;
  mos_syscall_mask := mos_syscall_mask st;
  lwkcpus_mask := lwkcpus_mask st;
  mos_process_option_callbacks := mos_process_option_callbacks st;
  mos_process_callbacks := mos_process_callbacks st
|}.

Definition set_mos_syscall_mask (t : N -> cpumask) (st : mos_state) : mos_state := {|
  lwkcpus_map := lwkcpus_map st;
  utility_cpus_map := utility_cpus_map st;
  lwkcpus_reserved_map := lwkcpus_reserved_map st;
  mos_syscall_mask := t;
  lwkcpus_mask := lwkcpus_mask st;
  mos_process_option_callbacks := mos_process_option_callbacks st;
  mos_process_callbacks := mos_process_callbacks st
|}.

Definition set_lwkcpus_mask (t : N -> cpumask) (st : mos_state) : mos_state := {|
  lwkcpus_map := lwkcpus_map st;
  utility_cpus_map := utility_cpus_map st;
  lwkcpus_reserved_map := lwkcpus_reserved_map st;
  mos_syscall_mask := mos_syscall_mask st;
  lwkcpus_mask := t;
  mos_process_option_callbacks := mos_process_option_callbacks st;
  mos_process_callbacks := mos_process_callbacks st
|}.

(** The last four lines of [lwk_config_lwkcpus]: both sysfs masks replaced. *)
Definition set_sysfs_cpu_masks (lwk util : cpumask) (st : mos_state) : mos_state := {|
  lwkcpus_map := lwk;
  utility_cpus_map := util;
  lwkcpus_reserved_map := lwkcpus_reserved_map st;
  mos_syscall_mask := mos_syscall_mask st;
  lwkcpus_mask := lwkcpus_mask st;
  mos_process_option_callbacks := mos_process_option_callbacks st;
  mos_process_callbacks := mos_process_callbacks st
|}.

Definition set_mos_process_option_callbacks
  (l : list mos_process_option_callback_elem_t) (st : mos_state) : mos_state := {|
  lwkcpus_map := lwkcpus_map st;
  utility_cpus_map := utility_cpus_map st;
  lwkcpus_reserved_map := lwkcpus_reserved_map st;
  mos_syscall_mask := mos_syscall_mask st;
  lwkcpus_mask := lwkcpus_mask st;
  mos_process_option_callbacks := l;
  mos_process_callbacks := mos_process_callbacks st
|}.

Definition set_mos_process_callbacks
  (l : list mos_process_callbacks_t) (st : mos_state) : mos_state := {|
  lwkcpus_map := lwkcpus_map st;
  utility_cpus_map := utility_cpus_map st;
  lwkcpus_reserved_map := lwkcpus_reserved_map st;
  mos_syscall_mask := mos_syscall_mask st;
  lwkcpus_mask := lwkcpus_mask st;
  mos_process_option_callbacks := mos_process_option_callbacks st;
  mos_process_callbacks := l
|}.

(** One entry of a per-CPU table written. *)
Definition per_cpu_write (t : N -> cpumask) (cpu : N) (v : cpumask) : N -> cpumask :=
  fun c => if N.eqb c cpu then v else t c.

Definition set_task_flags (f : Z) (t : task_struct) : task_struct := {|
  task_tgid := task_tgid t; mm := mm t; mos_flags := f;
  mos_process := mos_process t
|}.

Definition set_task_process (p : option mos_process_t) (t : task_struct) : task_struct := {|
  task_tgid := task_tgid t; mm := mm t; mos_flags := mos_flags t;
  mos_process := p
|}.

Definition set_alive (a : Z) (p : mos_process_t) : mos_process_t := {|
  tgid := tgid p; lwkcpus := lwkcpus p; utilcpus := utilcpus p;
  lwkcpus_sequence := lwkcpus_sequence p; num_lwkcpus := num_lwkcpus p;
  num_util_threads := num_util_threads p; alive := a; yod_mm := yod_mm p
|}.

Definition set_lwkcpus (m : cpumask) (p : mos_process_t) : mos_process_t := {|
  tgid := tgid p; lwkcpus := m; utilcpus := utilcpus p;
  lwkcpus_sequence := lwkcpus_sequence p; num_lwkcpus := num_lwkcpus p;
  num_util_threads := num_util_threads p; alive := alive p; yod_mm := yod_mm p
|}.

(** A 32-bit [int] after an arithmetic step. *)
Definition wrap_int (z : Z) : Z := ((z + 2 ^ 31) mod 2 ^ 32 - 2 ^ 31)%Z.

(** ** The callback registries *)

(** The two lists are kernel lists, kept with the macros of
    <linux/list.h>, which is not part of this file: [list_add(new, head)]
    puts the new entry right after the head, and [list_for_each_entry]
    walks from the head forward. A list is therefore read newest entry
    first. *)
Definition list_add {A : Type} (x : A) (l : list A) : list A := x :: l.

(** [list_del] of the first entry a walk finds with [found]. *)
Fixpoint list_del_first {A : Type} (found : A -> bool) (l : list A) : option (list A) :=
  match l with
  | [] => None
  | x :: r =>
      if found x then Some r
      else match list_del_first found r with
           | Some r' => Some (x :: r')
           | None => None
           end
  end.

(** [elem->callbacks == cbs]: two pointers to callback structures are
    compared, not what they point to. *)
Definition callbacks_eqb (a b : mos_process_callbacks_t) : bool :=
  N.eqb (callbacks a) (callbacks b).

(** [cbs] is [None] for a NULL pointer. *)
Definition mos_register_process_callbacks (env : kernel_env)
  (cbs : option mos_process_callbacks_t) (st : mos_state) : Z * mos_state :=
  match cbs with
  | None => ((- EINVAL)%Z, st)
  | Some c =>
      if negb (alloc_ok env VmallocCallbacksElem) then ((- ENOMEM)%Z, st)
      else (0%Z, set_mos_process_callbacks
                   (list_add c (mos_process_callbacks st)) st)
  end.

(** The entry that is taken out is the first one that holds the pointer
    [cbs]; a structure with the same four functions at another address is
    not found. *)
Definition mos_unregister_process_callbacks
  (cbs : option mos_process_callbacks_t) (st : mos_state) : Z * mos_state :=
  match cbs with
  | None => ((- EINVAL)%Z, st)
  | Some c =>
      match list_del_first (fun e => callbacks_eqb e c) (mos_process_callbacks st) with
      | Some l => (0%Z, set_mos_process_callbacks l st)
      | None => ((- EINVAL)%Z, st)
      end
  end.

(** [sizeof(elem->name)] *)
Definition OPTION_NAME_SIZE : nat := 64.

Definition mos_register_option_callback (env : kernel_env)
  (name : string) (cb : fnptr) (st : mos_state) : Z * mos_state :=
  if N.eqb cb 0 then ((- EINVAL)%Z, st)
  else if Nat.leb OPTION_NAME_SIZE (String.length name) then ((- EINVAL)%Z, st)
  else if negb (alloc_ok env VmallocOptionElem) then ((- ENOMEM)%Z, st)
  else (0%Z, set_mos_process_option_callbacks
               (list_add {| opt_name := name; opt_callback := cb |}
                         (mos_process_option_callbacks st)) st).

Definition mos_unregister_option_callback
  (name : string) (cb : fnptr) (st : mos_state) : Z * mos_state :=
  if N.eqb cb 0 then ((- EINVAL)%Z, st)
  else
    match list_del_first
            (fun e => N.eqb (opt_callback e) cb && String.eqb name (opt_name e))
            (mos_process_option_callbacks st) with
    | Some l => (0%Z, set_mos_process_option_callbacks l st)
    | None => ((- EINVAL)%Z, st)
    end.

(** ** Process records *)

(** The walk over [mos_process_callbacks] in [mos_get_process]: every
    non-NULL [mos_process_init] is called until one answers non-zero. *)
Fixpoint process_init_walk (env : kernel_env) (elems : list mos_process_callbacks_t)
  (process : mos_process_t) : option mos_process_t * list event :=
  match elems with
  | [] => (Some process, [])
  | elem :: rest =>
      if N.eqb (mos_process_init elem) 0 then process_init_walk env rest process
      else if Z.eqb (process_callback env (mos_process_init elem) process) 0 then
        let '(r, evs) := process_init_walk env rest process in
        (r, CallProcessInit (mos_process_init elem) :: evs)
      else (None, [CallProcessInit (mos_process_init elem);
                   Ras (RasProcessInitFailed (mos_process_init elem))])
  end.

(** The record [mos_get_process] fills in before it calls the
    [mos_process_init] callbacks: two zeroed masks, no sequence, and one
    live thread, the caller. *)
Definition new_mos_process (cur : task_struct) : mos_process_t := {|
  tgid := task_tgid cur;
  lwkcpus := cpumask_clear;
  utilcpus := cpumask_clear;
  lwkcpus_sequence := None;
  num_lwkcpus := 0;
  num_util_threads := 0;
  alive := 1;
  yod_mm := None
|}.

(** The record of the calling task, made if there is none. The result is
    the pointer the function returns ([None] for 0). *)
Definition mos_get_process (env : kernel_env) (st : mos_state) (cur : task_struct)
  : option mos_process_t * list event :=
  match mos_process cur with
  | Some process => (Some process, [])
  | None =>
      if negb (alloc_ok env VmallocProcess) then (None, [])
      else if negb (alloc_ok env ZallocProcessCpumasks) then
        (None, [Ras RasProcessCpumaskAlloc])
      else process_init_walk env (mos_process_callbacks st) (new_mos_process cur)
  end.

(** The calls a walk over the lifecycle callbacks makes through one of the
    two pointers that return nothing. *)
Definition void_walk (field : mos_process_callbacks_t -> fnptr) (call : fnptr -> event)
  (elems : list mos_process_callbacks_t) : list event :=
  map (fun elem => call (field elem))
      (filter (fun elem => negb (N.eqb (field elem) 0)) elems).

(** [atomic_dec_and_test] stores the count of live threads less one in
    the record. When that is 0 the record is freed, and
    [current->mos_process] is not assigned: the task keeps its pointer. The
    heap is not modelled; the task is returned with the record as it was
    when it was freed, its count at 0. *)
Definition mos_exit_thread (st : mos_state) (cur : task_struct)
  : mos_state * task_struct * list event :=
  match mos_process cur with
  | None => (st, cur, [Ras RasNullProcess])
  | Some process =>
      let evs := void_walk mos_thread_exit CallThreadExit (mos_process_callbacks st) in
      let process' := set_alive (wrap_int (alive process - 1)) process in
      if negb (Z.eqb (alive process') 0) then
        (st, set_task_process (Some process') cur, evs)
      else
        (set_lwkcpus_reserved_map
           (cpumask_xor (lwkcpus_reserved_map st) (lwkcpus process')) st,
         set_task_process (Some process') cur,
         evs ++ void_walk mos_process_exit CallProcessExit (mos_process_callbacks st))
  end.

(** ** Reserving CPUs *)

(** [target = request], unless the request names a CPU outside
    [lwkcpus_map]. The result is the return code and the new [target]. *)
Definition _cpus_reserved_set (st : mos_state) (request target : cpumask)
  : Z * cpumask :=
  if negb (cpumask_empty request) && negb (cpumask_subset request (lwkcpus_map st))
  then ((- EINVAL)%Z, target)
  else (0%Z, request).

Definition _lwkcpus_reserved_set (st : mos_state) (request : cpumask)
  : Z * mos_state :=
  let '(rc, target) := _cpus_reserved_set st request (lwkcpus_reserved_map st) in
  (rc, set_lwkcpus_reserved_map target st).

(** [target |= request]. The result is the return code, the new [target]
    and the calling task. *)
Definition _cpus_request_set (env : kernel_env) (st : mos_state) (cur : task_struct)
  (request target : cpumask) : Z * cpumask * task_struct :=
  if negb (cpumask_subset request (lwkcpus_map st)) then
    ((- EINVAL)%Z, target, cur)
  else if cpumask_intersects request (lwkcpus_reserved_map st) then
    ((- EBUSY)%Z, target, cur)
  else
    (0%Z, cpumask_or target request,
     set_task_flags (Z.lor (mos_flags cur) (MOS_IS_LWK_PROCESS env)) cur).

(** The sequence array written by the [for_each_cpu] loop and closed by
    the sentinel. *)
Definition cpu_sequence (m : cpumask) : list Z :=
  map Z.of_N (for_each_cpu m) ++ [(-1)%Z].

Definition _lwkcpus_request_set (env : kernel_env) (st : mos_state) (cur : task_struct)
  (request : cpumask) : Z * mos_state * task_struct * list event :=
  let '(rc, target, cur1) :=
    _cpus_request_set env st cur request (lwkcpus_reserved_map st) in
  let st1 := set_lwkcpus_reserved_map target st in
  if negb (Z.eqb rc 0) then (rc, st1, cur1, [])
  else
    let '(got, evs) := mos_get_process env st1 cur1 in
    match got with
    | None => ((- ENOMEM)%Z, st1, set_task_process None cur1, evs)
    | Some process =>
        let process1 := set_lwkcpus (cpumask_or request request) process in
        let n := cpumask_weight (lwkcpus process1) in
        if negb (alloc_ok env VmallocCpuList) then
          ((- ENOMEM)%Z, st1, set_task_process (Some process1) cur1, evs)
        else
          (0%Z, st1,
           set_task_process
             (Some {| tgid := tgid process1;
                      lwkcpus := lwkcpus process1;
                      utilcpus := cpumask_or (utilcpus process1) (utility_cpus_map st1);
                      lwkcpus_sequence := Some (cpu_sequence (lwkcpus process1));
                      num_lwkcpus := n;
                      num_util_threads := num_util_threads process1;
                      alive := alive process1;
                      yod_mm := Some (mm cur1) |})
             cur1,
           evs)
    end.

(** ** Options *)

Inductive walk_exit :=
| WalkDone              (* the loop ran to its end *)
| WalkFail (rc : Z).    (* [goto out] with this return code *)

(** [value = strchr(option, '='); if (value) *value++ = 0]: the name of an
    option and its value, [None] for a NULL [value]. *)
Definition split_option (phrase : string) : string * option string :=
  match strchr phrase "=" with
  | Some (option, value) => (option, Some value)
  | None => (phrase, None)
  end.

(** The [while (strlen(name))] loop of [lwk_options_store]. [names] are the
    strings [name] points at, one iteration after the other: the pieces of
    the buffer between NULs. [name += strlen(name) + 1] steps to the next
    piece, and passes [buff + count] exactly when there is none. *)
Fixpoint options_walk (env : kernel_env)
  (elems : list mos_process_option_callback_elem_t) (mosp : mos_process_t)
  (names : list string) : walk_exit * list event :=
  match names with
  | [] => (WalkDone, [])
  | name :: rest =>
      if Nat.eqb (String.length name) 0 then (WalkDone, [])
      else if negb (alloc_ok env KstrndupOption) then (WalkFail (- ENOMEM)%Z, [])
      else
        let '(option, value) := split_option name in
        match find (fun elem => String.eqb (opt_name elem) option) elems with
        | None => (WalkFail (- EINVAL)%Z, [Ras (RasNoOptionCallback option)])
        | Some elem =>
            let rc := option_callback env (opt_callback elem) value mosp in
            if negb (Z.eqb rc 0) then
              (WalkFail (- EINVAL)%Z,
               [CallOption (opt_callback elem) value;
                Ras (RasOptionCallbackError (opt_name elem) (opt_callback elem) rc)])
            else
              match rest with
              | [] => (WalkFail (- EINVAL)%Z,
                       [CallOption (opt_callback elem) value; Ras RasOptionsOverflow])
              | _ :: _ =>
                  let '(r, evs) := options_walk env elems mosp rest in
                  (r, CallOption (opt_callback elem) value :: evs)
              end
        end
  end.

(** The walk over [mos_process_callbacks] that ends [lwk_options_store]. *)
Fixpoint process_start_walk (env : kernel_env) (elems : list mos_process_callbacks_t)
  (mosp : mos_process_t) : walk_exit * list event :=
  match elems with
  | [] => (WalkDone, [])
  | cbs :: rest =>
      if N.eqb (mos_process_start cbs) 0 then process_start_walk env rest mosp
      else if negb (Z.eqb (process_callback env (mos_process_start cbs) mosp) 0) then
        (WalkFail (- EINVAL)%Z,
         [CallProcessStart (mos_process_start cbs);
          Ras (RasProcessStartFailed (mos_process_start cbs))])
      else
        let '(r, evs) := process_start_walk env rest mosp in
        (r, CallProcessStart (mos_process_start cbs) :: evs)
  end.

(** The strings the loop starts from: a leading NUL is stepped over. (With
    [count = 0] the code steps past the terminator sysfs stores; the model
    then finds nothing to read.) *)
Definition option_names (buff : string) : list string :=
  match strsep_all NUL buff with
  | EmptyString :: rest => rest
  | names => names
  end.

(** [buff] holds the [count] bytes written; sysfs stores a NUL after them. *)
Definition lwk_options_store (env : kernel_env) (st : mos_state) (cur : task_struct)
  (buff : string) : Z * list event :=
  let count := Z.of_nat (String.length buff) in
  match mos_process cur with
  | None => ((- EINVAL)%Z, [Ras RasOptionsNonLwk])
  | Some mosp =>
      match options_walk env (mos_process_option_callbacks st) mosp (option_names buff) with
      | (WalkFail rc, evs) => (rc, evs)
      | (WalkDone, evs) =>
          match process_start_walk env (mos_process_callbacks st) mosp with
          | (WalkFail rc, evs') => (rc, evs ++ evs')
          | (WalkDone, evs') => (count, evs ++ evs')
          end
      end
  end.

(** ** The [lwkcpus=] specification *)

(** One group [<to>.<from>] cut at its first dot, as [(s_to, s_from)];
    without a dot the whole group is [s_from] and [s_to] is empty. *)
Definition split_group (group : string) : string * string :=
  match strchr group "." with
  | None => (EmptyString, group)
  | Some (s_to, s_from) => (s_to, s_from)
  end.

(** The [while ((s_to = strsep(&mutable_param, ":")))] loop of
    [validate_lwkcpus_spec]: the report of the first failing group, or the
    two masks built. *)
Fixpoint validate_groups (env : kernel_env) (groups : list string)
  (new_lwkcpus new_syscallcpus : cpumask) : ras_report + cpumask * cpumask :=
  match groups with
  | [] => inr (new_lwkcpus, new_syscallcpus)
  | group :: rest =>
      let '(s_to, s_from) := split_group group in
      let '(rc_to, to) := cpulist_parse (nr_cpu_ids env) s_to in
      if Z.ltb rc_to 0 then inl RasInvalidCharacter
      else
        let '(rc_from, from) := cpulist_parse (nr_cpu_ids env) s_from in
        if Z.ltb rc_from 0 then inl RasInvalidCharacter
        else if Z.ltb 1 (cpumask_weight to) && negb (cpumask_empty from) then
          inl RasMultipleTargets
        else
          validate_groups env rest
            (cpumask_or new_lwkcpus from) (cpumask_or new_syscallcpus to)
  end.

Definition validate_lwkcpus_spec (env : kernel_env) (lwkcpus_parm : string)
  : Z * list event :=
  if negb (alloc_ok env KstrdupValidate) then ((-1)%Z, [Ras RasDupFailure])
  else if negb (alloc_ok env ZallocValidate) then ((-1)%Z, [Ras RasCpumaskAlloc])
  else
    match validate_groups env (strsep_all ":" lwkcpus_parm)
            cpumask_clear cpumask_clear with
    | inl report => ((-1)%Z, [Ras report])
    | inr (new_lwkcpus, new_syscallcpus) =>
        if cpumask_intersects new_lwkcpus (cpu_online_mask env) then
          ((-1)%Z, [Ras (RasOverlapOnline new_lwkcpus (cpu_online_mask env))])
        else if cpumask_intersects new_lwkcpus new_syscallcpus then
          ((-1)%Z, [Ras (RasOverlapSyscall new_lwkcpus new_syscallcpus)])
        else (0%Z, [])
    end.

(** The route written for every CPU of [from] in one group. *)
Definition route_group (to from : cpumask) (table : N -> cpumask) : N -> cpumask :=
  fold_left
    (fun t cpu =>
       per_cpu_write t cpu
         (if Z.eqb (cpumask_weight to) 0 then cpumask_of cpu else to))
    (for_each_cpu from) table.

(** The routes of the CPUs that go back to Linux: each to itself. *)
Definition route_self (cpus : cpumask) (table : N -> cpumask) : N -> cpumask :=
  fold_left (fun t cpu => per_cpu_write t cpu (cpumask_of cpu))
    (for_each_cpu cpus) table.

(** The [strsep] loop of [lwk_config_lwkcpus]: the routing table and the
    masks [new_lwkcpus] and [new_utilcpus] after it. *)
Fixpoint config_groups (env : kernel_env) (groups : list string)
  (table : N -> cpumask) (new_lwkcpus new_utilcpus : cpumask)
  : (N -> cpumask) * cpumask * cpumask :=
  match groups with
  | [] => (table, new_lwkcpus, new_utilcpus)
  | group :: rest =>
      let '(s_to, s_from) := split_group group in
      let to := snd (cpulist_parse (nr_cpu_ids env) s_to) in
      let from := snd (cpulist_parse (nr_cpu_ids env) s_from) in
      config_groups env rest (route_group to from table)
        (cpumask_or new_lwkcpus from) (cpumask_or new_utilcpus to)
  end.

(** [lwk_config_lwkcpus] from [if (!cpumask_empty(back_to_linux))] to its
    end. [rc] is the return code so far. *)
Definition commit_partition (env : kernel_env) (st : mos_state)
  (back_to_linux new_lwkcpus new_utilcpus : cpumask)
  (lwkcpu_profile : option string) (rc : Z) : Z * mos_state * list event :=
  let '(rc1, evs1) :=
    if negb (cpumask_empty back_to_linux) then
      let r := lwkcpu_partition_destroy env back_to_linux in
      (r, CallPartitionDestroy back_to_linux
            :: (if Z.eqb r 0 then [CallStateDeinit] else []))
    else (rc, []) in
  let st1 :=
    set_lwkcpus_mask
      (fun cpu => if cpumask_test_cpu cpu (cpu_possible_mask env)
                  then new_lwkcpus else lwkcpus_mask st cpu) st in
  let '(rc2, evs2) :=
    if negb (cpumask_empty new_lwkcpus) then
      let '(profile_set, evp) :=
        match lwkcpu_profile with
        | Some profile =>
            if negb (Z.eqb (lwkcpu_state_init env profile) 0) then
              (false, [CallStateInit profile; Ras (RasProfileWarning profile)])
            else (true, [CallStateInit profile])
        | None => (false, [])
        end in
      let evn :=
        if profile_set then []
        else CallStateInit (LWKCPU_PROF_NOR env)
               :: (if negb (Z.eqb (lwkcpu_state_init env (LWKCPU_PROF_NOR env)) 0)
                   then [Ras (RasProfileWarning (LWKCPU_PROF_NOR env))] else []) in
      (lwkcpu_partition_create env new_lwkcpus,
       evp ++ evn ++ [CallPartitionCreate new_lwkcpus])
    else (rc1, []) in
  if negb (Z.eqb rc2 0) then (rc2, st1, evs1 ++ evs2)
  else (0%Z, set_sysfs_cpu_masks new_lwkcpus new_utilcpus st1, evs1 ++ evs2).

(** [lwkcpu_profile] is [None] for a NULL pointer. *)
Definition lwk_config_lwkcpus (env : kernel_env) (st : mos_state)
  (param_value : string) (lwkcpu_profile : option string)
  : Z * mos_state * list event :=
  let rc := (-1)%Z in
  if negb (alloc_ok env KstrdupConfig) then (rc, st, [Ras RasDupFailure])
  else
    let return_cpus := Nat.eqb (String.length param_value) 0 in
    if negb (cpumask_empty (lwkcpus_map st)) && negb return_cpus then
      (rc, st, [Ras RasModifyExisting])
    else if negb (alloc_ok env ZallocConfig) then (rc, st, [Ras RasCpumaskAlloc])
    else if return_cpus then
      let back_to_linux := lwkcpus_map st in
      let st1 := set_mos_syscall_mask
                   (route_self (lwkcpus_map st) (mos_syscall_mask st)) st in
      commit_partition env st1 back_to_linux cpumask_clear cpumask_clear
        lwkcpu_profile rc
    else
      match validate_lwkcpus_spec env param_value with
      | (0%Z, _) =>
          let '(table, new_lwkcpus, new_utilcpus) :=
            config_groups env (strsep_all ":" param_value)
              (mos_syscall_mask st) cpumask_clear cpumask_clear in
          commit_partition env (set_mos_syscall_mask table st)
            cpumask_clear new_lwkcpus new_utilcpus lwkcpu_profile rc
      | (_, evs) => (rc, st, evs)
      end.

(** ** A specification read group by group

    The words the claims about [validate_lwkcpus_spec] use, defined on the
    groups of a specification: what a group names as targets and as
    reserved CPUs, and the two sets accumulated over all groups. *)

Definition group_to (env : kernel_env) (group : string) : cpumask :=
  snd (cpulist_parse (nr_cpu_ids env) (fst (split_group group))).

Definition group_from (env : kernel_env) (group : string) : cpumask :=
  snd (cpulist_parse (nr_cpu_ids env) (snd (split_group group))).

(** Both lists of the group are well-formed CPU lists. *)
Definition group_parses (env : kernel_env) (group : string) : bool :=
  negb (Z.ltb (fst (cpulist_parse (nr_cpu_ids env) (fst (split_group group)))) 0)
  && negb (Z.ltb (fst (cpulist_parse (nr_cpu_ids env) (snd (split_group group)))) 0).

(** More than one target CPU for a non-empty reserved range. *)
Definition group_ambiguous (env : kernel_env) (group : string) : bool :=
  Z.ltb 1 (cpumask_weight (group_to env group))
  && negb (cpumask_empty (group_from env group)).

Definition group_accepted (env : kernel_env) (group : string) : bool :=
  group_parses env group && negb (group_ambiguous env group).

Definition accumulate (f : string -> cpumask) (groups : list string) (acc : cpumask)
  : cpumask :=
  fold_left (fun m group => cpumask_or m (f group)) groups acc.

Definition reserved_cpus (env : kernel_env) (groups : list string) : cpumask :=
  accumulate (group_from env) groups cpumask_clear.

Definition target_cpus (env : kernel_env) (groups : list string) : cpumask :=
  accumulate (group_to env) groups cpumask_clear.

(** ** A batch of options read phrase by phrase

    The words the claims about [lwk_options_store] use, defined on the
    phrases of a batch: the handler a phrase finds, whether the phrase is
    handled with success, and the calls a run of phrases makes. *)

Definition option_handler (elems : list mos_process_option_callback_elem_t)
  (phrase : string) : option mos_process_option_callback_elem_t :=
  find (fun elem => String.eqb (opt_name elem) (fst (split_option phrase))) elems.

(** The phrase is not empty, finds a handler, and the handler answers 0. *)
Definition option_accepted (env : kernel_env)
  (elems : list mos_process_option_callback_elem_t) (mosp : mos_process_t)
  (phrase : string) : bool :=
  negb (Nat.eqb (String.length phrase) 0)
  && match option_handler elems phrase with
     | Some elem =>
         Z.eqb (option_callback env (opt_callback elem) (snd (split_option phrase)) mosp) 0
     | None => false
     end.

Definition option_call (elems : list mos_process_option_callback_elem_t)
  (phrase : string) : list event :=
  match option_handler elems phrase with
  | Some elem => [CallOption (opt_callback elem) (snd (split_option phrase))]
  | None => []
  end.

Definition option_calls (elems : list mos_process_option_callback_elem_t)
  (phrases : list string) : list event :=
  flat_map (option_call elems) phrases.

(** No byte of [s] is [c]. *)
Fixpoint str_free (c : ascii) (s : string) : bool :=
  match s with
  | EmptyString => true
  | String x r => negb (Ascii.eqb x c) && str_free c r
  end.

(** The bytes of a batch as user space writes them: each phrase followed
    by NUL, and one more NUL, the phrase of length zero that ends the
    batch. *)
Fixpoint options_buffer (phrases : list string) : string :=
  match phrases with
  | [] => String NUL EmptyString
  | phrase :: rest => (phrase ++ String NUL (options_buffer rest))%string
  end.

(** ** Sample environments, states and tasks *)

(** A machine with 64 CPUs where CPUs 0, 1 and 10 are online in Linux,
    every allocation succeeds and every collaborator answers 0. *)
Definition sample_env : kernel_env := {|
  nr_cpu_ids := 64;
  cpu_online_mask := cpumask_of_list [0; 1; 10]%N;
  cpu_possible_mask := N.ones 64;
  MOS_IS_LWK_PROCESS := 1;
  LWKCPU_PROF_NOR := "normal";
  alloc_ok := fun _ => true;
  lwkcpu_partition_create := fun _ => 0%Z;
  lwkcpu_partition_destroy := fun _ => 0%Z;
  lwkcpu_state_init := fun _ => 0%Z;
  process_callback := fun _ _ => 0%Z;
  option_callback := fun _ _ _ => 0%Z
|}.

(** A task that has not touched mOS yet. *)
Definition sample_task (id : Z) : task_struct := {|
  task_tgid := id; mm := 4096; mos_flags := 0; mos_process := None
|}.

(** The state after [lwkcpus=1.2,3] at boot: CPUs 2 and 3 are LWK CPUs. *)
Definition sample_partition : mos_state :=
  snd (fst (lwk_config_lwkcpus sample_env boot_state "1.2,3" None)).

(** CPU 2 of the sample partition claimed by process 100. *)
Definition sample_claimed : mos_state :=
  snd (fst (fst (_lwkcpus_request_set sample_env sample_partition
                   (sample_task 100) (cpumask_of 2)))).

(** Process 100 after that claim. *)
Definition sample_claimer : task_struct :=
  snd (fst (_lwkcpus_request_set sample_env sample_partition
              (sample_task 100) (cpumask_of 2))).

(** A subsystem whose callbacks are the functions at addresses 7, 8, 9, 10,
    in a structure at address 64. *)
Definition sample_callbacks : mos_process_callbacks_t := {|
  callbacks := 64%N;
  mos_process_init := 7%N;
  mos_process_start := 8%N;
  mos_thread_exit := 9%N;
  mos_process_exit := 10%N
|}.

(** The state at boot after that subsystem has registered itself. *)
Definition sample_hooked : mos_state :=
  snd (mos_register_process_callbacks sample_env (Some sample_callbacks) boot_state).

(** The sample machine with callbacks that all answer 1. *)
Definition rejecting_env : kernel_env := {|
  nr_cpu_ids := nr_cpu_ids sample_env;
  cpu_online_mask := cpu_online_mask sample_env;
  cpu_possible_mask := cpu_possible_mask sample_env;
  MOS_IS_LWK_PROCESS := MOS_IS_LWK_PROCESS sample_env;
  LWKCPU_PROF_NOR := LWKCPU_PROF_NOR sample_env;
  alloc_ok := alloc_ok sample_env;
  lwkcpu_partition_create := lwkcpu_partition_create sample_env;
  lwkcpu_partition_destroy := lwkcpu_partition_destroy sample_env;
  lwkcpu_state_init := lwkcpu_state_init sample_env;
  process_callback := fun _ _ => 1%Z;
  option_callback := fun _ _ _ => 1%Z
|}.

(** The option [opt] registered twice at boot, first with the handler at
    address 4, then with the handler at address 5. *)
Definition sample_registered_once : mos_state :=
  snd (mos_register_option_callback sample_env "opt" 4%N boot_state).

Definition sample_registered_twice : mos_state :=
  snd (mos_register_option_callback sample_env "opt" 5%N sample_registered_once).

(** The bytes [opt\0] and [opt=1\0nop\0], as written to [lwk_options]. *)
Definition sample_options : string :=
  ("opt" ++ String NUL EmptyString)%string.

Definition sample_options_unknown : string :=
  ("opt=1" ++ String NUL ("nop" ++ String NUL EmptyString))%string.

(** Process 100 with a record, as after a claim of no CPU at boot. *)
Definition sample_lwk_task : task_struct :=
  snd (fst (_lwkcpus_request_set sample_env boot_state (sample_task 100) cpumask_clear)).

(** The sample machine with a driver that cannot take CPUs back: its
    [lwkcpu_partition_destroy] answers -5. *)
Definition stuck_env : kernel_env := {|
  nr_cpu_ids := nr_cpu_ids sample_env;
  cpu_online_mask := cpu_online_mask sample_env;
  cpu_possible_mask := cpu_possible_mask sample_env;
  MOS_IS_LWK_PROCESS := MOS_IS_LWK_PROCESS sample_env;
  LWKCPU_PROF_NOR := LWKCPU_PROF_NOR sample_env;
  alloc_ok := alloc_ok sample_env;
  lwkcpu_partition_create := lwkcpu_partition_create sample_env;
  lwkcpu_partition_destroy := fun _ => (-5)%Z;
  lwkcpu_state_init := lwkcpu_state_init sample_env;
  process_callback := process_callback sample_env;
  option_callback := option_callback sample_env
|}.

(** Process 100 with a second thread: the record counts two live threads,
    as the fork path outside this file leaves it. *)
Definition sample_two_threads : task_struct :=
  set_task_process (option_map (set_alive 2) (mos_process sample_claimer)) sample_claimer.

(** ** The invariant of the three global masks *)

(** Every claimed CPU is an LWK CPU. *)
Definition partition_invariant (st : mos_state) : Prop :=
  cpumask_subset (lwkcpus_reserved_map st) (lwkcpus_map st) = true.

(** ** Tactics *)

(** The fields of a state built by the setters. *)
Ltac state_fields :=
  cbn [fst snd
       lwkcpus_map utility_cpus_map lwkcpus_reserved_map mos_syscall_mask
       lwkcpus_mask mos_process_option_callbacks mos_process_callbacks
       set_lwkcpus_reserved_map set_mos_syscall_mask set_lwkcpus_mask
       set_sysfs_cpu_masks set_mos_process_option_callbacks
       set_mos_process_callbacks] in *.

(** * The other sysfs files *)

(** ** What they see of the rest of the kernel *)

Definition cpumask_and (a b : cpumask) : cpumask := N.land a b.

(** The newline character. *)
Definition LF : ascii := "010"%char.

(** The C string a buffer starts with: its bytes before the first NUL. A
    sysfs write hands over the bytes written with a NUL stored after them. *)
Definition c_str (buff : string) : string :=
  match strchr buff NUL with
  | Some (str, _) => str
  | None => buff
  end.

(** [strreplace(s, '\n', '\0')] followed by [kstrdup(s)]: the text before
    the first newline. *)
Definition first_line (s : string) : string :=
  match strchr s LF with
  | Some (line, _) => line
  | None => s
  end.

(** [snprintf(dst, size, "%s", s)] into an array that holds [old]: at most
    [size - 1] characters of [s] are stored; nothing is stored when [size]
    is 0. *)
Definition snprintf_s (size : nat) (old s : string) : string :=
  match size with
  | O => old
  | S n => substring 0 n s
  end.

(** The allocations of the functions below, by the place that makes
    them. *)
Inductive sysfs_alloc_site :=
| ZallocReqmask          (* mos_sysfs_mask_write *)
| KstrdupLwkmemRequest   (* lwkmem_request_store *)
| KstrndupSequence       (* lwkcpus_sequence_store *)
| KstrdupDomainInfo      (* lwkmem_domain_info_store *)
| KstrdupAuto            (* lwk_validate_auto *)
| KstrdupConfigStore     (* lwk_config_store: the copy of the buffer *)
| KstrdupConfigValue     (* lwk_config_store: the copy of one value *)
| KstrdupShowAuto        (* lwk_config_show: the copy of the empty string *)
| KmallocShowAuto.       (* lwk_config_show: the text of the auto setting *)

(** [enum lwkmem_type_t], as far as this file names its members. *)
Inductive lwkmem_type_t :=
| lwkmem_hbm
| lwkmem_dram
| lwkmem_nvram.

(** The views [IS_MOS_VIEW] is asked about in this file. *)
Inductive mos_view_t :=
| MOS_VIEW_LWK_LOCAL
| MOS_VIEW_LINUX
| MOS_VIEW_LWK.

(** What the functions below need besides [kernel_env]: constants of
    headers and of the configuration, the number parsers of the kernel
    library and the entry points of the memory subsystem. A number parser
    answers with its return code and, when that is 0, the number read;
    [kstrtoul], [kstrtoint] and [kstrtouint] are always called with base 0
    here. The two [lwkmem_] function pointers are [None] when NULL. *)
Record sysfs_env := {
  kernel : kernel_env;
  sysfs_alloc_ok : sysfs_alloc_site -> bool;
  MAX_NIDS : nat;
  BITS_PER_LONG : N;
  PAGE_SIZE : nat;
  LWKCPU_PROF_DBG : string;
  LWKCTRL_CPUS_SPECSZ : nat;
  LWKCTRL_CPU_PROFILE_SPECSZ : nat;
  kstrtoul : string -> Z * N;
  kstrtoint : string -> Z * Z;
  kstrtouint : string -> Z * N;
  lwkmem_request : option (mos_process_t -> list N -> Z);
  lwkmem_set_domain_info : option (mos_process_t -> lwkmem_type_t -> list N -> Z);
  lwkmem_static_enabled : bool;
  lwkmem_partition_create : string -> Z;
  lwkmem_partition_destroy : Z;
  lwkmem_get_spec : string
}.

(** The reports the functions below make through [mos_ras]. *)
Inductive sysfs_report :=
| RasLwkmemRequestOverflow (capacity : nat)  (* Potential overflow in lwkmem_request buffer *)
| RasLwkmemRequestInvalid (val : string)     (* Attempted to write invalid value to lwkmem_request *)
| RasUtilThreadsNonLwk                       (* ... utility threads from non-LWK process *)
| RasUtilThreadsInvalid (buff : string)      (* ... invalid value to the LWK utility thread count *)
| RasSequenceNonLwk                          (* ... an LWK CPU sequence for a non-LWK process *)
| RasSequenceBeforeCpus                      (* ... prior to reserving LWK CPUs *)
| RasSequenceInvalid (kresult : Z)           (* ... invalid value to the LWK CPU sequence *)
| RasSequenceTooMany                         (* Too many CPUs were provided *)
| RasSequenceTooFew                          (* Too few CPUs were provided *)
| RasDomainInfoNonLwk                        (* ... domain information for a non-LWK process *)
| RasDomainInfoType (typ_str : string)       (* Unrecognized memory type *)
| RasDomainInfoOverflow                      (* Overflow in lwkmem_domain_info buffer *)
| RasDomainInfoInvalid (nid_str : string)    (* ... invalid value to lwkmem_domain_info *)
| RasDomainInfoRejected (rc : Z)             (* Non-zero return code from lwkmem_set_domain_info *)
| RasConfigNoSign (s_keyword : string)       (* Failed to find sign[=] to set a keyword *)
| RasConfigKeywordIgnored (s_keyword : string) (* Unsupported keyword: ... was ignored *)
| RasConfigAuto (auto_config : string)       (* Unsupported auto configuration data *)
| RasConfigMismatch (created deleted : string) (* Can not create ... and delete ... partition *)
| RasConfigLwkcpus (lwkcpus_value : string)  (* Failure processing: lwkcpus= *)
| RasConfigLwkmem (lwkmem_value : string)    (* Failure processing: lwkmem= *)
| RasConfigAlone (which : string)            (* Can not execute ... specification alone *)
| RasConfigStatic (lwkmem_value : string).   (* Cannot create lwkmem=...  Partition is static *)

(** What a call of the functions below lets the rest of the system
    observe: the events of the functions above, carried over, and the calls
    into the memory subsystem. *)
Inductive sysfs_event :=
| Core (e : event)
| SysfsRas (r : sysfs_report)
| CallLwkmemRequest (lwkm : list N)
| CallLwkmemSetDomainInfo (typ : lwkmem_type_t) (nids : list N)
| CallLwkmemPartitionCreate (param_value : string)
| CallLwkmemPartitionDestroy.

Definition set_num_util_threads (n : Z) (p : mos_process_t) : mos_process_t := {|
  tgid := tgid p; lwkcpus := lwkcpus p; utilcpus := utilcpus p;
  lwkcpus_sequence := lwkcpus_sequence p; num_lwkcpus := num_lwkcpus p;
  num_util_threads := n; alive := alive p; yod_mm := yod_mm p
|}.

Definition set_lwkcpus_sequence (s : option (list Z)) (p : mos_process_t) : mos_process_t := {|
  tgid := tgid p; lwkcpus := lwkcpus p; utilcpus := utilcpus p;
  lwkcpus_sequence := s; num_lwkcpus := num_lwkcpus p;
  num_util_threads := num_util_threads p; alive := alive p; yod_mm := yod_mm p
|}.

(** ** The view of a CPU mask *)

(** [is_view] is what [IS_MOS_VIEW(current, _)] answers and
    [cpu_lwkcpus_mask] the mask that name stands for; both come from a
    header. The result is [None] when the code reads through the NULL
    [current->mos_process]. *)
Definition get_mos_view_cpumask (is_view : mos_view_t -> bool)
  (cpu_lwkcpus_mask : cpumask) (cur : task_struct) (src : cpumask) : option cpumask :=
  if is_view MOS_VIEW_LWK_LOCAL then
    match mos_process cur with
    | Some process => Some (cpumask_and src (lwkcpus process))
    | None => None
    end
  else if is_view MOS_VIEW_LINUX then Some (cpumask_andnot src cpu_lwkcpus_mask)
  else if is_view MOS_VIEW_LWK then Some (cpumask_and src cpu_lwkcpus_mask)
  else Some src.

(** ** Writes of a CPU mask *)

(** [struct mos_sysfs_mask_write_op]. The parser is given the zeroed
    [reqmask] and answers with its return code and the mask it left; the
    operation works on the state and the calling task. *)
Record mos_sysfs_mask_write_op := {
  parser : string -> Z * cpumask;
  operation : mos_state -> task_struct -> cpumask
              -> Z * mos_state * task_struct * list event
}.

(** [buf] is read by the parser as a C string; [count] is the number of
    bytes written. *)
Definition mos_sysfs_mask_write (senv : sysfs_env) (st : mos_state) (cur : task_struct)
  (buf : string) (count : Z) (op : mos_sysfs_mask_write_op)
  : Z * mos_state * task_struct * list event :=
  if negb (sysfs_alloc_ok senv ZallocReqmask) then ((- ENOMEM)%Z, st, cur, [])
  else
    let '(parsed, reqmask) := parser op (c_str buf) in
    if negb (Z.eqb parsed 0) then ((- EINVAL)%Z, st, cur, [])
    else
      let '(rc, st', cur', evs) := operation op st cur reqmask in
      (if Z.ltb rc 0 then rc else count, st', cur', evs).

(** The operation [MOS_SYSFS_CPU_WO(lwkcpus_request)] defines, once with
    [cpulist_parse] and once with [cpumask_parse] as its parser. *)
Definition lwkcpus_request_op (senv : sysfs_env) (parse : string -> Z * cpumask)
  : mos_sysfs_mask_write_op := {|
  parser := parse;
  operation := _lwkcpus_request_set (kernel senv)
|}.

Definition lwkcpus_request_store (senv : sysfs_env) (st : mos_state) (cur : task_struct)
  (buf : string) : Z * mos_state * task_struct * list event :=
  mos_sysfs_mask_write senv st cur buf (Z.of_nat (String.length buf))
    (lwkcpus_request_op senv (cpulist_parse (nr_cpu_ids (kernel senv)))).

(** ** Memory requests *)

(** The [strsep] loop of [_lwkmem_vec_parse] and the return after it.
    [lwkm] holds the entries written so far, so that [*n] is its length;
    the result is the return code, the entries, [*total] and the
    reports. *)
Fixpoint lwkmem_vec_walk (senv : sysfs_env) (capacity : nat) (vals : list string)
  (lwkm : list N) (total : N) : Z * list N * N * list sysfs_event :=
  match vals with
  | [] => (if Nat.ltb 0 (List.length lwkm) then 0%Z else (- EINVAL)%Z, lwkm, total, [])
  | val :: rest =>
      if Nat.eqb (List.length lwkm) capacity then
        ((- EINVAL)%Z, lwkm, total, [SysfsRas (RasLwkmemRequestOverflow capacity)])
      else
        let '(rc, v) := kstrtoul senv val in
        if negb (Z.eqb rc 0) then
          ((- EINVAL)%Z, lwkm, total, [SysfsRas (RasLwkmemRequestInvalid val)])
        else
          lwkmem_vec_walk senv capacity rest (lwkm ++ [v])
            ((total + v) mod 2 ^ BITS_PER_LONG senv)%N
  end.

(** [capacity] is [*n] on entry. *)
Definition _lwkmem_vec_parse (senv : sysfs_env) (buff : string) (capacity : nat)
  : Z * list N * N * list sysfs_event :=
  lwkmem_vec_walk senv capacity (strsep_all " " buff) [] 0%N.

(** The state of the file is only read. The record [mos_get_process]
    returns is handed to [lwkmem_request]; [current->mos_process] is not
    assigned. *)
Definition lwkmem_request_store (senv : sysfs_env) (st : mos_state) (cur : task_struct)
  (buff : string) : Z * task_struct * list sysfs_event :=
  let count := Z.of_nat (String.length buff) in
  if negb (sysfs_alloc_ok senv KstrdupLwkmemRequest) then ((- ENOMEM)%Z, cur, [])
  else
    let '(rc, lwkm, total, evs) := _lwkmem_vec_parse senv (c_str buff) (MAX_NIDS senv) in
    if negb (Z.eqb rc 0) then (rc, cur, evs)
    else
      let cur1 :=
        set_task_flags (Z.lor (mos_flags cur) (MOS_IS_LWK_PROCESS (kernel senv))) cur in
      let '(got, evs1) := mos_get_process (kernel senv) st cur1 in
      match got with
      | None => ((- ENOMEM)%Z, cur1, evs ++ map Core evs1)
      | Some process =>
          match lwkmem_request senv with
          | None => (wrap_int count, cur1, evs ++ map Core evs1)
          | Some request =>
              if negb (Z.eqb (request process lwkm) 0) then
                ((- EBUSY)%Z, cur1, evs ++ map Core evs1 ++ [CallLwkmemRequest lwkm])
              else
                (wrap_int count, cur1, evs ++ map Core evs1 ++ [CallLwkmemRequest lwkm])
          end
      end.

(** ** The count of utility threads *)

Definition lwk_util_threads_store (senv : sysfs_env) (cur : task_struct) (buff : string)
  : Z * task_struct * list sysfs_event :=
  let count := Z.of_nat (String.length buff) in
  match mos_process cur with
  | None => ((- EINVAL)%Z, cur, [SysfsRas RasUtilThreadsNonLwk])
  | Some proc =>
      let '(rc, num) := kstrtoint senv (c_str buff) in
      if negb (Z.eqb rc 0) || Z.ltb num 0 then
        ((- EINVAL)%Z, cur, [SysfsRas (RasUtilThreadsInvalid (c_str buff))])
      else (count, set_task_process (Some (set_num_util_threads num proc)) cur, [])
  end.

(** ** The CPU sequence *)

(** [a[i] = v]; [None] when the array has no entry [i]. *)
Fixpoint array_write (a : list Z) (i : nat) (v : Z) : option (list Z) :=
  match a, i with
  | [], _ => None
  | _ :: r, O => Some (v :: r)
  | x :: r, S j =>
      match array_write r j v with
      | Some r' => Some (x :: r')
      | None => None
      end
  end.

(** How the loop of [lwkcpus_sequence_store] ends: [strsep] found no more
    value, or [goto out] after a report. *)
Inductive sequence_exit :=
| SequenceEnd (cpus_in_list : Z)
| SequenceFail (report : sysfs_report).

(** The [strsep] loop of [lwkcpus_sequence_store]. [cpu_ptr] is the entry
    of the array the pointer of that name is at. The result is [None] when
    the loop writes past the end of the array. *)
Fixpoint sequence_walk (senv : sysfs_env) (num : Z) (vals : list string)
  (seq : list Z) (cpu_ptr : nat) (cpus_in_list : Z) : option (sequence_exit * list Z) :=
  match vals with
  | [] => Some (SequenceEnd cpus_in_list, seq)
  | val :: rest =>
      let '(kresult, cpuid) := kstrtouint senv val in
      if negb (Z.eqb kresult 0) then Some (SequenceFail (RasSequenceInvalid kresult), seq)
      else
        let cpus_in_list' := wrap_int (cpus_in_list + 1) in
        if Z.ltb num cpus_in_list' then Some (SequenceFail RasSequenceTooMany, seq)
        else
          match array_write seq cpu_ptr (wrap_int (Z.of_N cpuid)) with
          | None => None
          | Some seq' => sequence_walk senv num rest seq' (S cpu_ptr) cpus_in_list'
          end
  end.

(** The result is [None] when the call writes past the end of the sequence
    array of the process. *)
Definition lwkcpus_sequence_store (senv : sysfs_env) (cur : task_struct) (buff : string)
  : option (Z * task_struct * list sysfs_event) :=
  let count := Z.of_nat (String.length buff) in
  match mos_process cur with
  | None => Some ((- EINVAL)%Z, cur, [SysfsRas RasSequenceNonLwk])
  | Some proc =>
      match lwkcpus_sequence proc with
      | None => Some ((- EINVAL)%Z, cur, [SysfsRas RasSequenceBeforeCpus])
      | Some seq =>
          if negb (sysfs_alloc_ok senv KstrndupSequence) then Some ((- ENOMEM)%Z, cur, [])
          else
            match sequence_walk senv (num_lwkcpus proc) (strsep_all "," (c_str buff))
                    seq 0 0 with
            | None => None
            | Some (SequenceFail report, seq') =>
                Some ((- EINVAL)%Z,
                      set_task_process (Some (set_lwkcpus_sequence (Some seq') proc)) cur,
                      [SysfsRas report])
            | Some (SequenceEnd cpus_in_list, seq') =>
                if Z.ltb cpus_in_list (num_lwkcpus proc) then
                  Some ((- EINVAL)%Z,
                        set_task_process (Some (set_lwkcpus_sequence (Some seq') proc)) cur,
                        [SysfsRas RasSequenceTooFew])
                else
                  Some (count,
                        set_task_process (Some (set_lwkcpus_sequence (Some seq') proc)) cur,
                        [])
            end
      end
  end.

(** The entry the loop writes for a value [kstrtouint] accepts: the
    unsigned number read, as an [int]. *)
Definition sequence_entry (senv : sysfs_env) (val : string) : Z :=
  wrap_int (Z.of_N (snd (kstrtouint senv val))).

(** The sequence array [seq] of a record has one entry for each CPU the
    record counts, and one more for the sentinel. *)
Definition sequence_sized (proc : mos_process_t) (seq : list Z) : Prop :=
  lwkcpus_sequence proc = Some seq
  /\ (0 <= num_lwkcpus proc < 2 ^ 31 - 1)%Z
  /\ Z.of_nat (List.length seq) = (num_lwkcpus proc + 1)%Z.

(** ** Memory domains *)

Definition lwkmem_type_of (typ_str : string) : option lwkmem_type_t :=
  if String.eqb typ_str "hbm" then Some lwkmem_hbm
  else if String.eqb typ_str "dram" then Some lwkmem_dram
  else if String.eqb typ_str "nvram" then Some lwkmem_nvram
  else None.

(** The inner [strsep] loop of [lwkmem_domain_info_store], over the ids of
    one phrase: the report that ends it, or the ids read. *)
Fixpoint nids_walk (senv : sysfs_env) (nid_strs : list string) (nids : list N)
  : sysfs_report + list N :=
  match nid_strs with
  | [] => inr nids
  | nid_str :: rest =>
      if Nat.eqb (List.length nids) (MAX_NIDS senv) then inl RasDomainInfoOverflow
      else
        let '(rc, v) := kstrtoul senv nid_str in
        if negb (Z.eqb rc 0) then inl (RasDomainInfoInvalid nid_str)
        else nids_walk senv rest (nids ++ [v])
  end.

(** The outer [strsep] loop of [lwkmem_domain_info_store], over the
    phrases. *)
Fixpoint domain_info_walk (senv : sysfs_env) (mosp : mos_process_t)
  (typ_strs : list string) : walk_exit * list sysfs_event :=
  match typ_strs with
  | [] => (WalkDone, [])
  | typ_str :: rest =>
      if Nat.eqb (String.length typ_str) 0 then domain_info_walk senv mosp rest
      else
        match strchr typ_str "=" with
        | None => (WalkFail (- EINVAL)%Z, [])
        | Some (typ_name, nids_str) =>
            match lwkmem_type_of typ_name with
            | None => (WalkFail (- EINVAL)%Z, [SysfsRas (RasDomainInfoType typ_name)])
            | Some typ =>
                match nids_walk senv (strsep_all "," nids_str) [] with
                | inl report => (WalkFail (- EINVAL)%Z, [SysfsRas report])
                | inr nids =>
                    match lwkmem_set_domain_info senv with
                    | None => domain_info_walk senv mosp rest
                    | Some set_domain_info =>
                        let rc := set_domain_info mosp typ nids in
                        if negb (Z.eqb rc 0) then
                          (WalkFail (- EINVAL)%Z,
                           [CallLwkmemSetDomainInfo typ nids;
                            SysfsRas (RasDomainInfoRejected rc)])
                        else
                          let '(r, evs) := domain_info_walk senv mosp rest in
                          (r, CallLwkmemSetDomainInfo typ nids :: evs)
                    end
                end
            end
        end
  end.

(** For a task without a record the code goes on to free a pointer it has
    not set; the model ends at the return code. *)
Definition lwkmem_domain_info_store (senv : sysfs_env) (cur : task_struct) (buff : string)
  : Z * list sysfs_event :=
  let count := Z.of_nat (String.length buff) in
  match mos_process cur with
  | None => ((- EINVAL)%Z, [SysfsRas RasDomainInfoNonLwk])
  | Some mosp =>
      if negb (sysfs_alloc_ok senv KstrdupDomainInfo) then ((- ENOMEM)%Z, [])
      else
        match domain_info_walk senv mosp (strsep_all " " (c_str buff)) with
        | (WalkFail rc, evs) => (rc, evs)
        | (WalkDone, evs) => (count, evs)
        end
  end.

(** One phrase of a write to [lwkmem_domain_info] read on its own: the
    type and the ids it names, when it has the form [<type>=<nid>,...]
    with a type of the three and ids that are read. *)
Definition domain_phrase (senv : sysfs_env) (typ_str : string)
  : option (lwkmem_type_t * list N) :=
  match strchr typ_str "=" with
  | None => None
  | Some (typ_name, nids_str) =>
      match lwkmem_type_of typ_name, nids_walk senv (strsep_all "," nids_str) [] with
      | Some typ, inr nids => Some (typ, nids)
      | _, _ => None
      end
  end.

(** The phrase is well-formed and the memory subsystem, if it is asked,
    answers 0. *)
Definition domain_phrase_accepted (senv : sysfs_env) (mosp : mos_process_t)
  (typ_str : string) : bool :=
  match domain_phrase senv typ_str, lwkmem_set_domain_info senv with
  | Some (typ, nids), Some set_domain_info => Z.eqb (set_domain_info mosp typ nids) 0
  | Some _, None => true
  | None, _ => false
  end.

(** The call a phrase makes. *)
Definition domain_phrase_call (senv : sysfs_env) (typ_str : string) : list sysfs_event :=
  match domain_phrase senv typ_str, lwkmem_set_domain_info senv with
  | Some (typ, nids), Some _ => [CallLwkmemSetDomainInfo typ nids]
  | _, _ => []
  end.

(** The phrases of a text: its pieces between spaces that are not
    empty. *)
Definition phrases_of (text : string) : list string :=
  filter (fun phrase => negb (Nat.eqb (String.length phrase) 0)) (strsep_all " " text).

(** ** The partition configuration *)

Definition lwk_config_lwkmem (senv : sysfs_env) (param_value : string)
  : Z * list sysfs_event :=
  if lwkmem_static_enabled senv then ((- EINVAL)%Z, [])
  else if Nat.eqb (String.length param_value) 0 then
    (lwkmem_partition_destroy senv, [CallLwkmemPartitionDestroy])
  else (lwkmem_partition_create senv param_value, [CallLwkmemPartitionCreate param_value]).

(** The [strsep] loop of [lwk_validate_auto]. *)
Fixpoint validate_auto_walk (resources : list string) : Z :=
  match resources with
  | [] => 0%Z
  | resource :: rest =>
      if negb (String.eqb resource "cpu") && negb (String.eqb resource "mem") then (-1)%Z
      else validate_auto_walk rest
  end.

Definition lwk_validate_auto (senv : sysfs_env) (auto_s : string) : Z :=
  if negb (sysfs_alloc_ok senv KstrdupAuto) then (-1)%Z
  else validate_auto_walk (strsep_all "," auto_s).

(** The static variable [lwkauto] and the two arrays of the CPU
    controller that [lwk_config_store] writes and [lwk_config_show] reads,
    with the state of the file. *)
Record config_state := {
  core : mos_state;
  lwkauto : option string;
  lwkctrl_cpus_spec : string;
  lwkctrl_cpu_profile_spec : string
}.

Definition set_core (st : mos_state) (cst : config_state) : config_state := {|
  core := st; lwkauto := lwkauto cst;
  lwkctrl_cpus_spec := lwkctrl_cpus_spec cst;
  lwkctrl_cpu_profile_spec := lwkctrl_cpu_profile_spec cst
|}.

Definition set_lwkauto (a : option string) (cst : config_state) : config_state := {|
  core := core cst; lwkauto := a;
  lwkctrl_cpus_spec := lwkctrl_cpus_spec cst;
  lwkctrl_cpu_profile_spec := lwkctrl_cpu_profile_spec cst
|}.

Definition set_lwkctrl_specs (cpus profile : string) (cst : config_state) : config_state := {|
  core := core cst; lwkauto := lwkauto cst;
  lwkctrl_cpus_spec := cpus;
  lwkctrl_cpu_profile_spec := profile
|}.

(** The local variables of [lwk_config_store] that its loop sets: the four
    values, [None] for NULL, and the two flags. *)
Record config_vars := {
  cfg_lwkcpus : option string;
  cfg_lwkcpu_profile : option string;
  cfg_lwkmem : option string;
  cfg_auto_config : option string;
  delete_lwkcpu : bool;
  delete_lwkmem : bool
}.

Definition config_vars_init : config_vars := {|
  cfg_lwkcpus := None; cfg_lwkcpu_profile := None; cfg_lwkmem := None;
  cfg_auto_config := None; delete_lwkcpu := false; delete_lwkmem := false
|}.

(** One keyword of the four with its value: the assignment the loop
    makes. Other keywords leave the variables alone and are reported. *)
Definition config_assign (s_keyword value : string) (vars : config_vars)
  : option config_vars :=
  if String.eqb s_keyword "lwkcpus" then
    Some {| cfg_lwkcpus := Some value;
            cfg_lwkcpu_profile := cfg_lwkcpu_profile vars;
            cfg_lwkmem := cfg_lwkmem vars;
            cfg_auto_config := cfg_auto_config vars;
            delete_lwkcpu := Nat.eqb (String.length value) 0;
            delete_lwkmem := delete_lwkmem vars |}
  else if String.eqb s_keyword "lwkcpu_profile" then
    Some {| cfg_lwkcpus := cfg_lwkcpus vars;
            cfg_lwkcpu_profile := Some value;
            cfg_lwkmem := cfg_lwkmem vars;
            cfg_auto_config := cfg_auto_config vars;
            delete_lwkcpu := delete_lwkcpu vars;
            delete_lwkmem := delete_lwkmem vars |}
  else if String.eqb s_keyword "lwkmem" then
    Some {| cfg_lwkcpus := cfg_lwkcpus vars;
            cfg_lwkcpu_profile := cfg_lwkcpu_profile vars;
            cfg_lwkmem := Some value;
            cfg_auto_config := cfg_auto_config vars;
            delete_lwkcpu := delete_lwkcpu vars;
            delete_lwkmem := Nat.eqb (String.length value) 0 |}
  else if String.eqb s_keyword "auto" then
    Some {| cfg_lwkcpus := cfg_lwkcpus vars;
            cfg_lwkcpu_profile := cfg_lwkcpu_profile vars;
            cfg_lwkmem := cfg_lwkmem vars;
            cfg_auto_config := Some value;
            delete_lwkcpu := delete_lwkcpu vars;
            delete_lwkmem := delete_lwkmem vars |}
  else None.

(** The [strsep] loop of [lwk_config_store]: the variables when it runs to
    its end, [None] when it leaves with [goto out]. *)
Fixpoint config_keywords (senv : sysfs_env) (keywords : list string) (vars : config_vars)
  : option config_vars * list sysfs_event :=
  match keywords with
  | [] => (Some vars, [])
  | s_keyword :: rest =>
      if Nat.eqb (String.length s_keyword) 0 then config_keywords senv rest vars
      else
        match strchr s_keyword "=" with
        | None => (None, [SysfsRas (RasConfigNoSign s_keyword)])
        | Some (keyword, s_value) =>
            match config_assign keyword (first_line s_value) vars with
            | Some vars' =>
                if negb (sysfs_alloc_ok senv KstrdupConfigValue) then (None, [])
                else config_keywords senv rest vars'
            | None =>
                let '(r, evs) := config_keywords senv rest vars in
                (r, SysfsRas (RasConfigKeywordIgnored keyword) :: evs)
            end
        end
  end.

(** What one piece of the text does to the variables when the loop gets
    past it: a piece [keyword=value] with one of the four keywords sets a
    value, any other piece leaves them. *)
Definition config_step (vars : config_vars) (s_keyword : string) : config_vars :=
  match strchr s_keyword "=" with
  | Some (keyword, s_value) =>
      match config_assign keyword (first_line s_value) vars with
      | Some vars' => vars'
      | None => vars
      end
  | None => vars
  end.

(** The variables after the loop has read all the pieces. *)
Definition config_read (keywords : list string) : config_vars :=
  fold_left config_step keywords config_vars_init.

(** "Update LWKCPU and LWKCPU profile specs": the two arrays after a
    specification has been applied. *)
Definition update_lwkctrl_specs (senv : sysfs_env) (vars : config_vars)
  (lwkcpus_value : string) (cst : config_state) : config_state :=
  let nor := LWKCPU_PROF_NOR (kernel senv) in
  set_lwkctrl_specs
    (snprintf_s (LWKCTRL_CPUS_SPECSZ senv) (lwkctrl_cpus_spec cst) lwkcpus_value)
    (if delete_lwkcpu vars then EmptyString
     else
       match cfg_lwkcpu_profile vars with
       | Some profile =>
           if negb (String.eqb profile nor)
              && negb (String.eqb profile (LWKCPU_PROF_DBG senv))
           then snprintf_s (LWKCTRL_CPU_PROFILE_SPECSZ senv)
                  (lwkctrl_cpu_profile_spec cst) nor
           else snprintf_s (LWKCTRL_CPU_PROFILE_SPECSZ senv)
                  (lwkctrl_cpu_profile_spec cst) profile
       | None => snprintf_s (LWKCTRL_CPU_PROFILE_SPECSZ senv)
                   (lwkctrl_cpu_profile_spec cst) nor
       end)
    cst.

(** [lwk_config_lwkcpus(lwkcpus, lwkcpu_profile) < 0] with its report: the
    return code, the state after the call and what was observed. *)
Definition config_store_lwkcpus (senv : sysfs_env) (vars : config_vars)
  (lwkcpus_value : string) (cst : config_state) : bool * config_state * list sysfs_event :=
  let '(rc, st', evs) :=
    lwk_config_lwkcpus (kernel senv) (core cst) lwkcpus_value (cfg_lwkcpu_profile vars) in
  if Z.ltb rc 0 then
    (false, set_core st' cst, map Core evs ++ [SysfsRas (RasConfigLwkcpus lwkcpus_value)])
  else (true, set_core st' cst, map Core evs).

(** [lwk_config_lwkmem(lwkmem) < 0] with its report. *)
Definition config_store_lwkmem (senv : sysfs_env) (lwkmem_value : string)
  : bool * list sysfs_event :=
  let '(rc, evs) := lwk_config_lwkmem senv lwkmem_value in
  if Z.ltb rc 0 then (false, evs ++ [SysfsRas (RasConfigLwkmem lwkmem_value)])
  else (true, evs).

(** [lwk_config_store] after [lwkauto] has been set: the two branches on
    [lwkcpus && lwkmem && !lwkmem_static_enabled]. *)
Definition config_apply (senv : sysfs_env) (vars : config_vars) (count : Z)
  (cst : config_state) : Z * config_state * list sysfs_event :=
  let rc := (- EINVAL)%Z in
  match cfg_lwkcpus vars, cfg_lwkmem vars, lwkmem_static_enabled senv with
  | Some lwkcpus_value, Some lwkmem_value, false =>
      if negb (Bool.eqb (delete_lwkcpu vars) (delete_lwkmem vars)) then
        (rc, cst,
         [SysfsRas (if delete_lwkcpu vars then RasConfigMismatch "lwkmem" "lwkcpu"
                    else RasConfigMismatch "lwkcpu" "lwkmem")])
      else if delete_lwkcpu vars then
        let '(ok1, cst1, evs1) := config_store_lwkcpus senv vars lwkcpus_value cst in
        if negb ok1 then (rc, cst1, evs1)
        else
          let '(ok2, evs2) := config_store_lwkmem senv lwkmem_value in
          if negb ok2 then (rc, cst1, evs1 ++ evs2)
          else (count, update_lwkctrl_specs senv vars lwkcpus_value cst1, evs1 ++ evs2)
      else
        let '(ok1, evs1) := config_store_lwkmem senv lwkmem_value in
        if negb ok1 then (rc, cst, evs1)
        else
          let '(ok2, cst2, evs2) := config_store_lwkcpus senv vars lwkcpus_value cst in
          if negb ok2 then (rc, cst2, evs1 ++ evs2)
          else (count, update_lwkctrl_specs senv vars lwkcpus_value cst2, evs1 ++ evs2)
  | lwkcpus_given, lwkmem_given, static =>
      if negb static then
        (rc, cst,
         [SysfsRas (RasConfigAlone
                      match lwkcpus_given with Some _ => "lwkcpus" | None => "lwkmem" end)])
      else
        let '(done, rc1, cst1, evs1) :=
          match lwkcpus_given with
          | Some lwkcpus_value =>
              let '(ok, cst1, evs1) := config_store_lwkcpus senv vars lwkcpus_value cst in
              if negb ok then (false, rc, cst1, evs1)
              else (true, count, update_lwkctrl_specs senv vars lwkcpus_value cst1, evs1)
          | None => (true, rc, cst, [])
          end in
        if negb done then (rc1, cst1, evs1)
        else
          match lwkmem_given with
          | Some lwkmem_value =>
              (match lwkcpus_given with Some _ => rc1 | None => (- EINVAL)%Z end,
               cst1, evs1 ++ [SysfsRas (RasConfigStatic lwkmem_value)])
          | None => (rc1, cst1, evs1)
          end
  end.

Definition lwk_config_store (senv : sysfs_env) (cst : config_state) (buff : string)
  : Z * config_state * list sysfs_event :=
  let count := Z.of_nat (String.length buff) in
  let rc := (- EINVAL)%Z in
  if negb (sysfs_alloc_ok senv KstrdupConfigStore) then (rc, cst, [])
  else
    match config_keywords senv (strsep_all " " (c_str buff)) config_vars_init with
    | (None, evs) => (rc, cst, evs)
    | (Some vars, evs) =>
        match cfg_auto_config vars with
        | Some auto_config =>
            if negb (Z.eqb (lwk_validate_auto senv auto_config) 0) then
              (rc, cst, evs ++ [SysfsRas (RasConfigAuto auto_config)])
            else
              let '(rc', cst', evs') :=
                config_apply senv vars count (set_lwkauto (Some auto_config) cst) in
              (rc', cst', evs ++ evs')
        | None =>
            let '(rc', cst', evs') := config_apply senv vars count (set_lwkauto None cst) in
            (rc', cst', evs ++ evs')
        end
    end.

(** [scnprintf(buf, size, ...)] for the text the format expands to: at
    most [size - 1] characters are stored, and their number is returned. *)
Definition scnprintf (size : nat) (text : string) : string :=
  match size with
  | O => EmptyString
  | S n => substring 0 n text
  end.

(** The return code and the text left in [buff], [None] when nothing is
    written. The copy of the empty string is not checked; for a NULL
    string the kernel prints "(null)". *)
Definition lwk_config_show (senv : sysfs_env) (cst : config_state) : Z * option string :=
  let auto_s :=
    match lwkauto cst with
    | None => if sysfs_alloc_ok senv KstrdupShowAuto then Some EmptyString
              else Some "(null)"%string
    | Some a => if sysfs_alloc_ok senv KmallocShowAuto then Some (" auto=" ++ a)%string
                else None
    end in
  match auto_s with
  | None => ((- ENOMEM)%Z, None)
  | Some auto_text =>
      let text :=
        scnprintf (PAGE_SIZE senv)
          ("lwkcpus=" ++ lwkctrl_cpus_spec cst
           ++ " lwkcpu_profile=" ++ lwkctrl_cpu_profile_spec cst
           ++ " lwkmem=" ++ lwkmem_get_spec senv ++ auto_text
           ++ String LF EmptyString)%string in
      (Z.of_nat (String.length text), Some text)
  end.

(** ** Threads that leave one after the other *)

(** [n] calls of [mos_exit_thread] made by threads of one process, each
    finding the record as the thread before it left it. *)
Fixpoint exit_threads (n : nat) (st : mos_state) (cur : task_struct)
  : mos_state * task_struct * list event :=
  match n with
  | O => (st, cur, [])
  | S k =>
      let '(st1, cur1, evs1) := mos_exit_thread st cur in
      let '(st2, cur2, evs2) := exit_threads k st1 cur1 in
      (st2, cur2, evs1 ++ evs2)
  end.

(** ** Samples for these files *)

(** A number parser for the samples: decimal digits and nothing else. *)
Definition sample_number (s : string) : Z * N :=
  match parse_uint s with
  | Some n => (0%Z, n)
  | None => ((- EINVAL)%Z, 0%N)
  end.

(** The sample machine with a memory subsystem that works with a dynamic
    partition and answers 0 to every call; memory of up to 4 domains. *)
Definition sample_senv : sysfs_env := {|
  kernel := sample_env;
  sysfs_alloc_ok := fun _ => true;
  MAX_NIDS := 4;
  BITS_PER_LONG := 64;
  PAGE_SIZE := 4096;
  LWKCPU_PROF_DBG := "debug";
  LWKCTRL_CPUS_SPECSZ := 64;
  LWKCTRL_CPU_PROFILE_SPECSZ := 16;
  kstrtoul := sample_number;
  kstrtoint := fun s => (fst (sample_number s), Z.of_N (snd (sample_number s)));
  kstrtouint := sample_number;
  lwkmem_request := Some (fun _ _ => 0%Z);
  lwkmem_set_domain_info := Some (fun _ _ _ => 0%Z);
  lwkmem_static_enabled := false;
  lwkmem_partition_create := fun _ => 0%Z;
  lwkmem_partition_destroy := 0%Z;
  lwkmem_get_spec := "1G"
|}.

(** The same with a memory partition that is fixed at boot. *)
Definition static_senv : sysfs_env := {|
  kernel := kernel sample_senv;
  sysfs_alloc_ok := sysfs_alloc_ok sample_senv;
  MAX_NIDS := MAX_NIDS sample_senv;
  BITS_PER_LONG := BITS_PER_LONG sample_senv;
  PAGE_SIZE := PAGE_SIZE sample_senv;
  LWKCPU_PROF_DBG := LWKCPU_PROF_DBG sample_senv;
  LWKCTRL_CPUS_SPECSZ := LWKCTRL_CPUS_SPECSZ sample_senv;
  LWKCTRL_CPU_PROFILE_SPECSZ := LWKCTRL_CPU_PROFILE_SPECSZ sample_senv;
  kstrtoul := kstrtoul sample_senv;
  kstrtoint := kstrtoint sample_senv;
  kstrtouint := kstrtouint sample_senv;
  lwkmem_request := lwkmem_request sample_senv;
  lwkmem_set_domain_info := lwkmem_set_domain_info sample_senv;
  lwkmem_static_enabled := true;
  lwkmem_partition_create := lwkmem_partition_create sample_senv;
  lwkmem_partition_destroy := lwkmem_partition_destroy sample_senv;
  lwkmem_get_spec := lwkmem_get_spec sample_senv
|}.

(** Process 100 after a claim of CPUs 2 and 3 of the sample partition. *)
Definition sample_two_cpus : task_struct :=
  snd (fst (_lwkcpus_request_set sample_env sample_partition (sample_task 100)
              (cpumask_of_list [2; 3]%N))).

(** A task in the Linux view, and a task in the LWK view. *)
Definition sample_linux_view (view : mos_view_t) : bool :=
  match view with
  | MOS_VIEW_LINUX => true
  | _ => false
  end.

Definition sample_lwk_view (view : mos_view_t) : bool :=
  match view with
  | MOS_VIEW_LWK => true
  | _ => false
  end.

(** The sample machine with a driver that cannot take CPUs from Linux:
    its [lwkcpu_partition_create] answers -5. *)
Definition failing_env : kernel_env := {|
  nr_cpu_ids := nr_cpu_ids sample_env;
  cpu_online_mask := cpu_online_mask sample_env;
  cpu_possible_mask := cpu_possible_mask sample_env;
  MOS_IS_LWK_PROCESS := MOS_IS_LWK_PROCESS sample_env;
  LWKCPU_PROF_NOR := LWKCPU_PROF_NOR sample_env;
  alloc_ok := alloc_ok sample_env;
  lwkcpu_partition_create := fun _ => (-5)%Z;
  lwkcpu_partition_destroy := lwkcpu_partition_destroy sample_env;
  lwkcpu_state_init := lwkcpu_state_init sample_env;
  process_callback := process_callback sample_env;
  option_callback := option_callback sample_env
|}.

(** The sample machine with a driver whose [lwkcpu_partition_create]
    answers 5: not 0, and not negative. *)
Definition positive_env : kernel_env := {|
  nr_cpu_ids := nr_cpu_ids sample_env;
  cpu_online_mask := cpu_online_mask sample_env;
  cpu_possible_mask := cpu_possible_mask sample_env;
  MOS_IS_LWK_PROCESS := MOS_IS_LWK_PROCESS sample_env;
  LWKCPU_PROF_NOR := LWKCPU_PROF_NOR sample_env;
  alloc_ok := alloc_ok sample_env;
  lwkcpu_partition_create := fun _ => 5%Z;
  lwkcpu_partition_destroy := lwkcpu_partition_destroy sample_env;
  lwkcpu_state_init := lwkcpu_state_init sample_env;
  process_callback := process_callback sample_env;
  option_callback := option_callback sample_env
|}.

(** That machine, with a memory partition that is fixed at boot. *)
Definition positive_senv : sysfs_env := {|
  kernel := positive_env;
  sysfs_alloc_ok := sysfs_alloc_ok static_senv;
  MAX_NIDS := MAX_NIDS static_senv;
  BITS_PER_LONG := BITS_PER_LONG static_senv;
  PAGE_SIZE := PAGE_SIZE static_senv;
  LWKCPU_PROF_DBG := LWKCPU_PROF_DBG static_senv;
  LWKCTRL_CPUS_SPECSZ := LWKCTRL_CPUS_SPECSZ static_senv;
  LWKCTRL_CPU_PROFILE_SPECSZ := LWKCTRL_CPU_PROFILE_SPECSZ static_senv;
  kstrtoul := kstrtoul static_senv;
  kstrtoint := kstrtoint static_senv;
  kstrtouint := kstrtouint static_senv;
  lwkmem_request := lwkmem_request static_senv;
  lwkmem_set_domain_info := lwkmem_set_domain_info static_senv;
  lwkmem_static_enabled := lwkmem_static_enabled static_senv;
  lwkmem_partition_create := lwkmem_partition_create static_senv;
  lwkmem_partition_destroy := lwkmem_partition_destroy static_senv;
  lwkmem_get_spec := lwkmem_get_spec static_senv
|}.

(** The sample partition as [lwk_config] has recorded it. *)
Definition sample_config : config_state := {|
  core := sample_partition;
  lwkauto := None;
  lwkctrl_cpus_spec := "1.2,3";
  lwkctrl_cpu_profile_spec := "normal"
|}.

(** The state at boot with nothing configured. *)
Definition boot_config : config_state := {|
  core := boot_state;
  lwkauto := None;
  lwkctrl_cpus_spec := EmptyString;
  lwkctrl_cpu_profile_spec := EmptyString
|}.

(** Every piece of a given text is empty or has an [=]. *)
Ltac pieces_have_sign :=
  apply Forall_forall; intros piece Hpiece; vm_compute in Hpiece;
  repeat (destruct Hpiece as [<- | Hpiece];
          [first [left; reflexivity | right; vm_compute; discriminate]|]);
  destruct Hpiece.

(** * Properties *)

(** ** CPU masks bit by bit *)

Section CpumaskFacts.

Lemma cpumask_empty_bits (m : cpumask) :
  cpumask_empty m = true <-> forall c, N.testbit m c = false.
Proof.
  unfold cpumask_empty. rewrite N.eqb_eq. split.
  - intros -> c. apply N.bits_0.
  - apply N.bits_inj_0.
Qed.

Lemma cpumask_subset_bits (a b : cpumask) :
  cpumask_subset a b = true <->
  forall c, N.testbit a c = true -> N.testbit b c = true.
Proof.
  unfold cpumask_subset. rewrite N.eqb_eq. split.
  - intros H c Ha.
    assert (Hc : N.testbit (N.ldiff a b) c = false) by (rewrite H; apply N.bits_0).
    rewrite N.ldiff_spec, Ha in Hc. simpl in Hc.
    now apply negb_false_iff in Hc.
  - intros H. apply N.bits_inj_0. intros c. rewrite N.ldiff_spec.
    destruct (N.testbit a c) eqn:Ha; [|reflexivity].
    now rewrite (H c Ha).
Qed.

Lemma cpumask_disjoint_bits (a b : cpumask) :
  cpumask_intersects a b = false <->
  forall c, N.testbit a c = true -> N.testbit b c = false.
Proof.
  unfold cpumask_intersects. rewrite negb_false_iff, N.eqb_eq. split.
  - intros H c Ha.
    assert (Hc : N.testbit (N.land a b) c = false) by (rewrite H; apply N.bits_0).
    now rewrite N.land_spec, Ha in Hc.
  - intros H. apply N.bits_inj_0. intros c. rewrite N.land_spec.
    destruct (N.testbit a c) eqn:Ha; [|reflexivity].
    now rewrite (H c Ha).
Qed.

Lemma cpumask_intersects_bits (a b : cpumask) :
  cpumask_intersects a b = true <->
  exists c, N.testbit a c = true /\ N.testbit b c = true.
Proof.
  split.
  - unfold cpumask_intersects. rewrite negb_true_iff, N.eqb_neq. intros H.
    exists (N.log2 (N.land a b)).
    apply N.bit_log2 in H. rewrite N.land_spec in H.
    now apply andb_true_iff in H.
  - intros (c & Ha & Hb).
    destruct (cpumask_intersects a b) eqn:E; [reflexivity|].
    rewrite cpumask_disjoint_bits in E. rewrite (E c Ha) in Hb. discriminate.
Qed.

Lemma cpumask_subset_empty (b : cpumask) : cpumask_subset cpumask_clear b = true.
Proof. reflexivity. Qed.

Lemma cpumask_intersects_empty (b : cpumask) :
  cpumask_intersects cpumask_clear b = false.
Proof. reflexivity. Qed.

Lemma cpumask_subset_of_empty (a : cpumask) :
  cpumask_subset a cpumask_clear = true -> a = cpumask_clear.
Proof.
  unfold cpumask_subset, cpumask_clear. rewrite N.eqb_eq, N.ldiff_0_r. auto.
Qed.

Lemma cpumask_of_bits (cpu c : N) :
  N.testbit (cpumask_of cpu) c = N.eqb cpu c.
Proof.
  unfold cpumask_of, cpumask_set_cpu, cpumask_clear.
  rewrite N.setbit_eqb, N.bits_0. apply orb_false_r.
Qed.

Lemma pos_cpus_In (p : positive) : forall i c,
  In c (pos_cpus p i) <->
  exists k, c = (i + k)%N /\ N.testbit (Npos p) k = true.
Proof.
  induction p as [q IH | q IH |]; intros i c; simpl pos_cpus.
  - change (Npos q~1) with (2 * Npos q + 1)%N. split.
    + intros [<- | H].
      * exists 0%N. split; [lia | apply N.testbit_odd_0].
      * apply IH in H as (k & -> & Hk). exists (N.succ k).
        split; [lia | now rewrite N.testbit_odd_succ'].
    + intros (k & -> & Hk).
      destruct (N.eq_dec k 0) as [-> | Hne].
      * left. lia.
      * right. apply IH. exists (N.pred k). split; [lia|].
        rewrite <- (N.succ_pred k Hne) in Hk.
        now rewrite N.testbit_odd_succ' in Hk.
  - change (Npos q~0) with (2 * Npos q)%N. split.
    + intros H. apply IH in H as (k & -> & Hk). exists (N.succ k).
      split; [lia | now rewrite N.testbit_even_succ'].
    + intros (k & -> & Hk).
      destruct (N.eq_dec k 0) as [-> | Hne].
      * rewrite N.testbit_even_0 in Hk. discriminate.
      * apply IH. exists (N.pred k). split; [lia|].
        rewrite <- (N.succ_pred k Hne) in Hk.
        now rewrite N.testbit_even_succ' in Hk.
  - split.
    + intros [<- | []]. exists 0%N. split; [lia | reflexivity].
    + intros (k & -> & Hk). left.
      destruct k as [| k']; [lia|]. simpl in Hk. discriminate.
Qed.

(** [for_each_cpu] visits exactly the CPUs of the mask. *)
Lemma for_each_cpu_In (m : cpumask) (c : N) :
  In c (for_each_cpu m) <-> N.testbit m c = true.
Proof.
  destruct m as [| p]; simpl.
  - split; [intros [] | discriminate].
  - rewrite pos_cpus_In. split.
    + intros (k & -> & Hk). now rewrite N.add_0_l.
    + intros H. exists c. split; [now rewrite N.add_0_l | exact H].
Qed.

Lemma pos_weight_length (p : positive) (i : N) :
  pos_weight p = Z.of_nat (List.length (pos_cpus p i)).
Proof.
  revert i. induction p as [q IH | q IH |]; intros i; cbn [pos_cpus pos_weight].
  - rewrite (IH (N.succ i)). cbn [List.length]. lia.
  - apply IH.
  - reflexivity.
Qed.

(** [cpumask_weight] counts the CPUs [for_each_cpu] visits. *)
Lemma cpumask_weight_length (m : cpumask) :
  cpumask_weight m = Z.of_nat (List.length (for_each_cpu m)).
Proof.
  destruct m as [| p]; [reflexivity | apply pos_weight_length].
Qed.

Lemma cpu_sequence_length (m : cpumask) :
  Z.of_nat (List.length (cpu_sequence m)) = (cpumask_weight m + 1)%Z.
Proof.
  unfold cpu_sequence. rewrite length_app, length_map, cpumask_weight_length.
  simpl. lia.
Qed.

Lemma existsb_eqb_In (c : N) (l : list N) :
  existsb (N.eqb c) l = true <-> In c l.
Proof.
  rewrite existsb_exists. split.
  - intros (x & Hx & E). apply N.eqb_eq in E. now subst.
  - intros H. exists c. split; [exact H | apply N.eqb_refl].
Qed.

(** A loop that writes [val cpu] into the entry of each [cpu] of a list
    leaves [val c] in the entries it visited and the others as they were. *)
Lemma per_cpu_fold (val : N -> cpumask) (l : list N) : forall table c,
  fold_left (fun t cpu => per_cpu_write t cpu (val cpu)) l table c
  = if existsb (N.eqb c) l then val c else table c.
Proof.
  induction l as [| a l IH]; intros table c; simpl; [reflexivity|].
  rewrite IH. unfold per_cpu_write.
  destruct (existsb (N.eqb c) l); [now rewrite orb_true_r|].
  rewrite orb_false_r.
  destruct (N.eqb c a) eqn:E; [|reflexivity].
  apply N.eqb_eq in E. now subst.
Qed.

Lemma existsb_for_each_cpu (m : cpumask) (c : N) :
  existsb (N.eqb c) (for_each_cpu m) = N.testbit m c.
Proof.
  destruct (N.testbit m c) eqn:E.
  - apply existsb_eqb_In, for_each_cpu_In, E.
  - destruct (existsb (N.eqb c) (for_each_cpu m)) eqn:E'; [|reflexivity].
    apply existsb_eqb_In, for_each_cpu_In in E'. congruence.
Qed.

Lemma route_self_spec (cpus : cpumask) (table : N -> cpumask) (c : N) :
  route_self cpus table c
  = if cpumask_test_cpu c cpus then cpumask_of c else table c.
Proof.
  unfold route_self, cpumask_test_cpu.
  now rewrite (per_cpu_fold cpumask_of), existsb_for_each_cpu.
Qed.

Lemma route_group_spec (to from : cpumask) (table : N -> cpumask) (c : N) :
  route_group to from table c
  = if cpumask_test_cpu c from
    then (if Z.eqb (cpumask_weight to) 0 then cpumask_of c else to)
    else table c.
Proof.
  unfold route_group, cpumask_test_cpu.
  now rewrite (per_cpu_fold
                 (fun cpu => if Z.eqb (cpumask_weight to) 0 then cpumask_of cpu else to)),
    existsb_for_each_cpu.
Qed.

End CpumaskFacts.

(** ** The groups of a specification *)

Section SpecGroups.

Variable env : kernel_env.

Lemma accumulate_bits (f : string -> cpumask) (groups : list string) :
  forall acc c,
  N.testbit (accumulate f groups acc) c = true <->
  N.testbit acc c = true \/ exists g, In g groups /\ N.testbit (f g) c = true.
Proof.
  unfold accumulate.
  induction groups as [| g groups IH]; intros acc c; cbn [fold_left].
  - split; [auto | intros [H | (g & [] & _)]; exact H].
  - rewrite IH. unfold cpumask_or.
    rewrite N.lor_spec, orb_true_iff. split.
    + intros [[H | H] | (g' & Hin & H)].
      * now left.
      * right. exists g. split; [now left | exact H].
      * right. exists g'. split; [now right | exact H].
    + intros [H | (g' & [-> | Hin] & H)].
      * left. now left.
      * left. now right.
      * right. now exists g'.
Qed.

(** Groups that are accepted one by one leave the two accumulated masks. *)
Lemma validate_groups_accepted (groups : list string) :
  forall lwk sys,
  forallb (group_accepted env) groups = true ->
  validate_groups env groups lwk sys
  = inr (accumulate (group_from env) groups lwk, accumulate (group_to env) groups sys).
Proof.
  induction groups as [| g groups IH]; intros lwk sys H; [reflexivity|].
  cbn [forallb] in H. apply andb_true_iff in H as [Hg Hrest].
  unfold group_accepted, group_parses, group_ambiguous in Hg.
  unfold accumulate. cbn [validate_groups fold_left].
  fold (accumulate (group_from env) groups (cpumask_or lwk (group_from env g))).
  fold (accumulate (group_to env) groups (cpumask_or sys (group_to env g))).
  rewrite <- (IH _ _ Hrest).
  unfold group_to, group_from in *.
  destruct (split_group g) as [s_to s_from]. cbn [fst snd] in *.
  destruct (cpulist_parse (nr_cpu_ids env) s_to) as [rc_to to].
  destruct (cpulist_parse (nr_cpu_ids env) s_from) as [rc_from from].
  cbn [fst snd] in *.
  apply andb_true_iff in Hg as [Hp Ha].
  apply andb_true_iff in Hp as [Hp1 Hp2].
  apply negb_true_iff in Hp1, Hp2, Ha.
  now rewrite Hp1, Hp2, Ha.
Qed.

(** Accepted groups in front are passed over. *)
Lemma validate_groups_app (pre rest : list string) :
  forall lwk sys,
  forallb (group_accepted env) pre = true ->
  validate_groups env (pre ++ rest) lwk sys
  = validate_groups env rest
      (accumulate (group_from env) pre lwk) (accumulate (group_to env) pre sys).
Proof.
  induction pre as [| g pre IH]; intros lwk sys H; [reflexivity|].
  cbn [forallb] in H. apply andb_true_iff in H as [Hg Hrest].
  unfold accumulate. cbn [fold_left].
  fold (accumulate (group_from env) pre (cpumask_or lwk (group_from env g))).
  fold (accumulate (group_to env) pre (cpumask_or sys (group_to env g))).
  rewrite <- (IH _ _ Hrest).
  unfold group_accepted, group_parses, group_ambiguous in Hg.
  cbn [app validate_groups].
  unfold group_to, group_from in *.
  destruct (split_group g) as [s_to s_from]. cbn [fst snd] in *.
  destruct (cpulist_parse (nr_cpu_ids env) s_to) as [rc_to to].
  destruct (cpulist_parse (nr_cpu_ids env) s_from) as [rc_from from].
  cbn [fst snd] in *.
  apply andb_true_iff in Hg as [Hp Ha].
  apply andb_true_iff in Hp as [Hp1 Hp2].
  apply negb_true_iff in Hp1, Hp2, Ha.
  now rewrite Hp1, Hp2, Ha.
Qed.

(** The first group that is not accepted decides the report. *)
Lemma validate_groups_ambiguous (g : string) (rest : list string) (lwk sys : cpumask) :
  group_parses env g = true -> group_ambiguous env g = true ->
  validate_groups env (g :: rest) lwk sys = inl RasMultipleTargets.
Proof.
  unfold group_parses, group_ambiguous, group_to, group_from.
  cbn [validate_groups].
  destruct (split_group g) as [s_to s_from]. cbn [fst snd].
  destruct (cpulist_parse (nr_cpu_ids env) s_to) as [rc_to to].
  destruct (cpulist_parse (nr_cpu_ids env) s_from) as [rc_from from].
  cbn [fst snd]. intros Hp Ha.
  apply andb_true_iff in Hp as [Hp1 Hp2].
  apply negb_true_iff in Hp1, Hp2.
  now rewrite Hp1, Hp2, Ha.
Qed.

Lemma validate_groups_unparsed (g : string) (rest : list string) (lwk sys : cpumask) :
  group_parses env g = false ->
  validate_groups env (g :: rest) lwk sys = inl RasInvalidCharacter.
Proof.
  unfold group_parses. cbn [validate_groups].
  destruct (split_group g) as [s_to s_from]. cbn [fst snd].
  destruct (cpulist_parse (nr_cpu_ids env) s_to) as [rc_to to].
  destruct (cpulist_parse (nr_cpu_ids env) s_from) as [rc_from from].
  cbn [fst snd]. intros Hp.
  destruct (Z.ltb rc_to 0); [reflexivity|].
  destruct (Z.ltb rc_from 0); [reflexivity | discriminate].
Qed.

(** A group that is not accepted makes the loop end with a report. *)
Lemma validate_groups_rejected (groups : list string) :
  forall lwk sys,
  forallb (group_accepted env) groups = false ->
  exists report, validate_groups env groups lwk sys = inl report.
Proof.
  induction groups as [| g groups IH]; intros lwk sys H; [discriminate|].
  cbn [forallb] in H.
  destruct (group_accepted env g) eqn:Hg.
  - cbn [andb] in H.
    change (g :: groups) with ([g] ++ groups).
    rewrite (validate_groups_app [g] groups lwk sys)
      by (cbn [forallb]; now rewrite Hg).
    now apply IH.
  - unfold group_accepted in Hg.
    destruct (group_parses env g) eqn:Hp.
    + cbn [andb] in Hg. apply negb_false_iff in Hg.
      exists RasMultipleTargets. now apply validate_groups_ambiguous.
    + exists RasInvalidCharacter. now apply validate_groups_unparsed.
Qed.

(** The second loop over the groups builds the same reserved set, and
    writes no route outside it. *)
Lemma config_groups_spec (groups : list string) :
  forall table lwk util,
  exists table',
    config_groups env groups table lwk util
    = (table', accumulate (group_from env) groups lwk,
       accumulate (group_to env) groups util)
    /\ forall c, N.testbit (accumulate (group_from env) groups lwk) c = false ->
                 table' c = table c.
Proof.
  induction groups as [| g groups IH]; intros table lwk util.
  - exists table. split; reflexivity.
  - cbn [config_groups]. unfold accumulate. cbn [fold_left].
    fold (accumulate (group_from env) groups (cpumask_or lwk (group_from env g))).
    fold (accumulate (group_to env) groups (cpumask_or util (group_to env g))).
    unfold group_to at 2, group_from at 2 3.
    destruct (split_group g) as [s_to s_from] eqn:Eg. cbn [fst snd].
    destruct (IH (route_group (snd (cpulist_parse (nr_cpu_ids env) s_to))
                    (snd (cpulist_parse (nr_cpu_ids env) s_from)) table)
                 (cpumask_or lwk (group_from env g))
                 (cpumask_or util (group_to env g))) as (table' & E & Hout).
    exists table'. unfold group_to, group_from in E, Hout |- *.
    rewrite Eg in E, Hout |- *. cbn [fst snd] in E, Hout |- *.
    split; [exact E|].
    intros c Hc. rewrite (Hout c Hc), route_group_spec.
    unfold cpumask_test_cpu.
    destruct (N.testbit (snd (cpulist_parse (nr_cpu_ids env) s_from)) c) eqn:Hb;
      [|reflexivity].
    exfalso.
    assert (Ht : N.testbit
                   (accumulate (fun group =>
                        snd (cpulist_parse (nr_cpu_ids env) (snd (split_group group))))
                      groups
                      (cpumask_or lwk (snd (cpulist_parse (nr_cpu_ids env) s_from)))) c
                 = true).
    { apply accumulate_bits. left. unfold cpumask_or.
      now rewrite N.lor_spec, Hb, orb_true_r. }
    congruence.
Qed.

End SpecGroups.

(** ** The partition controller *)

Section PartitionController.

Variable env : kernel_env.

Lemma strlen_zero (s : string) :
  Nat.eqb (String.length s) 0 = true <-> s = EmptyString.
Proof.
  destruct s; simpl; split; congruence.
Qed.

Lemma strlen_nonzero (s : string) :
  s <> EmptyString -> Nat.eqb (String.length s) 0 = false.
Proof.
  intros H. destruct (Nat.eqb (String.length s) 0) eqn:E; [|reflexivity].
  now apply strlen_zero in E.
Qed.

(** What the end of [lwk_config_lwkcpus] keeps and what it replaces. *)
Lemma commit_partition_fields (st : mos_state)
  (back new_lwk new_util : cpumask) (profile : option string) (rc : Z) :
  forall rc' st' evs,
  commit_partition env st back new_lwk new_util profile rc = (rc', st', evs) ->
  mos_syscall_mask st' = mos_syscall_mask st
  /\ lwkcpus_reserved_map st' = lwkcpus_reserved_map st
  /\ (rc' = 0%Z -> lwkcpus_map st' = new_lwk /\ utility_cpus_map st' = new_util)
  /\ (rc' <> 0%Z -> lwkcpus_map st' = lwkcpus_map st
                    /\ utility_cpus_map st' = utility_cpus_map st).
Proof.
  intros rc' st' evs. unfold commit_partition.
  destruct (if negb (cpumask_empty back) then _ else _) as [rc1 evs1].
  destruct (if negb (cpumask_empty new_lwk) then _ else _) as [rc2 evs2].
  destruct (negb (Z.eqb rc2 0)) eqn:E; intros H; inversion H; subst; clear H;
    cbn; repeat split; try congruence; intros.
  - apply negb_true_iff, Z.eqb_neq in E. contradiction.
  - apply negb_true_iff, Z.eqb_neq in E. contradiction.
Qed.

(** The end of [lwk_config_lwkcpus] when CPUs go back to Linux. *)
Lemma commit_partition_release (st : mos_state) (back : cpumask)
  (profile : option string) :
  let st1 := set_lwkcpus_mask
               (fun cpu => if cpumask_test_cpu cpu (cpu_possible_mask env)
                           then cpumask_clear else lwkcpus_mask st cpu) st in
  commit_partition env st back cpumask_clear cpumask_clear profile (-1)
  = if cpumask_empty back then ((-1)%Z, st1, [])
    else if Z.eqb (lwkcpu_partition_destroy env back) 0 then
      (0%Z, set_sysfs_cpu_masks cpumask_clear cpumask_clear st1,
       [CallPartitionDestroy back; CallStateDeinit])
    else (lwkcpu_partition_destroy env back, st1, [CallPartitionDestroy back]).
Proof.
  unfold commit_partition. cbn [cpumask_empty cpumask_clear N.eqb negb].
  destruct (cpumask_empty back); cbn [negb]; [reflexivity|].
  destruct (Z.eqb (lwkcpu_partition_destroy env back) 0); reflexivity.
Qed.

(** Whatever [lwk_config_lwkcpus] is given, it leaves the claimed set and
    both registries alone. *)
Lemma config_keeps_reserved (st : mos_state) (spec : string)
  (profile : option string) :
  lwkcpus_reserved_map (snd (fst (lwk_config_lwkcpus env st spec profile)))
  = lwkcpus_reserved_map st.
Proof.
  unfold lwk_config_lwkcpus.
  destruct (negb (alloc_ok env KstrdupConfig)); [reflexivity|].
  destruct (negb (cpumask_empty (lwkcpus_map st)) && negb (Nat.eqb (String.length spec) 0));
    [reflexivity|].
  destruct (negb (alloc_ok env ZallocConfig)); [reflexivity|].
  destruct (Nat.eqb (String.length spec) 0).
  - destruct (commit_partition env _ _ _ _ _ _) as [[rc' st'] evs] eqn:E.
    apply commit_partition_fields in E as (_ & E & _). exact E.
  - destruct (validate_lwkcpus_spec env spec) as [[| p | p] evs]; try reflexivity.
    destruct (config_groups env _ _ _ _) as [[table lwk] util].
    destruct (commit_partition env _ _ _ _ _ _) as [[rc' st'] evs'] eqn:E.
    apply commit_partition_fields in E as (_ & E & _). exact E.
Qed.

(** A non-empty specification that is applied with return code 0. *)
Lemma specification_applied (st : mos_state) (spec : string)
  (profile : option string) (st1 : mos_state) (evs1 : list event) :
  spec <> EmptyString ->
  lwk_config_lwkcpus env st spec profile = (0%Z, st1, evs1) ->
  cpumask_empty (lwkcpus_map st) = true
  /\ fst (validate_lwkcpus_spec env spec) = 0%Z
  /\ lwkcpus_map st1 = reserved_cpus env (strsep_all ":" spec)
  /\ utility_cpus_map st1 = target_cpus env (strsep_all ":" spec)
  /\ lwkcpus_reserved_map st1 = lwkcpus_reserved_map st
  /\ forall c, N.testbit (lwkcpus_map st1) c = false ->
               mos_syscall_mask st1 c = mos_syscall_mask st c.
Proof.
  intros Hspec. unfold lwk_config_lwkcpus.
  rewrite (strlen_nonzero spec Hspec).
  destruct (negb (alloc_ok env KstrdupConfig)); [discriminate|].
  destruct (cpumask_empty (lwkcpus_map st)); cbn [negb andb]; [|discriminate].
  destruct (negb (alloc_ok env ZallocConfig)); [discriminate|].
  destruct (validate_lwkcpus_spec env spec) as [[| p | p] evs]; try discriminate.
  destruct (config_groups_spec env (strsep_all ":" spec) (mos_syscall_mask st)
              cpumask_clear cpumask_clear) as (table & -> & Hout).
  intros E. apply commit_partition_fields in E as (Hroute & Hres & Hok & _).
  destruct (Hok eq_refl) as [Hlwk Hutil]. state_fields.
  unfold reserved_cpus, target_cpus.
  repeat split; auto.
  intros c Hc. rewrite Hroute. apply Hout. now rewrite <- Hlwk.
Qed.

(** The empty specification applied with return code 0. *)
Lemma release_applied (st : mos_state) (profile : option string)
  (st2 : mos_state) (evs2 : list event) :
  lwk_config_lwkcpus env st EmptyString profile = (0%Z, st2, evs2) ->
  cpumask_empty (lwkcpus_map st) = false
  /\ lwkcpus_map st2 = cpumask_clear
  /\ utility_cpus_map st2 = cpumask_clear
  /\ lwkcpus_reserved_map st2 = lwkcpus_reserved_map st
  /\ forall cpu,
       mos_syscall_mask st2 cpu
       = if cpumask_test_cpu cpu (lwkcpus_map st) then cpumask_of cpu
         else mos_syscall_mask st cpu.
Proof.
  unfold lwk_config_lwkcpus. cbn [String.length Nat.eqb negb andb].
  rewrite andb_false_r.
  destruct (negb (alloc_ok env KstrdupConfig)); [discriminate|].
  destruct (negb (alloc_ok env ZallocConfig)); [discriminate|].
  rewrite commit_partition_release.
  destruct (cpumask_empty (lwkcpus_map st)); [discriminate|].
  destruct (Z.eqb (lwkcpu_partition_destroy env (lwkcpus_map st)) 0) eqn:Hrc.
  - intros E. inversion E; subst; clear E. state_fields.
    repeat split. intros cpu. apply route_self_spec.
  - intros E. inversion E as [[Hz Hst Hevs]].
    rewrite Hz in Hrc. discriminate.
Qed.

End PartitionController.

(** A call of [lwk_config_lwkcpus] that does not return 0 leaves
    [lwkcpus_map] as it was. *)
Lemma failed_config_keeps_lwkcpus (env : kernel_env) (st : mos_state)
  (spec : string) (profile : option string) :
  fst (fst (lwk_config_lwkcpus env st spec profile)) <> 0%Z ->
  lwkcpus_map (snd (fst (lwk_config_lwkcpus env st spec profile))) = lwkcpus_map st.
Proof.
  unfold lwk_config_lwkcpus.
  destruct (negb (alloc_ok env KstrdupConfig)); [reflexivity|].
  destruct (negb (cpumask_empty (lwkcpus_map st)) && negb (Nat.eqb (String.length spec) 0));
    [reflexivity|].
  destruct (negb (alloc_ok env ZallocConfig)); [reflexivity|].
  destruct (Nat.eqb (String.length spec) 0).
  - destruct (commit_partition env _ _ _ _ _ _) as [[rc' st'] evs] eqn:E.
    apply commit_partition_fields in E as (_ & _ & _ & Hfail).
    cbn [fst snd]. intros Hrc. now apply Hfail.
  - destruct (validate_lwkcpus_spec env spec) as [[| p | p] evs]; try reflexivity.
    destruct (config_groups env _ _ _ _) as [[table lwk] util].
    destruct (commit_partition env _ _ _ _ _ _) as [[rc' st'] evs'] eqn:E.
    apply commit_partition_fields in E as (_ & _ & _ & Hfail).
    cbn [fst snd]. intros Hrc. now apply Hfail.
Qed.

(** A CPU list accepted on a machine with [n] CPUs is accepted, with the
    same mask, on a machine with more. *)
Lemma parse_region_mono (n n' : N) (tok : string) (m m' : cpumask) :
  (n <= n')%N ->
  parse_region n tok m = (0%Z, m') -> parse_region n' tok m = (0%Z, m').
Proof.
  intros Hn. unfold parse_region.
  destruct tok as [| c tok]; [auto|].
  destruct (strchr (String c tok) "-") as [[lo hi] |].
  - destruct (parse_uint lo) as [a |]; [|discriminate].
    destruct (parse_uint hi) as [b |]; [|discriminate].
    destruct (b <? a)%N; [discriminate|].
    destruct (N.leb_spec n b); [discriminate|].
    intros E. destruct (N.leb_spec n' b); [lia | exact E].
  - destruct (parse_uint (String c tok)) as [a |]; [|discriminate].
    destruct (N.leb_spec n a); [discriminate|].
    intros E. destruct (N.leb_spec n' a); [lia | exact E].
Qed.

Lemma parse_regions_mono (n n' : N) (toks : list string) :
  (n <= n')%N ->
  forall m m',
  parse_regions n toks m = (0%Z, m') -> parse_regions n' toks m = (0%Z, m').
Proof.
  intros Hn. induction toks as [| tok toks IH]; intros m m'; cbn [parse_regions];
    [auto|].
  destruct (parse_region n tok m) as [[| p | p] m1] eqn:E; try discriminate.
  rewrite (parse_region_mono n n' tok m m1 Hn E). apply IH.
Qed.

Lemma cpulist_parse_mono (n n' : N) (buf : string) (m : cpumask) :
  (n <= n')%N ->
  cpulist_parse n buf = (0%Z, m) -> cpulist_parse n' buf = (0%Z, m).
Proof.
  intros Hn. apply parse_regions_mono, Hn.
Qed.

(** The four CPU lists of the example in the source, on any machine with
    more than 14 CPUs. *)
Lemma cpulist_parse_example (n : N) :
  (14 < n)%N ->
  cpulist_parse n "1" = (0%Z, cpumask_of_list [1]%N)
  /\ cpulist_parse n "2-7,9" = (0%Z, cpumask_of_list [2; 3; 4; 5; 6; 7; 9]%N)
  /\ cpulist_parse n "10" = (0%Z, cpumask_of_list [10]%N)
  /\ cpulist_parse n "11,13,14" = (0%Z, cpumask_of_list [11; 13; 14]%N).
Proof.
  intros Hn. repeat split; apply (cpulist_parse_mono 15); try lia; reflexivity.
Qed.

(** The end of [lwk_config_lwkcpus] when CPUs are taken from Linux: the
    return code is the answer of [lwkcpu_partition_create], called last. *)
Lemma commit_partition_create (env : kernel_env) (st : mos_state)
  (new_lwk new_util : cpumask) (profile : option string) :
  cpumask_empty new_lwk = false ->
  exists evs,
    commit_partition env st cpumask_clear new_lwk new_util profile (-1)
    = (lwkcpu_partition_create env new_lwk,
       (if Z.eqb (lwkcpu_partition_create env new_lwk) 0
        then set_sysfs_cpu_masks new_lwk new_util
        else fun s => s)
         (set_lwkcpus_mask
            (fun cpu => if cpumask_test_cpu cpu (cpu_possible_mask env)
                        then new_lwk else lwkcpus_mask st cpu) st),
       evs ++ [CallPartitionCreate new_lwk]).
Proof.
  intros Hne. unfold commit_partition. rewrite Hne.
  cbn [cpumask_empty cpumask_clear N.eqb negb].
  destruct (match profile with Some _ => _ | None => _ end) as [profile_set evp].
  eexists (evp ++ _).
  destruct (Z.eqb (lwkcpu_partition_create env new_lwk) 0) eqn:Hrc; cbn [negb].
  - apply Z.eqb_eq in Hrc. rewrite Hrc at 1. cbn [app]. now rewrite app_assoc.
  - cbn [app]. now rewrite app_assoc.
Qed.

(** ** Claims about the partition controller *)

(** C6. While [lwkcpus_map] is not empty, a non-empty specification is
    refused with return code -1 and the state is left as it was; the report
    is "Attempt to modify existing LWKCPU configuration" as soon as the
    copy of the string could be made. Whatever is written, a non-empty
    [lwkcpus_map] is either kept or returned to empty: it is never replaced
    by another set. *)
Theorem lwk_config_lwkcpus_locked (env : kernel_env) (st : mos_state)
  (spec : string) (profile : option string) :
  cpumask_empty (lwkcpus_map st) = false ->
  (spec <> EmptyString ->
   exists evs,
     lwk_config_lwkcpus env st spec profile = ((-1)%Z, st, evs)
     /\ (alloc_ok env KstrdupConfig = true -> evs = [Ras RasModifyExisting]))
  /\ (lwkcpus_map (snd (fst (lwk_config_lwkcpus env st spec profile))) = lwkcpus_map st
      \/ lwkcpus_map (snd (fst (lwk_config_lwkcpus env st spec profile))) = cpumask_clear).
Proof.
  intros Hmap.
  assert (Hlocked : spec <> EmptyString ->
            exists evs,
              lwk_config_lwkcpus env st spec profile = ((-1)%Z, st, evs)
              /\ (alloc_ok env KstrdupConfig = true -> evs = [Ras RasModifyExisting])).
  { intros Hspec. unfold lwk_config_lwkcpus.
    rewrite Hmap, (strlen_nonzero spec Hspec). cbn [negb andb].
    destruct (alloc_ok env KstrdupConfig); cbn [negb].
    - exists [Ras RasModifyExisting]. split; [reflexivity | auto].
    - exists [Ras RasDupFailure]. split; [reflexivity | discriminate]. }
  split; [exact Hlocked|].
  destruct (string_dec spec EmptyString) as [-> | Hspec].
  - unfold lwk_config_lwkcpus. cbn [String.length Nat.eqb negb andb].
    rewrite andb_false_r.
    destruct (negb (alloc_ok env KstrdupConfig)); [now left|].
    destruct (negb (alloc_ok env ZallocConfig)); [now left|].
    destruct (commit_partition env _ _ _ _ _ _) as [[rc' st'] evs] eqn:E.
    apply commit_partition_fields in E as (_ & _ & Hok & Hfail).
    cbn [fst snd]. destruct (Z.eq_dec rc' 0) as [Hz | Hnz].
    + right. now apply Hok.
    + left. now apply Hfail.
  - destruct (Hlocked Hspec) as (evs & E & _). rewrite E. now left.
Qed.

(** C2, as the code has it. Validation reads the groups of a
    specification in order and stops at the first check that fails.
    - The first group with a CPU list that cannot be read, all groups
      before it being accepted, makes validation fail with "Invalid
      character in CPU specification".
    - The first group that has more than one target CPU and a non-empty
      reserved range, all groups before it being accepted, makes validation
      fail with "More than one syscall target CPU specified".
    - When every group is accepted and the accumulated reserved CPUs
      intersect the online CPUs, it fails with "Overlap detected ... Online
      CPUs".
    - When they do not, but intersect the accumulated target CPUs, it fails
      with "Overlap detected ... syscall CPUs".
    - Validation returns 0 or -1, and 0 exactly when every group is
      accepted and the accumulated reserved CPUs intersect neither the
      online CPUs nor the accumulated target CPUs.
    - Whenever validation fails, [lwk_config_lwkcpus] returns -1 with the
      state it was given: nothing has been written. *)
Theorem validate_lwkcpus_spec_rejects (env : kernel_env) (spec : string) :
  alloc_ok env KstrdupValidate = true ->
  alloc_ok env ZallocValidate = true ->
  (forall pre g post,
      strsep_all ":" spec = pre ++ g :: post ->
      forallb (group_accepted env) pre = true ->
      group_parses env g = false ->
      validate_lwkcpus_spec env spec = ((-1)%Z, [Ras RasInvalidCharacter]))
  /\ (forall pre g post,
      strsep_all ":" spec = pre ++ g :: post ->
      forallb (group_accepted env) pre = true ->
      group_parses env g = true ->
      group_ambiguous env g = true ->
      validate_lwkcpus_spec env spec = ((-1)%Z, [Ras RasMultipleTargets]))
  /\ (forallb (group_accepted env) (strsep_all ":" spec) = true ->
      cpumask_intersects (reserved_cpus env (strsep_all ":" spec))
        (cpu_online_mask env) = true ->
      validate_lwkcpus_spec env spec
      = ((-1)%Z, [Ras (RasOverlapOnline (reserved_cpus env (strsep_all ":" spec))
                         (cpu_online_mask env))]))
  /\ (forallb (group_accepted env) (strsep_all ":" spec) = true ->
      cpumask_intersects (reserved_cpus env (strsep_all ":" spec))
        (cpu_online_mask env) = false ->
      cpumask_intersects (reserved_cpus env (strsep_all ":" spec))
        (target_cpus env (strsep_all ":" spec)) = true ->
      validate_lwkcpus_spec env spec
      = ((-1)%Z, [Ras (RasOverlapSyscall (reserved_cpus env (strsep_all ":" spec))
                         (target_cpus env (strsep_all ":" spec)))]))
  /\ (fst (validate_lwkcpus_spec env spec) = 0%Z
      \/ fst (validate_lwkcpus_spec env spec) = (-1)%Z)
  /\ (fst (validate_lwkcpus_spec env spec) = 0%Z <->
      forallb (group_accepted env) (strsep_all ":" spec) = true
      /\ cpumask_intersects (reserved_cpus env (strsep_all ":" spec))
           (cpu_online_mask env) = false
      /\ cpumask_intersects (reserved_cpus env (strsep_all ":" spec))
           (target_cpus env (strsep_all ":" spec)) = false)
  /\ (forall st profile,
      fst (validate_lwkcpus_spec env spec) <> 0%Z ->
      spec <> EmptyString ->
      exists evs, lwk_config_lwkcpus env st spec profile = ((-1)%Z, st, evs)).
Proof.
  intros Hdup Hmasks.
  assert (Hshape :
            validate_lwkcpus_spec env spec
            = if forallb (group_accepted env) (strsep_all ":" spec) then
                if cpumask_intersects (reserved_cpus env (strsep_all ":" spec))
                     (cpu_online_mask env) then
                  ((-1)%Z, [Ras (RasOverlapOnline (reserved_cpus env (strsep_all ":" spec))
                                   (cpu_online_mask env))])
                else if cpumask_intersects (reserved_cpus env (strsep_all ":" spec))
                          (target_cpus env (strsep_all ":" spec)) then
                  ((-1)%Z, [Ras (RasOverlapSyscall (reserved_cpus env (strsep_all ":" spec))
                                   (target_cpus env (strsep_all ":" spec)))])
                else (0%Z, [])
              else ((-1)%Z, snd (validate_lwkcpus_spec env spec))).
  { unfold validate_lwkcpus_spec. rewrite Hdup, Hmasks. cbn [negb].
    destruct (forallb (group_accepted env) (strsep_all ":" spec)) eqn:Hall.
    - now rewrite (validate_groups_accepted env _ _ _ Hall).
    - destruct (validate_groups_rejected env _ cpumask_clear cpumask_clear Hall)
        as (report & ->).
      reflexivity. }
  split; [|split; [|split; [|split; [|split; [|split]]]]].
  5: { rewrite Hshape.
       destruct (forallb _ _); [|now right].
       destruct (cpumask_intersects _ (cpu_online_mask env)); [now right|].
       destruct (cpumask_intersects _ _); [now right | now left]. }
  5: { rewrite Hshape.
       destruct (forallb _ _); [|split; [discriminate | intros (? & _); discriminate]].
       destruct (cpumask_intersects _ (cpu_online_mask env));
         [split; [discriminate | intros (_ & ? & _); discriminate]|].
       destruct (cpumask_intersects _ _);
         [split; [discriminate | intros (_ & _ & ?); discriminate]|].
       now repeat split. }
  - intros pre g post Hsplit Hpre Hp.
    unfold validate_lwkcpus_spec. rewrite Hdup, Hmasks, Hsplit. cbn [negb].
    rewrite (validate_groups_app env pre (g :: post) _ _ Hpre).
    now rewrite (validate_groups_unparsed env g post _ _ Hp).
  - intros pre g post Hsplit Hpre Hp Ha.
    unfold validate_lwkcpus_spec. rewrite Hdup, Hmasks, Hsplit. cbn [negb].
    rewrite (validate_groups_app env pre (g :: post) _ _ Hpre).
    now rewrite (validate_groups_ambiguous env g post _ _ Hp Ha).
  - intros Hall Hon.
    unfold validate_lwkcpus_spec. rewrite Hdup, Hmasks. cbn [negb].
    rewrite (validate_groups_accepted env _ _ _ Hall).
    fold (reserved_cpus env (strsep_all ":" spec)).
    now rewrite Hon.
  - intros Hall Hoff Hsys.
    unfold validate_lwkcpus_spec. rewrite Hdup, Hmasks. cbn [negb].
    rewrite (validate_groups_accepted env _ _ _ Hall).
    fold (reserved_cpus env (strsep_all ":" spec)).
    fold (target_cpus env (strsep_all ":" spec)).
    now rewrite Hoff, Hsys.
  - intros st profile Hrc Hspec. unfold lwk_config_lwkcpus.
    rewrite (strlen_nonzero spec Hspec).
    destruct (negb (alloc_ok env KstrdupConfig)); [eexists; reflexivity|].
    destruct (negb (cpumask_empty (lwkcpus_map st)) && negb false);
      [eexists; reflexivity|].
    destruct (negb (alloc_ok env ZallocConfig)); [eexists; reflexivity|].
    destruct (validate_lwkcpus_spec env spec) as [[| p | p] evs];
      [now cbn in Hrc | eexists; reflexivity | eexists; reflexivity].
Qed.

(** C3, as the code has it. With the mask of the CPUs to release taken
    from [lwkcpus_map], writing the empty specification
    - routes every CPU of that mask to itself and leaves the other routes;
    - leaves [lwkcpus_reserved_map] as it is;
    - when the mask is not empty, calls [lwkcpu_partition_destroy] on it
      (and [lwkcpu_state_deinit] after a 0 answer) and returns its answer;
      [lwkcpus_map] and [utility_cpus_map] are cleared when the answer is 0
      and kept otherwise;
    - when the mask is empty, calls nothing and leaves the three masks and
      every route as they were. *)
Theorem lwk_config_lwkcpus_release (env : kernel_env) (st : mos_state)
  (profile : option string) :
  alloc_ok env KstrdupConfig = true ->
  alloc_ok env ZallocConfig = true ->
  exists rc st' evs,
    lwk_config_lwkcpus env st EmptyString profile = (rc, st', evs)
    /\ (forall cpu,
          mos_syscall_mask st' cpu
          = if cpumask_test_cpu cpu (lwkcpus_map st) then cpumask_of cpu
            else mos_syscall_mask st cpu)
    /\ lwkcpus_reserved_map st' = lwkcpus_reserved_map st
    /\ (cpumask_empty (lwkcpus_map st) = false ->
        rc = lwkcpu_partition_destroy env (lwkcpus_map st)
        /\ evs = CallPartitionDestroy (lwkcpus_map st)
                   :: (if Z.eqb rc 0 then [CallStateDeinit] else [])
        /\ (rc = 0%Z -> lwkcpus_map st' = cpumask_clear
                        /\ utility_cpus_map st' = cpumask_clear)
        /\ (rc <> 0%Z -> lwkcpus_map st' = lwkcpus_map st
                         /\ utility_cpus_map st' = utility_cpus_map st))
    /\ (cpumask_empty (lwkcpus_map st) = true ->
        evs = []
        /\ lwkcpus_map st' = lwkcpus_map st
        /\ utility_cpus_map st' = utility_cpus_map st
        /\ forall cpu, mos_syscall_mask st' cpu = mos_syscall_mask st cpu).
Proof.
  intros Hdup Hmasks. unfold lwk_config_lwkcpus.
  rewrite Hdup, Hmasks. cbn [String.length Nat.eqb negb andb].
  rewrite andb_false_r, commit_partition_release.
  destruct (cpumask_empty (lwkcpus_map st)) eqn:Hempty.
  - do 3 eexists. split; [reflexivity|]. state_fields.
    split; [intros cpu; apply route_self_spec|].
    split; [reflexivity|]. split; [discriminate|]. intros _.
    repeat split.
    intros cpu. rewrite route_self_spec. unfold cpumask_test_cpu.
    rewrite cpumask_empty_bits in Hempty. now rewrite Hempty.
  - destruct (Z.eqb (lwkcpu_partition_destroy env (lwkcpus_map st)) 0) eqn:Hrc.
    + do 3 eexists. split; [reflexivity|]. state_fields.
      split; [intros cpu; apply route_self_spec|].
      split; [reflexivity|]. split; [|discriminate]. intros _.
      apply Z.eqb_eq in Hrc. repeat split; congruence.
    + do 3 eexists. split; [reflexivity|]. state_fields.
      split; [intros cpu; apply route_self_spec|].
      split; [reflexivity|]. split; [|discriminate]. intros _.
      rewrite Hrc. apply Z.eqb_neq in Hrc. repeat split; congruence.
Qed.

(** C5, as the code has it. When a specification is applied to a state
    with no LWK and no utility CPUs and the empty specification is applied
    next, both with return code 0, [lwkcpus_map], [utility_cpus_map] and
    [lwkcpus_reserved_map] are what they were. The route of a CPU that the
    specification reserved is the CPU itself; every other route is what it
    was. *)
Theorem partition_round_trip (env1 env2 : kernel_env) (st st1 st2 : mos_state)
  (spec : string) (profile1 profile2 : option string) (evs1 evs2 : list event) :
  lwkcpus_map st = cpumask_clear ->
  utility_cpus_map st = cpumask_clear ->
  lwk_config_lwkcpus env1 st spec profile1 = (0%Z, st1, evs1) ->
  lwk_config_lwkcpus env2 st1 EmptyString profile2 = (0%Z, st2, evs2) ->
  lwkcpus_map st2 = lwkcpus_map st
  /\ utility_cpus_map st2 = utility_cpus_map st
  /\ lwkcpus_reserved_map st2 = lwkcpus_reserved_map st
  /\ forall cpu,
       mos_syscall_mask st2 cpu
       = if cpumask_test_cpu cpu (lwkcpus_map st1) then cpumask_of cpu
         else mos_syscall_mask st cpu.
Proof.
  intros Hlwk Hutil Hcreate Hrelease.
  apply release_applied in Hrelease
    as (Hfull & Hlwk2 & Hutil2 & Hres2 & Hroute2).
  destruct (string_dec spec EmptyString) as [-> | Hspec].
  - apply release_applied in Hcreate as (_ & Hlwk1 & _).
    rewrite Hlwk1 in Hfull. discriminate.
  - apply specification_applied in Hcreate
      as (_ & _ & _ & _ & Hres1 & Hroute1); [|exact Hspec].
    rewrite Hlwk, Hutil, Hlwk2, Hutil2, Hres2, Hres1.
    repeat split.
    intros cpu. rewrite Hroute2. unfold cpumask_test_cpu.
    destruct (N.testbit (lwkcpus_map st1) cpu) eqn:Hc; [reflexivity|].
    now apply Hroute1.
Qed.

(** C7. On a machine with more than 14 CPUs where none of the CPUs 2-7, 9,
    11, 13 and 14 is online and no partition exists, the specification
    [1.2-7,9:10.11,13,14] passes validation, the reserved set
    {2,3,4,5,6,7,9,11,13,14} is handed to [lwkcpu_partition_create], whose
    answer is the return code, CPUs 2-7 and 9 are routed to CPU 1, CPUs 11,
    13 and 14 to CPU 10, and no other route is written. When the answer is
    0 the reserved set becomes [lwkcpus_map] and {1,10} becomes
    [utility_cpus_map]. *)
Theorem lwk_config_lwkcpus_example (env : kernel_env) (st : mos_state)
  (profile : option string) :
  alloc_ok env KstrdupConfig = true ->
  alloc_ok env ZallocConfig = true ->
  alloc_ok env KstrdupValidate = true ->
  alloc_ok env ZallocValidate = true ->
  (14 < nr_cpu_ids env)%N ->
  cpumask_empty (lwkcpus_map st) = true ->
  cpumask_intersects (cpumask_of_list [2; 3; 4; 5; 6; 7; 9; 11; 13; 14]%N)
    (cpu_online_mask env) = false ->
  exists st' evs,
    lwk_config_lwkcpus env st "1.2-7,9:10.11,13,14" profile
    = (lwkcpu_partition_create env
         (cpumask_of_list [2; 3; 4; 5; 6; 7; 9; 11; 13; 14]%N), st', evs)
    /\ In (CallPartitionCreate (cpumask_of_list [2; 3; 4; 5; 6; 7; 9; 11; 13; 14]%N)) evs
    /\ (forall cpu, In cpu [2; 3; 4; 5; 6; 7; 9]%N ->
                    mos_syscall_mask st' cpu = cpumask_of 1)
    /\ (forall cpu, In cpu [11; 13; 14]%N ->
                    mos_syscall_mask st' cpu = cpumask_of 10)
    /\ (forall cpu,
          cpumask_test_cpu cpu (cpumask_of_list [2; 3; 4; 5; 6; 7; 9; 11; 13; 14]%N) = false ->
          mos_syscall_mask st' cpu = mos_syscall_mask st cpu)
    /\ (lwkcpu_partition_create env
          (cpumask_of_list [2; 3; 4; 5; 6; 7; 9; 11; 13; 14]%N) = 0%Z ->
        lwkcpus_map st' = cpumask_of_list [2; 3; 4; 5; 6; 7; 9; 11; 13; 14]%N
        /\ utility_cpus_map st' = cpumask_of_list [1; 10]%N).
Proof.
  intros Hdup Hmasks Hvdup Hvmasks Hn Hempty Hoff.
  destruct (cpulist_parse_example (nr_cpu_ids env) Hn) as (P1 & P2 & P3 & P4).
  unfold lwk_config_lwkcpus, validate_lwkcpus_spec.
  rewrite Hdup, Hmasks, Hvdup, Hvmasks, Hempty.
  change (strsep_all ":" "1.2-7,9:10.11,13,14")
    with ["1.2-7,9"%string; "10.11,13,14"%string].
  cbn [String.length Nat.eqb negb andb validate_groups config_groups].
  change (split_group "1.2-7,9") with ("1"%string, "2-7,9"%string).
  change (split_group "10.11,13,14") with ("10"%string, "11,13,14"%string).
  cbn iota. rewrite P1, P2, P3, P4. cbn [fst snd].
  set (lwk1 := cpumask_of_list [2; 3; 4; 5; 6; 7; 9]%N).
  set (lwk2 := cpumask_of_list [11; 13; 14]%N).
  set (lwk := cpumask_of_list [2; 3; 4; 5; 6; 7; 9; 11; 13; 14]%N) in *.
  set (util := cpumask_of_list [1; 10]%N).
  change (cpumask_or (cpumask_or cpumask_clear lwk1) lwk2) with lwk.
  change (cpumask_or (cpumask_or cpumask_clear (cpumask_of_list [1]%N))
            (cpumask_of_list [10]%N)) with util.
  match goal with
  | |- context [match ?v with inl _ => _ | inr _ => _ end] =>
      change v with (@inr ras_report _ (lwk, util))
  end.
  cbn iota. rewrite Hoff.
  change (cpumask_intersects lwk util) with false. cbn iota.
  destruct (commit_partition_create env
              (set_mos_syscall_mask
                 (route_group (cpumask_of_list [10]%N) lwk2
                    (route_group (cpumask_of_list [1]%N) lwk1 (mos_syscall_mask st)))
                 st)
              lwk util profile eq_refl) as (evs & ->).
  assert (Hroute : forall cpu,
             route_group (cpumask_of_list [10]%N) lwk2
               (route_group (cpumask_of_list [1]%N) lwk1 (mos_syscall_mask st)) cpu
             = if N.testbit lwk2 cpu then cpumask_of 10
               else if N.testbit lwk1 cpu then cpumask_of 1
                    else mos_syscall_mask st cpu).
  { intros cpu. now rewrite !route_group_spec. }
  do 2 eexists. split; [reflexivity|].
  split; [apply in_or_app; right; now left|].
  assert (Hfield : forall cpu,
             mos_syscall_mask
               ((if Z.eqb (lwkcpu_partition_create env lwk) 0
                 then set_sysfs_cpu_masks lwk util else fun s => s)
                  (set_lwkcpus_mask
                     (fun cpu0 => if cpumask_test_cpu cpu0 (cpu_possible_mask env)
                                  then lwk else lwkcpus_mask st cpu0)
                     (set_mos_syscall_mask
                        (route_group (cpumask_of_list [10]%N) lwk2
                           (route_group (cpumask_of_list [1]%N) lwk1
                              (mos_syscall_mask st))) st))) cpu
             = if N.testbit lwk2 cpu then cpumask_of 10
               else if N.testbit lwk1 cpu then cpumask_of 1
                    else mos_syscall_mask st cpu).
  { intros cpu. rewrite <- Hroute.
    now destruct (Z.eqb (lwkcpu_partition_create env lwk) 0). }
  split; [|split; [|split]].
  - intros cpu Hin. rewrite Hfield.
    cbn [In] in Hin.
    repeat (destruct Hin as [<- | Hin]; [reflexivity|]). destruct Hin.
  - intros cpu Hin. rewrite Hfield.
    cbn [In] in Hin.
    repeat (destruct Hin as [<- | Hin]; [reflexivity|]). destruct Hin.
  - intros cpu Hout. rewrite Hfield.
    unfold cpumask_test_cpu in Hout.
    change lwk with (N.lor lwk1 lwk2) in Hout.
    rewrite N.lor_spec in Hout. apply orb_false_elim in Hout as [H1 H2].
    now rewrite H1, H2.
  - intros Hrc. rewrite Hrc. cbn [Z.eqb]. state_fields. now split.
Qed.

(** *** Instances on the sample machine *)

(** C6 on the sample partition: [lwkcpus=1.4] is refused, nothing changes. *)
Lemma lwk_config_lwkcpus_locked_witness :
  cpumask_empty (lwkcpus_map sample_partition) = false
  /\ exists evs,
       lwk_config_lwkcpus sample_env sample_partition "1.4" None
       = ((-1)%Z, sample_partition, evs)
       /\ evs = [Ras RasModifyExisting].
Proof.
  split; [reflexivity|].
  destruct (lwk_config_lwkcpus_locked sample_env sample_partition "1.4" None eq_refl)
    as [Hlocked _].
  destruct Hlocked as (evs & E & Hevs); [discriminate|].
  exists evs. split; [exact E | now apply Hevs].
Defined.

(** C2 on the sample machine: [1,2.3] names two targets for CPU 3, [1.0]
    reserves CPU 0, which is online, [2.2] reserves its own target, and
    [2.3:x] has a group that is no CPU list. *)
Lemma validate_lwkcpus_spec_rejects_witness :
  validate_lwkcpus_spec sample_env "1,2.3" = ((-1)%Z, [Ras RasMultipleTargets])
  /\ validate_lwkcpus_spec sample_env "2.3:x" = ((-1)%Z, [Ras RasInvalidCharacter])
  /\ validate_lwkcpus_spec sample_env "1.0"
     = ((-1)%Z, [Ras (RasOverlapOnline (cpumask_of 0) (cpumask_of_list [0; 1; 10]%N))])
  /\ validate_lwkcpus_spec sample_env "2.2"
     = ((-1)%Z, [Ras (RasOverlapSyscall (cpumask_of 2) (cpumask_of 2))])
  /\ exists evs,
       lwk_config_lwkcpus sample_env boot_state "1,2.3" None
       = ((-1)%Z, boot_state, evs).
Proof.
  destruct (validate_lwkcpus_spec_rejects sample_env "1,2.3" eq_refl eq_refl)
    as (_ & Hambiguous & _ & _ & _ & _ & Hconfig).
  destruct (validate_lwkcpus_spec_rejects sample_env "2.3:x" eq_refl eq_refl)
    as (Hunread & _).
  destruct (validate_lwkcpus_spec_rejects sample_env "1.0" eq_refl eq_refl)
    as (_ & _ & Honline & _).
  destruct (validate_lwkcpus_spec_rejects sample_env "2.2" eq_refl eq_refl)
    as (_ & _ & _ & Hroles & _).
  split; [|split; [|split; [|split]]].
  - apply (Hambiguous [] "1,2.3"%string []); reflexivity.
  - apply (Hunread ["2.3"%string] "x"%string []); reflexivity.
  - apply Honline; reflexivity.
  - apply Hroles; reflexivity.
  - apply Hconfig; [vm_compute | ]; discriminate.
Defined.

(** C2 as stated fails on the sample machine, where CPUs 0, 1 and 10 are
    online: a specification that fails more than one check is refused for
    the first of them in the order of the code. In [x:1,2.3] the second
    group has two targets for a non-empty range, and the report is the
    invalid character of the first group. In [1,2.0] the reserved CPU 0 is
    online, and the report is that of the two targets. In [1.1] the
    reserved CPU is its own target, and the report is that of the online
    CPU. *)
Lemma validation_order_counterexample :
  existsb (group_ambiguous sample_env) (strsep_all ":" "x:1,2.3") = true
  /\ validate_lwkcpus_spec sample_env "x:1,2.3" = ((-1)%Z, [Ras RasInvalidCharacter])
  /\ Ras RasInvalidCharacter <> Ras RasMultipleTargets
  /\ cpumask_intersects (reserved_cpus sample_env (strsep_all ":" "1,2.0"))
       (cpu_online_mask sample_env) = true
  /\ validate_lwkcpus_spec sample_env "1,2.0" = ((-1)%Z, [Ras RasMultipleTargets])
  /\ (forall lwk online, Ras RasMultipleTargets <> Ras (RasOverlapOnline lwk online))
  /\ cpumask_intersects (reserved_cpus sample_env (strsep_all ":" "1.1"))
       (target_cpus sample_env (strsep_all ":" "1.1")) = true
  /\ validate_lwkcpus_spec sample_env "1.1"
     = ((-1)%Z, [Ras (RasOverlapOnline (cpumask_of 1) (cpumask_of_list [0; 1; 10]%N))])
  /\ (forall lwk online lwk' syscall,
        Ras (RasOverlapOnline lwk online) <> Ras (RasOverlapSyscall lwk' syscall)).
Proof.
  repeat split; discriminate.
Qed.

(** C3 on the sample partition: CPUs 2 and 3 go back to Linux. *)
Lemma lwk_config_lwkcpus_release_witness :
  exists st' evs,
    lwk_config_lwkcpus sample_env sample_partition EmptyString None = (0%Z, st', evs)
    /\ evs = [CallPartitionDestroy (cpumask_of_list [2; 3]%N); CallStateDeinit]
    /\ mos_syscall_mask st' 2 = cpumask_of 2
    /\ mos_syscall_mask st' 3 = cpumask_of 3
    /\ lwkcpus_map st' = cpumask_clear
    /\ utility_cpus_map st' = cpumask_clear.
Proof.
  destruct (lwk_config_lwkcpus_release sample_env sample_partition None eq_refl eq_refl)
    as (rc & st' & evs & E & Hroute & _ & Hfull & _).
  destruct (Hfull eq_refl) as (Hrc & Hevs & Hok & _).
  change (lwkcpu_partition_destroy sample_env (lwkcpus_map sample_partition))
    with 0%Z in Hrc.
  subst rc. destruct (Hok eq_refl) as [Hlwk Hutil].
  exists st', evs.
  split; [exact E|]. split; [exact Hevs|].
  split; [apply (Hroute 2%N)|]. split; [apply (Hroute 3%N)|].
  split; [exact Hlwk | exact Hutil].
Defined.

(** C3 as stated fails in three ways. At boot, with nothing to release,
    the call changes nothing and its return code is -1, which the caller
    takes as a failure. On the sample partition with CPU 2 claimed, the
    release returns 0 and CPU 2 stays in [lwkcpus_reserved_map]. And when
    [lwkcpu_partition_destroy] answers non-zero, [lwkcpus_map] is kept. *)
Lemma partition_release_counterexample :
  (cpumask_empty (lwkcpus_map boot_state) = true
   /\ fst (fst (lwk_config_lwkcpus sample_env boot_state EmptyString None)) = (-1)%Z
   /\ (-1)%Z <> 0%Z)
  /\ (fst (fst (lwk_config_lwkcpus sample_env sample_claimed EmptyString None)) = 0%Z
      /\ lwkcpus_reserved_map
           (snd (fst (lwk_config_lwkcpus sample_env sample_claimed EmptyString None)))
         = cpumask_of 2
      /\ cpumask_of 2 <> cpumask_clear)
  /\ (fst (fst (lwk_config_lwkcpus stuck_env sample_partition EmptyString None)) = (-5)%Z
      /\ lwkcpus_map
           (snd (fst (lwk_config_lwkcpus stuck_env sample_partition EmptyString None)))
         = cpumask_of_list [2; 3]%N
      /\ cpumask_of_list [2; 3]%N <> cpumask_clear).
Proof.
  repeat split; vm_compute; discriminate.
Qed.

(** C5 on the sample machine: [lwkcpus=1.2,3] at boot, then the release. *)
Lemma partition_round_trip_witness :
  exists st2 evs2,
    lwk_config_lwkcpus sample_env sample_partition EmptyString None = (0%Z, st2, evs2)
    /\ lwkcpus_map st2 = lwkcpus_map boot_state
    /\ utility_cpus_map st2 = utility_cpus_map boot_state
    /\ lwkcpus_reserved_map st2 = lwkcpus_reserved_map boot_state
    /\ mos_syscall_mask st2 2 = cpumask_of 2
    /\ mos_syscall_mask st2 4 = mos_syscall_mask boot_state 4.
Proof.
  exists (snd (fst (lwk_config_lwkcpus sample_env sample_partition EmptyString None))).
  exists (snd (lwk_config_lwkcpus sample_env sample_partition EmptyString None)).
  destruct (partition_round_trip sample_env sample_env boot_state sample_partition
              (snd (fst (lwk_config_lwkcpus sample_env sample_partition EmptyString None)))
              "1.2,3" None None
              (snd (lwk_config_lwkcpus sample_env boot_state "1.2,3" None))
              (snd (lwk_config_lwkcpus sample_env sample_partition EmptyString None))
              eq_refl eq_refl eq_refl eq_refl)
    as (Hlwk & Hutil & Hres & Hroute).
  split; [reflexivity|].
  split; [exact Hlwk|]. split; [exact Hutil|]. split; [exact Hres|].
  split; [apply (Hroute 2%N) | apply (Hroute 4%N)].
Defined.

(** C5 as stated fails at boot: the per-CPU routing masks start zeroed,
    and after [lwkcpus=1.2,3] and the release CPU 2 is routed to itself. *)
Lemma round_trip_routes_counterexample :
  fst (fst (lwk_config_lwkcpus sample_env boot_state "1.2,3" None)) = 0%Z
  /\ fst (fst (lwk_config_lwkcpus sample_env sample_partition EmptyString None)) = 0%Z
  /\ mos_syscall_mask boot_state 2 = cpumask_clear
  /\ mos_syscall_mask
       (snd (fst (lwk_config_lwkcpus sample_env sample_partition EmptyString None))) 2
     = cpumask_of 2
  /\ mos_syscall_mask
       (snd (fst (lwk_config_lwkcpus sample_env sample_partition EmptyString None))) 2
     <> mos_syscall_mask boot_state 2.
Proof.
  repeat split. vm_compute. discriminate.
Qed.

(** C7 on the sample machine, at boot. *)
Lemma lwk_config_lwkcpus_example_witness :
  exists st' evs,
    lwk_config_lwkcpus sample_env boot_state "1.2-7,9:10.11,13,14" None = (0%Z, st', evs)
    /\ lwkcpus_map st' = cpumask_of_list [2; 3; 4; 5; 6; 7; 9; 11; 13; 14]%N
    /\ utility_cpus_map st' = cpumask_of_list [1; 10]%N
    /\ mos_syscall_mask st' 9 = cpumask_of 1
    /\ mos_syscall_mask st' 13 = cpumask_of 10.
Proof.
  destruct (lwk_config_lwkcpus_example sample_env boot_state None
              eq_refl eq_refl eq_refl eq_refl eq_refl eq_refl eq_refl)
    as (st' & evs & E & _ & Hone & Hten & _ & Hok).
  destruct (Hok eq_refl) as [Hlwk Hutil].
  exists st', evs.
  split; [exact E|]. split; [exact Hlwk|]. split; [exact Hutil|].
  split; [apply (Hone 9%N) | apply (Hten 13%N)]; cbn; tauto.
Defined.

(** ** Process records and claims of CPUs *)

Section ProcessRecords.

Variable env : kernel_env.

Lemma set_lwkcpus_reserved_map_same (st : mos_state) :
  set_lwkcpus_reserved_map (lwkcpus_reserved_map st) st = st.
Proof. now destruct st. Qed.

Lemma cpumask_or_subset (a b c : cpumask) :
  cpumask_subset a c = true -> cpumask_subset b c = true ->
  cpumask_subset (cpumask_or a b) c = true.
Proof.
  rewrite !cpumask_subset_bits. intros Ha Hb cpu. unfold cpumask_or.
  rewrite N.lor_spec, orb_true_iff. intros [H | H]; auto.
Qed.

Lemma cpumask_xor_subset (a b c : cpumask) :
  cpumask_subset a c = true -> cpumask_subset b c = true ->
  cpumask_subset (cpumask_xor a b) c = true.
Proof.
  rewrite !cpumask_subset_bits. intros Ha Hb cpu. unfold cpumask_xor.
  rewrite N.lxor_spec.
  destruct (N.testbit a cpu) eqn:Ea; [auto|].
  destruct (N.testbit b cpu) eqn:Eb; [auto | discriminate].
Qed.

(** Taking out with XOR what is in the mask is taking it out. *)
Lemma cpumask_xor_andnot (a b : cpumask) :
  cpumask_subset b a = true -> cpumask_xor a b = cpumask_andnot a b.
Proof.
  rewrite cpumask_subset_bits. intros Hb. apply N.bits_inj. intros cpu.
  unfold cpumask_xor, cpumask_andnot. rewrite N.lxor_spec, N.ldiff_spec.
  destruct (N.testbit b cpu) eqn:Eb.
  - now rewrite (Hb cpu Eb).
  - now destruct (N.testbit a cpu).
Qed.

Lemma cpumask_intersects_sym (a b : cpumask) :
  cpumask_intersects a b = cpumask_intersects b a.
Proof. unfold cpumask_intersects. now rewrite N.land_comm. Qed.

Lemma cpumask_intersects_or (a b c : cpumask) :
  cpumask_intersects a c = true -> cpumask_intersects a (cpumask_or b c) = true.
Proof.
  rewrite !cpumask_intersects_bits. intros (cpu & Ha & Hc). exists cpu.
  split; [exact Ha|]. unfold cpumask_or. now rewrite N.lor_spec, Hc, orb_true_r.
Qed.

(** When every registered [mos_process_init] answers 0, each of them is
    called once, in list order, and the record is returned. *)
Lemma process_init_walk_ok (elems : list mos_process_callbacks_t) (p : mos_process_t) :
  (forall elem, In elem elems -> mos_process_init elem <> 0%N ->
                process_callback env (mos_process_init elem) p = 0%Z) ->
  process_init_walk env elems p
  = (Some p, void_walk mos_process_init CallProcessInit elems).
Proof.
  unfold void_walk.
  induction elems as [| elem elems IH]; intros H; [reflexivity|].
  cbn [process_init_walk filter].
  destruct (N.eqb (mos_process_init elem) 0) eqn:E; cbn [negb].
  - apply IH. intros e He. apply H. now right.
  - apply N.eqb_neq in E.
    rewrite (H elem (or_introl eq_refl) E). cbn [Z.eqb].
    rewrite IH by (intros e He; apply H; now right).
    reflexivity.
Qed.

(** The three outcomes of a claim. *)
Lemma lwkcpus_request_set_invalid (st : mos_state) (cur : task_struct)
  (request : cpumask) :
  cpumask_subset request (lwkcpus_map st) = false ->
  _lwkcpus_request_set env st cur request = ((- EINVAL)%Z, st, cur, []).
Proof.
  intros H. unfold _lwkcpus_request_set, _cpus_request_set. rewrite H.
  cbn [negb Z.eqb EINVAL Z.opp]. now rewrite set_lwkcpus_reserved_map_same.
Qed.

Lemma lwkcpus_request_set_busy (st : mos_state) (cur : task_struct)
  (request : cpumask) :
  cpumask_subset request (lwkcpus_map st) = true ->
  cpumask_intersects request (lwkcpus_reserved_map st) = true ->
  _lwkcpus_request_set env st cur request = ((- EBUSY)%Z, st, cur, []).
Proof.
  intros H1 H2. unfold _lwkcpus_request_set, _cpus_request_set. rewrite H1, H2.
  cbn [negb Z.eqb EBUSY Z.opp]. now rewrite set_lwkcpus_reserved_map_same.
Qed.

Lemma lwkcpus_request_set_free (st : mos_state) (cur : task_struct)
  (request : cpumask) :
  cpumask_subset request (lwkcpus_map st) = true ->
  cpumask_intersects request (lwkcpus_reserved_map st) = false ->
  let st1 := set_lwkcpus_reserved_map
               (cpumask_or (lwkcpus_reserved_map st) request) st in
  let cur1 := set_task_flags (Z.lor (mos_flags cur) (MOS_IS_LWK_PROCESS env)) cur in
  _lwkcpus_request_set env st cur request
  = match mos_get_process env st cur with
    | (None, evs) => ((- ENOMEM)%Z, st1, set_task_process None cur1, evs)
    | (Some process, evs) =>
        if negb (alloc_ok env VmallocCpuList) then
          ((- ENOMEM)%Z, st1,
           set_task_process (Some (set_lwkcpus request process)) cur1, evs)
        else
          (0%Z, st1,
           set_task_process
             (Some {| tgid := tgid process;
                      lwkcpus := request;
                      utilcpus := cpumask_or (utilcpus process) (utility_cpus_map st);
                      lwkcpus_sequence := Some (cpu_sequence request);
                      num_lwkcpus := cpumask_weight request;
                      num_util_threads := num_util_threads process;
                      alive := alive process;
                      yod_mm := Some (mm cur) |})
             cur1,
           evs)
    end.
Proof.
  intros H1 H2. unfold _lwkcpus_request_set, _cpus_request_set. rewrite H1, H2.
  cbn [negb Z.eqb].
  change (mos_get_process env
            (set_lwkcpus_reserved_map (cpumask_or (lwkcpus_reserved_map st) request) st)
            (set_task_flags (Z.lor (mos_flags cur) (MOS_IS_LWK_PROCESS env)) cur))
    with (mos_get_process env st cur).
  destruct (mos_get_process env st cur) as [[process |] evs]; [|reflexivity].
  unfold cpumask_or at 1. rewrite N.lor_diag.
  reflexivity.
Qed.

End ProcessRecords.

(** ** Claims about CPU reservations *)

(** C1, as the code has it. A claim of the CPUs [request]
    - fails with [-EINVAL] and changes nothing when [request] is not a
      subset of [lwkcpus_map];
    - otherwise fails with [-EBUSY] and changes nothing when [request]
      intersects [lwkcpus_reserved_map];
    - otherwise returns 0 or [-ENOMEM]: 0 exactly when the record of the
      caller is there or can be made and the sequence array can be
      allocated, and [-ENOMEM] exactly when the record cannot be had or the
      array cannot be allocated. In both cases [request] has been added to
      [lwkcpus_reserved_map]. When the call returns 0, the record of the
      caller holds [request] as its CPUs; a later claim by any task of a
      set [other] within [lwkcpus_map] that shares a CPU with [request]
      fails with [-EBUSY] and changes nothing, so that
      [lwkcpus_reserved_map] stays at its earlier value with [request]
      added: at [request] alone if nothing was claimed before. *)
Theorem lwkcpus_request_set_outcomes (env : kernel_env) (st : mos_state)
  (cur : task_struct) (request : cpumask) :
  (cpumask_subset request (lwkcpus_map st) = false ->
   _lwkcpus_request_set env st cur request = ((- EINVAL)%Z, st, cur, []))
  /\ (cpumask_subset request (lwkcpus_map st) = true ->
      cpumask_intersects request (lwkcpus_reserved_map st) = true ->
      _lwkcpus_request_set env st cur request = ((- EBUSY)%Z, st, cur, []))
  /\ (cpumask_subset request (lwkcpus_map st) = true ->
      cpumask_intersects request (lwkcpus_reserved_map st) = false ->
      exists rc st1 cur1 evs,
        _lwkcpus_request_set env st cur request = (rc, st1, cur1, evs)
        /\ (rc = 0%Z \/ rc = (- ENOMEM)%Z)
        /\ (fst (mos_get_process env st cur) <> None ->
            alloc_ok env VmallocCpuList = true -> rc = 0%Z)
        /\ (rc = 0%Z <->
            fst (mos_get_process env st cur) <> None
            /\ alloc_ok env VmallocCpuList = true)
        /\ (rc = (- ENOMEM)%Z <->
            fst (mos_get_process env st cur) = None
            \/ alloc_ok env VmallocCpuList = false)
        /\ lwkcpus_reserved_map st1 = cpumask_or (lwkcpus_reserved_map st) request
        /\ (rc = 0%Z ->
            lwkcpus_reserved_map st1 = cpumask_or (lwkcpus_reserved_map st) request
            /\ lwkcpus_map st1 = lwkcpus_map st
            /\ (exists process, mos_process cur1 = Some process
                                /\ lwkcpus process = request)
            /\ (lwkcpus_reserved_map st = cpumask_clear ->
                lwkcpus_reserved_map st1 = request)
            /\ forall env2 cur2 other,
                 cpumask_subset other (lwkcpus_map st) = true ->
                 cpumask_intersects request other = true ->
                 _lwkcpus_request_set env2 st1 cur2 other
                 = ((- EBUSY)%Z, st1, cur2, []))).
Proof.
  split; [apply lwkcpus_request_set_invalid|].
  split; [apply lwkcpus_request_set_busy|].
  intros Hsub Hfree.
  pose proof (lwkcpus_request_set_free env st cur request Hsub Hfree) as E.
  cbv zeta in E.
  assert (Hlater : forall env2 cur2 other,
             cpumask_subset other (lwkcpus_map st) = true ->
             cpumask_intersects request other = true ->
             _lwkcpus_request_set env2
               (set_lwkcpus_reserved_map
                  (cpumask_or (lwkcpus_reserved_map st) request) st) cur2 other
             = ((- EBUSY)%Z,
                set_lwkcpus_reserved_map
                  (cpumask_or (lwkcpus_reserved_map st) request) st, cur2, [])).
  { intros env2 cur2 other Hother Hshare.
    apply lwkcpus_request_set_busy; state_fields; [exact Hother|].
    apply cpumask_intersects_or. now rewrite cpumask_intersects_sym. }
  assert (Halone : lwkcpus_reserved_map st = cpumask_clear ->
                   cpumask_or (lwkcpus_reserved_map st) request = request).
  { intros ->. apply N.lor_0_l. }
  destruct (mos_get_process env st cur) as [[process |] evs0] eqn:Eget.
  - destruct (alloc_ok env VmallocCpuList) eqn:Ealloc; cbn [negb] in E.
    + do 4 eexists. split; [exact E|].
      split; [now left|]. split; [reflexivity|].
      split; [split; [intros _; split; [discriminate | reflexivity] | reflexivity]|].
      split; [split; [discriminate | intros [H | H]; discriminate H]|].
      split; [reflexivity|].
      intros _. state_fields.
      split; [reflexivity|]. split; [reflexivity|].
      split; [eexists; split; reflexivity|].
      split; [exact Halone | exact Hlater].
    + do 4 eexists. split; [exact E|].
      split; [now right|]. split; [discriminate|].
      split; [split; [discriminate | intros [_ H]; discriminate H]|].
      split; [split; [intros _; now right | reflexivity]|].
      split; [reflexivity | discriminate].
  - do 4 eexists. split; [exact E|].
    split; [now right|]. split; [cbn [fst]; congruence|].
    split; [split; [discriminate | intros [H _]; now contradiction H]|].
    split; [split; [intros _; now left | reflexivity]|].
    split; [reflexivity | discriminate].
Qed.

(** C1 on the sample partition: process 100 takes CPU 2, then process 200
    asks for CPUs 2 and 3. *)
Lemma lwkcpus_request_set_outcomes_witness :
  exists cur1 evs,
    _lwkcpus_request_set sample_env sample_partition (sample_task 100) (cpumask_of 2)
    = (0%Z, sample_claimed, cur1, evs)
    /\ lwkcpus_reserved_map sample_claimed = cpumask_of 2
    /\ _lwkcpus_request_set sample_env sample_claimed (sample_task 200)
         (cpumask_of_list [2; 3]%N)
       = ((- EBUSY)%Z, sample_claimed, sample_task 200, []).
Proof.
  destruct (lwkcpus_request_set_outcomes sample_env sample_partition
              (sample_task 100) (cpumask_of 2)) as (_ & _ & Hfree).
  destruct (Hfree eq_refl eq_refl)
    as (rc & st1 & cur1 & evs & E & _ & Hrc & _ & _ & _ & Hdone).
  assert (Est : st1 = sample_claimed) by (unfold sample_claimed; now rewrite E).
  subst st1.
  assert (Hzero : rc = 0%Z) by (apply Hrc; [discriminate | reflexivity]).
  destruct (Hdone Hzero) as (_ & _ & _ & Halone & Hlater).
  subst rc.
  exists cur1, evs. split; [exact E|]. split; [exact (Halone eq_refl)|].
  apply Hlater; reflexivity.
Defined.

(** C1 as stated fails on the sample partition. Process 200 asks for CPUs
    2 and 5 after process 100 took CPU 2: CPU 5 is no LWK CPU, and the
    answer is [-EINVAL], not [-EBUSY]. And when process 100 goes on to
    claim CPU 3, its record holds CPU 3 alone, while both CPUs stay
    claimed. *)
Lemma request_outside_partition_counterexample :
  cpumask_intersects (cpumask_of 2) (cpumask_of_list [2; 5]%N) = true
  /\ fst (fst (fst (_lwkcpus_request_set sample_env sample_partition
                      (sample_task 100) (cpumask_of 2)))) = 0%Z
  /\ _lwkcpus_request_set sample_env sample_claimed (sample_task 200)
       (cpumask_of_list [2; 5]%N)
     = ((- EINVAL)%Z, sample_claimed, sample_task 200, [])
  /\ (- EINVAL)%Z <> (- EBUSY)%Z
  /\ fst (fst (fst (_lwkcpus_request_set sample_env sample_claimed
                      sample_claimer (cpumask_of 3)))) = 0%Z
  /\ option_map lwkcpus
       (mos_process (snd (fst (_lwkcpus_request_set sample_env sample_claimed
                                 sample_claimer (cpumask_of 3)))))
     = Some (cpumask_of 3)
  /\ lwkcpus_reserved_map
       (snd (fst (fst (_lwkcpus_request_set sample_env sample_claimed
                         sample_claimer (cpumask_of 3)))))
     = cpumask_of_list [2; 3]%N.
Proof.
  repeat split. vm_compute. discriminate.
Qed.

(** C4, as the code has it. From a state where every claimed CPU is an LWK
    CPU, that still holds
    - after a claim of CPUs, whatever its outcome;
    - after the claimed set is replaced through [lwkcpus_reserved];
    - after a non-empty specification is written;
    - after the empty specification is written, as long as no CPU is
      claimed or the call does not return 0;
    - after a thread leaves, as long as the CPUs of its process are LWK
      CPUs.
    When the last thread of a process leaves and the CPUs of the process
    are all claimed, they are taken out of [lwkcpus_reserved_map]: none of
    them is claimed any more. *)
Theorem partition_invariant_preserved (env : kernel_env) (st : mos_state) :
  partition_invariant st ->
  (forall cur request,
      partition_invariant
        (snd (fst (fst (_lwkcpus_request_set env st cur request)))))
  /\ (forall request,
      partition_invariant (snd (_lwkcpus_reserved_set st request)))
  /\ (forall spec profile,
      spec <> EmptyString ->
      partition_invariant (snd (fst (lwk_config_lwkcpus env st spec profile))))
  /\ (forall profile,
      cpumask_empty (lwkcpus_reserved_map st) = true
      \/ fst (fst (lwk_config_lwkcpus env st EmptyString profile)) <> 0%Z ->
      partition_invariant (snd (fst (lwk_config_lwkcpus env st EmptyString profile))))
  /\ (forall cur process,
      mos_process cur = Some process ->
      cpumask_subset (lwkcpus process) (lwkcpus_map st) = true ->
      partition_invariant (fst (fst (mos_exit_thread st cur))))
  /\ (forall cur process,
      mos_process cur = Some process ->
      wrap_int (alive process - 1) = 0%Z ->
      cpumask_subset (lwkcpus process) (lwkcpus_reserved_map st) = true ->
      lwkcpus_reserved_map (fst (fst (mos_exit_thread st cur)))
      = cpumask_andnot (lwkcpus_reserved_map st) (lwkcpus process)
      /\ forall cpu,
           N.testbit (lwkcpus process) cpu = true ->
           N.testbit (lwkcpus_reserved_map (fst (fst (mos_exit_thread st cur)))) cpu
           = false).
Proof.
  unfold partition_invariant. intros Hinv.
  split; [|split; [|split; [|split; [|split]]]].
  - intros cur request.
    destruct (cpumask_subset request (lwkcpus_map st)) eqn:Hsub.
    + destruct (cpumask_intersects request (lwkcpus_reserved_map st)) eqn:Hfree.
      * now rewrite lwkcpus_request_set_busy.
      * rewrite (lwkcpus_request_set_free env st cur request Hsub Hfree).
        destruct (mos_get_process env st cur) as [[process |] evs];
          [destruct (negb (alloc_ok env VmallocCpuList))|];
          state_fields; now apply cpumask_or_subset.
    + now rewrite lwkcpus_request_set_invalid.
  - intros request. unfold _lwkcpus_reserved_set, _cpus_reserved_set.
    destruct (cpumask_empty request) eqn:Hempty; cbn [negb andb].
    + state_fields. unfold cpumask_empty in Hempty.
      apply N.eqb_eq in Hempty. subst request. apply cpumask_subset_empty.
    + destruct (cpumask_subset request (lwkcpus_map st)) eqn:Hsub; cbn [negb];
        state_fields; assumption.
  - intros spec profile Hspec.
    rewrite config_keeps_reserved.
    destruct (lwk_config_lwkcpus env st spec profile) as [[rc st1] evs] eqn:E.
    cbn [fst snd]. destruct (Z.eq_dec rc 0) as [-> | Hrc].
    + apply (specification_applied env st spec profile st1 evs Hspec) in E
        as (Hempty & _).
      unfold cpumask_empty in Hempty. apply N.eqb_eq in Hempty.
      rewrite Hempty in Hinv. apply cpumask_subset_of_empty in Hinv.
      rewrite Hinv. apply cpumask_subset_empty.
    + pose proof (failed_config_keeps_lwkcpus env st spec profile) as Hfail.
      rewrite E in Hfail. cbn [fst snd] in Hfail. now rewrite (Hfail Hrc).
  - intros profile Hcase. rewrite config_keeps_reserved.
    destruct Hcase as [Hnone | Hrc].
    + unfold cpumask_empty in Hnone. apply N.eqb_eq in Hnone.
      rewrite Hnone. apply cpumask_subset_empty.
    + now rewrite (failed_config_keeps_lwkcpus env st EmptyString profile Hrc).
  - intros cur process Hcur Hsub. unfold mos_exit_thread. rewrite Hcur.
    destruct (negb (Z.eqb (alive (set_alive (wrap_int (alive process - 1)) process)) 0));
      state_fields; [exact Hinv|].
    now apply cpumask_xor_subset.
  - intros cur process Hcur Hlast Hsub. unfold mos_exit_thread. rewrite Hcur.
    cbn [alive set_alive lwkcpus]. rewrite Hlast. cbn [Z.eqb negb].
    state_fields. rewrite (cpumask_xor_andnot _ _ Hsub).
    split; [reflexivity|].
    intros cpu Hcpu. unfold cpumask_andnot.
    now rewrite N.ldiff_spec, Hcpu, andb_false_r.
Qed.

(** A thread that is not the last one of its process leaves the state as
    it is and the record with one live thread less. *)
Lemma mos_exit_thread_not_last (st : mos_state) (cur : task_struct)
  (process : mos_process_t) :
  mos_process cur = Some process ->
  wrap_int (alive process - 1) <> 0%Z ->
  fst (mos_exit_thread st cur)
  = (st, set_task_process (Some (set_alive (wrap_int (alive process - 1)) process)) cur).
Proof.
  intros Hcur Hlive. unfold mos_exit_thread. rewrite Hcur.
  cbn [alive set_alive]. now rewrite (proj2 (Z.eqb_neq _ _) Hlive).
Qed.

(** Two threads of process 100 leave one after the other, the second with
    the record as the first left it: CPU 2 stays claimed until the second
    one is gone. *)
Example two_threads_leave :
  lwkcpus_reserved_map (fst (fst (mos_exit_thread sample_claimed sample_two_threads)))
  = cpumask_of 2
  /\ option_map alive
       (mos_process (snd (fst (mos_exit_thread sample_claimed sample_two_threads))))
     = Some 1%Z
  /\ lwkcpus_reserved_map
       (fst (fst (mos_exit_thread
                    (fst (fst (mos_exit_thread sample_claimed sample_two_threads)))
                    (snd (fst (mos_exit_thread sample_claimed sample_two_threads))))))
     = cpumask_clear.
Proof.
  repeat split.
Qed.

(** C4 on the sample partition with CPU 2 claimed by process 100: the only
    thread of the process leaves. *)
Lemma partition_invariant_preserved_witness :
  partition_invariant sample_claimed
  /\ partition_invariant (fst (fst (mos_exit_thread sample_claimed sample_claimer)))
  /\ lwkcpus_reserved_map (fst (fst (mos_exit_thread sample_claimed sample_claimer)))
     = cpumask_clear
  /\ N.testbit
       (lwkcpus_reserved_map (fst (fst (mos_exit_thread sample_claimed sample_claimer))))
       2 = false.
Proof.
  assert (Hinv : partition_invariant sample_claimed) by reflexivity.
  destruct (partition_invariant_preserved sample_env sample_claimed Hinv)
    as (_ & _ & _ & _ & Hexit & Hlast).
  pose (process := match mos_process sample_claimer with
                   | Some p => p
                   | None => new_mos_process sample_claimer
                   end).
  destruct (Hlast sample_claimer process eq_refl eq_refl eq_refl) as [Hres Hfree].
  split; [exact Hinv|].
  split; [exact (Hexit sample_claimer process eq_refl eq_refl)|].
  split; [exact Hres | exact (Hfree 2%N eq_refl)].
Defined.

(** C4 as stated fails on the sample partition with CPU 2 claimed: the
    release of the partition empties [lwkcpus_map] and leaves CPU 2 in
    [lwkcpus_reserved_map]. *)
Lemma partition_destroy_counterexample :
  partition_invariant sample_claimed
  /\ fst (fst (lwk_config_lwkcpus sample_env sample_claimed EmptyString None)) = 0%Z
  /\ lwkcpus_map
       (snd (fst (lwk_config_lwkcpus sample_env sample_claimed EmptyString None)))
     = cpumask_clear
  /\ lwkcpus_reserved_map
       (snd (fst (lwk_config_lwkcpus sample_env sample_claimed EmptyString None)))
     = cpumask_of 2
  /\ ~ partition_invariant
         (snd (fst (lwk_config_lwkcpus sample_env sample_claimed EmptyString None))).
Proof.
  repeat split. unfold partition_invariant. vm_compute. discriminate.
Qed.

(** C10, as the code has it. A claim of no CPU at all returns 0 in any
    state of the three masks, provided the sequence array can be allocated
    and the caller has a record or one can be made: the two allocations
    succeed and every registered [mos_process_init] answers 0. The state
    is left as it was; the caller is flagged as an LWK process; its record
    holds no CPU and a sequence array with the sentinel alone. A record
    that had to be made comes with one call of each registered
    [mos_process_init], in list order. *)
Theorem lwkcpus_request_set_empty (env : kernel_env) (st : mos_state)
  (cur : task_struct) :
  alloc_ok env VmallocCpuList = true ->
  (mos_process cur = None ->
   alloc_ok env VmallocProcess = true
   /\ alloc_ok env ZallocProcessCpumasks = true
   /\ forall elem, In elem (mos_process_callbacks st) ->
                   mos_process_init elem <> 0%N ->
                   process_callback env (mos_process_init elem) (new_mos_process cur)
                   = 0%Z) ->
  exists cur' evs process,
    _lwkcpus_request_set env st cur cpumask_clear = (0%Z, st, cur', evs)
    /\ mos_flags cur' = Z.lor (mos_flags cur) (MOS_IS_LWK_PROCESS env)
    /\ mos_process cur' = Some process
    /\ lwkcpus process = cpumask_clear
    /\ num_lwkcpus process = 0%Z
    /\ lwkcpus_sequence process = Some [(-1)%Z]
    /\ (mos_process cur = None ->
        evs = void_walk mos_process_init CallProcessInit (mos_process_callbacks st)
        /\ tgid process = task_tgid cur
        /\ alive process = 1%Z)
    /\ (forall old, mos_process cur = Some old ->
        evs = [] /\ tgid process = tgid old /\ alive process = alive old).
Proof.
  intros Hseq Hnew.
  rewrite (lwkcpus_request_set_free env st cur cpumask_clear
             (cpumask_subset_empty _) (cpumask_intersects_empty _)).
  replace (cpumask_or (lwkcpus_reserved_map st) cpumask_clear)
    with (lwkcpus_reserved_map st) by (symmetry; apply N.lor_0_r).
  rewrite set_lwkcpus_reserved_map_same, Hseq. cbn [negb].
  unfold mos_get_process.
  destruct (mos_process cur) as [old |] eqn:Hcur.
  - do 3 eexists. split; [reflexivity|]. cbn.
    repeat split; try discriminate; cbn; congruence.
  - destruct (Hnew eq_refl) as (Hrecord & Hmasks & Hinit).
    rewrite Hrecord, Hmasks. cbn [negb].
    rewrite (process_init_walk_ok env _ _ Hinit).
    do 3 eexists. split; [reflexivity|]. cbn.
    repeat split; discriminate.
Qed.

(** C10 at boot, with no partition and one subsystem registered. *)
Lemma lwkcpus_request_set_empty_witness :
  exists cur' process,
    _lwkcpus_request_set sample_env sample_hooked (sample_task 100) cpumask_clear
    = (0%Z, sample_hooked, cur', [CallProcessInit 7%N])
    /\ mos_process cur' = Some process
    /\ lwkcpus_sequence process = Some [(-1)%Z]
    /\ lwkcpus_reserved_map sample_hooked = cpumask_clear
    /\ lwkcpus_map sample_hooked = cpumask_clear.
Proof.
  destruct (lwkcpus_request_set_empty sample_env sample_hooked (sample_task 100) eq_refl)
    as (cur' & evs & process & E & _ & Hrecord & _ & _ & Hseq & Hmade & _).
  - intros _. split; [reflexivity|]. split; [reflexivity|]. reflexivity.
  - destruct (Hmade eq_refl) as (Hevs & _). rewrite Hevs in E.
    exists cur', process.
    split; [exact E|]. split; [exact Hrecord|]. split; [exact Hseq|].
    split; reflexivity.
Defined.

(** C10 as stated fails when a registered [mos_process_init] answers
    non-zero: the caller is flagged, no record is made, and the claim of no
    CPU returns [-ENOMEM]. *)
Lemma empty_request_init_failure_counterexample :
  _lwkcpus_request_set rejecting_env sample_hooked (sample_task 100) cpumask_clear
  = ((- ENOMEM)%Z, sample_hooked,
     set_task_flags 1 (sample_task 100),
     [CallProcessInit 7%N; Ras (RasProcessInitFailed 7%N)])
  /\ (- ENOMEM)%Z <> 0%Z.
Proof.
  split; [reflexivity | discriminate].
Qed.

(** ** Claims about the callback registries *)

(** C9, as the code has it. Registering an option callback fails with
    [-EINVAL] for a NULL handler and for a name of 64 characters or more.
    Otherwise, if the entry can be allocated, it succeeds whatever names
    are registered already, and puts the new entry at the head of the
    list. A lookup of the name then finds the new entry, and
    [lwk_options_store] calls the new handler for a phrase with that name:
    of several handlers registered under one name, the one registered last
    is called. *)
Theorem option_callback_registry (env : kernel_env) (st : mos_state)
  (name : string) (cb : fnptr) :
  (cb = 0%N -> mos_register_option_callback env name cb st = ((- EINVAL)%Z, st))
  /\ (OPTION_NAME_SIZE <= String.length name ->
      mos_register_option_callback env name cb st = ((- EINVAL)%Z, st))
  /\ (cb <> 0%N ->
      String.length name < OPTION_NAME_SIZE ->
      alloc_ok env VmallocOptionElem = true ->
      exists st',
        mos_register_option_callback env name cb st = (0%Z, st')
        /\ mos_process_option_callbacks st'
           = {| opt_name := name; opt_callback := cb |}
               :: mos_process_option_callbacks st
        /\ find (fun elem => String.eqb (opt_name elem) name)
             (mos_process_option_callbacks st')
           = Some {| opt_name := name; opt_callback := cb |}
        /\ forall env' cur mosp buff phrase rest value,
             mos_process cur = Some mosp ->
             alloc_ok env' KstrndupOption = true ->
             option_names buff = phrase :: rest ->
             phrase <> EmptyString ->
             split_option phrase = (name, value) ->
             exists evs,
               snd (lwk_options_store env' st' cur buff) = CallOption cb value :: evs).
Proof.
  split; [|split].
  - intros ->. reflexivity.
  - intros Hlen. unfold mos_register_option_callback.
    destruct (N.eqb cb 0); [reflexivity|].
    now rewrite (proj2 (Nat.leb_le _ _) Hlen).
  - intros Hcb Hlen Halloc. unfold mos_register_option_callback.
    rewrite (proj2 (N.eqb_neq _ _) Hcb), (proj2 (Nat.leb_gt _ _) Hlen), Halloc.
    cbn [negb]. eexists. split; [reflexivity|]. state_fields. unfold list_add.
    split; [reflexivity|].
    assert (Hfind : find (fun elem => String.eqb (opt_name elem) name)
                      ({| opt_name := name; opt_callback := cb |}
                         :: mos_process_option_callbacks st)
                    = Some {| opt_name := name; opt_callback := cb |}).
    { cbn [find opt_name]. now rewrite String.eqb_refl. }
    split; [exact Hfind|].
    intros env' cur mosp buff phrase rest value Hcur Hdup Hnames Hphrase Hsplit.
    unfold lwk_options_store. rewrite Hcur, Hnames. state_fields.
    cbn [options_walk]. rewrite (strlen_nonzero phrase Hphrase), Hdup, Hsplit.
    cbn [negb]. rewrite Hfind. cbn [opt_callback opt_name].
    destruct (Z.eqb (option_callback env' cb value mosp) 0); cbn [negb].
    + destruct rest as [| next rest]; [eexists; reflexivity|].
      destruct (options_walk env' _ mosp (next :: rest)) as [[| rc] evs].
      * destruct (process_start_walk env' _ mosp) as [[| rc] evs'];
          eexists; reflexivity.
      * eexists; reflexivity.
    + eexists; reflexivity.
Qed.

(** C9 at boot: [opt] is registered with the handler at address 4 and then
    with the handler at address 5; the bytes [opt\0] make one call, of the
    handler at address 5. *)
Lemma option_callback_registry_witness :
  mos_register_option_callback sample_env "opt" 5%N sample_registered_once
  = (0%Z, sample_registered_twice)
  /\ mos_process_option_callbacks sample_registered_twice
     = [{| opt_name := "opt"; opt_callback := 5%N |};
        {| opt_name := "opt"; opt_callback := 4%N |}]
  /\ exists evs,
       snd (lwk_options_store sample_env sample_registered_twice sample_lwk_task
              sample_options)
       = CallOption 5%N None :: evs.
Proof.
  destruct (option_callback_registry sample_env sample_registered_once "opt" 5%N)
    as (_ & _ & Hok).
  destruct Hok as (st' & E & Hlist & _ & Hcall);
    [discriminate | apply Nat.ltb_lt; reflexivity | reflexivity |].
  assert (Est : st' = sample_registered_twice)
    by (unfold sample_registered_twice; now rewrite E).
  subst st'.
  split; [exact E|]. split; [exact Hlist|].
  apply (Hcall sample_env sample_lwk_task
           (match mos_process sample_lwk_task with
            | Some p => p
            | None => new_mos_process sample_lwk_task
            end)
           sample_options "opt"%string [EmptyString] None);
    try reflexivity.
  discriminate.
Defined.

(** C9 as stated fails at boot: with [opt] registered first with the
    handler at address 4 and then with the handler at address 5, the bytes
    [opt\0] call the handler at address 5 and never the one registered
    first. *)
Lemma first_registered_handler_counterexample :
  mos_process_option_callbacks sample_registered_twice
  = [{| opt_name := "opt"; opt_callback := 5%N |};
     {| opt_name := "opt"; opt_callback := 4%N |}]
  /\ lwk_options_store sample_env sample_registered_twice sample_lwk_task sample_options
     = (4%Z, [CallOption 5%N None])
  /\ ~ In (CallOption 4%N None)
         (snd (lwk_options_store sample_env sample_registered_twice sample_lwk_task
                 sample_options)).
Proof.
  split; [reflexivity|]. split; [reflexivity|].
  cbn. intros [H | []]. discriminate.
Qed.

(** ** Batches of options *)

Section OptionBatches.

Variable env : kernel_env.
Variable elems : list mos_process_option_callback_elem_t.
Variable mosp : mos_process_t.
Hypothesis Hdup : alloc_ok env KstrndupOption = true.

(** One turn of the loop. *)
Lemma options_walk_cons (name : string) (rest : list string) :
  options_walk env elems mosp (name :: rest)
  = if Nat.eqb (String.length name) 0 then (WalkDone, [])
    else if negb (alloc_ok env KstrndupOption) then (WalkFail (- ENOMEM)%Z, [])
    else
      let '(option, value) := split_option name in
      match find (fun elem => String.eqb (opt_name elem) option) elems with
      | None => (WalkFail (- EINVAL)%Z, [Ras (RasNoOptionCallback option)])
      | Some elem =>
          let rc := option_callback env (opt_callback elem) value mosp in
          if negb (Z.eqb rc 0) then
            (WalkFail (- EINVAL)%Z,
             [CallOption (opt_callback elem) value;
              Ras (RasOptionCallbackError (opt_name elem) (opt_callback elem) rc)])
          else
            match rest with
            | [] => (WalkFail (- EINVAL)%Z,
                     [CallOption (opt_callback elem) value; Ras RasOptionsOverflow])
            | _ :: _ =>
                let '(r, evs) := options_walk env elems mosp rest in
                (r, CallOption (opt_callback elem) value :: evs)
            end
      end.
Proof. reflexivity. Qed.

(** One phrase that is handled with success, and more to come. *)
Lemma options_walk_accepted (phrase next : string) (rest : list string) :
  option_accepted env elems mosp phrase = true ->
  options_walk env elems mosp (phrase :: next :: rest)
  = (fst (options_walk env elems mosp (next :: rest)),
     option_call elems phrase ++ snd (options_walk env elems mosp (next :: rest))).
Proof.
  unfold option_accepted, option_call, option_handler.
  intros H. apply andb_true_iff in H as [Hlen Hrun].
  apply negb_true_iff in Hlen.
  rewrite options_walk_cons, Hlen, Hdup. cbn [negb].
  destruct (split_option phrase) as [option value]. cbn [fst snd] in *.
  destruct (find _ elems) as [elem |]; [|discriminate].
  cbv zeta. rewrite Hrun. cbn [negb].
  now destruct (options_walk env elems mosp (next :: rest)) as [r evs].
Qed.

(** Phrases handled with success in front are passed over. *)
Lemma options_walk_app (pre : list string) (next : string) (rest : list string) :
  forallb (option_accepted env elems mosp) pre = true ->
  options_walk env elems mosp (pre ++ next :: rest)
  = (fst (options_walk env elems mosp (next :: rest)),
     option_calls elems pre ++ snd (options_walk env elems mosp (next :: rest))).
Proof.
  induction pre as [| phrase pre IH]; intros H.
  - cbn [app option_calls flat_map].
    now destruct (options_walk env elems mosp (next :: rest)).
  - cbn [forallb] in H. apply andb_true_iff in H as [Hphrase Hpre].
    assert (Hshape : exists x l, pre ++ next :: rest = x :: l).
    { destruct pre; cbn [app]; eauto. }
    destruct Hshape as (x & l & Hshape).
    cbn [app]. rewrite Hshape, (options_walk_accepted _ _ _ Hphrase), <- Hshape.
    rewrite (IH Hpre). cbn [fst snd option_calls flat_map].
    now rewrite app_assoc.
Qed.

(** How the loop over the phrases can end: at an empty phrase, every
    phrase before it handled with success, or with [-EINVAL]. The callbacks
    of the lifecycle registry are not called by this loop. *)
Lemma options_walk_cases (names : list string) :
  match options_walk env elems mosp names with
  | (WalkDone, evs) =>
      exists pre post,
        names = pre ++ post
        /\ forallb (option_accepted env elems mosp) pre = true
        /\ (post = [] \/ exists post', post = EmptyString :: post')
        /\ evs = option_calls elems pre
  | (WalkFail rc, evs) =>
      rc = (- EINVAL)%Z /\ forall cb, ~ In (CallProcessStart cb) evs
  end.
Proof.
  induction names as [| name rest IH].
  - exists [], []. repeat split. now left.
  - rewrite options_walk_cons.
    destruct (Nat.eqb (String.length name) 0) eqn:Hlen.
    + apply strlen_zero in Hlen. subst name.
      exists [], (EmptyString :: rest). repeat split. right. now exists rest.
    + rewrite Hdup. cbn [negb].
      destruct (split_option name) as [option value] eqn:Hsplit.
      destruct (find (fun elem => String.eqb (opt_name elem) option) elems)
        as [elem |] eqn:Hfind.
      * cbv zeta.
        destruct (Z.eqb (option_callback env (opt_callback elem) value mosp) 0) eqn:Hrc;
          cbn [negb].
        -- assert (Hok : option_accepted env elems mosp name = true).
           { unfold option_accepted, option_handler.
             rewrite Hlen, Hsplit. cbn [negb fst snd andb]. now rewrite Hfind. }
           assert (Hcall : option_call elems name
                           = [CallOption (opt_callback elem) value]).
           { unfold option_call, option_handler. rewrite Hsplit. cbn [fst snd].
             now rewrite Hfind. }
           destruct rest as [| next rest].
           ++ split; [reflexivity|]. intros cb [H | [H | []]]; discriminate.
           ++ destruct (options_walk env elems mosp (next :: rest)) as [[| rc] evs].
              ** destruct IH as (pre & post & Hnames & Hpre & Hpost & Hevs).
                 exists (name :: pre), post. rewrite Hnames. cbn [app forallb].
                 rewrite Hok, Hpre. repeat split; [assumption|].
                 cbn [option_calls flat_map]. rewrite Hcall, Hevs. reflexivity.
              ** destruct IH as [Hrc' Hnone]. split; [exact Hrc'|].
                 intros cb [H | H]; [discriminate | now apply (Hnone cb)].
        -- split; [reflexivity|]. intros cb [H | [H | []]]; discriminate.
      * split; [reflexivity|]. intros cb [H | []]; discriminate.
Qed.

End OptionBatches.

(** The pieces of a buffer that starts with a piece free of the
    delimiter. *)
Lemma strsep_all_app (d : ascii) (piece rest : string) :
  str_free d piece = true ->
  strsep_all d (piece ++ String d rest) = piece :: strsep_all d rest.
Proof.
  induction piece as [| x piece IH]; cbn [str_free append strsep_all]; intros H.
  - now rewrite Ascii.eqb_refl.
  - apply andb_true_iff in H as [Hx Hfree]. apply negb_true_iff in Hx.
    now rewrite Hx, (IH Hfree).
Qed.

(** The loop over a batch written as [options_buffer] visits the phrases
    of the batch and then the empty phrase that ends it. *)
Lemma option_names_buffer (phrases : list string) :
  forallb (str_free NUL) phrases = true ->
  forallb (fun phrase => negb (Nat.eqb (String.length phrase) 0)) phrases = true ->
  exists post, option_names (options_buffer phrases) = phrases ++ EmptyString :: post.
Proof.
  intros Hfree Hfull.
  assert (Hall : forall l, forallb (str_free NUL) l = true ->
                           strsep_all NUL (options_buffer l)
                           = l ++ [EmptyString; EmptyString]).
  { induction l as [| phrase l IH]; intros H; [reflexivity|].
    cbn [forallb] in H. apply andb_true_iff in H as [Hp Hl].
    cbn [options_buffer app]. now rewrite (strsep_all_app _ _ _ Hp), (IH Hl). }
  unfold option_names. rewrite (Hall phrases Hfree).
  destruct phrases as [| phrase rest]; [now exists []|].
  cbn [forallb] in Hfull. apply andb_true_iff in Hfull as [Hphrase _].
  destruct phrase as [| x phrase]; [discriminate|].
  now exists [EmptyString].
Qed.

(** When every registered [mos_process_start] answers 0, each of them is
    called once, in list order. *)
Lemma process_start_walk_ok (env : kernel_env)
  (elems : list mos_process_callbacks_t) (mosp : mos_process_t) :
  (forall cbs, In cbs elems -> mos_process_start cbs <> 0%N ->
               process_callback env (mos_process_start cbs) mosp = 0%Z) ->
  process_start_walk env elems mosp
  = (WalkDone, void_walk mos_process_start CallProcessStart elems).
Proof.
  unfold void_walk.
  induction elems as [| cbs elems IH]; intros H; [reflexivity|].
  cbn [process_start_walk filter].
  destruct (N.eqb (mos_process_start cbs) 0) eqn:E; cbn [negb].
  - apply IH. intros c Hc. apply H. now right.
  - apply N.eqb_neq in E.
    rewrite (H cbs (or_introl eq_refl) E). cbn [Z.eqb negb].
    rewrite IH by (intros c Hc; apply H; now right).
    reflexivity.
Qed.

(** One registered [mos_process_start] that answers non-zero makes the walk
    end with [-EINVAL]. *)
Lemma process_start_walk_fails (env : kernel_env)
  (elems : list mos_process_callbacks_t) (mosp : mos_process_t) (cbs : mos_process_callbacks_t) :
  In cbs elems ->
  mos_process_start cbs <> 0%N ->
  process_callback env (mos_process_start cbs) mosp <> 0%Z ->
  fst (process_start_walk env elems mosp) = WalkFail (- EINVAL)%Z.
Proof.
  intros Hin Hstart Hrc.
  induction elems as [| c elems IH]; [destruct Hin|].
  cbn [process_start_walk].
  destruct (N.eqb (mos_process_start c) 0) eqn:E.
  - destruct Hin as [-> | Hin]; [|now apply IH].
    apply N.eqb_eq in E. contradiction.
  - destruct (Z.eqb (process_callback env (mos_process_start c) mosp) 0) eqn:Ec;
      cbn [negb]; [|reflexivity].
    destruct Hin as [-> | Hin].
    + apply Z.eqb_eq in Ec. contradiction.
    + destruct (process_start_walk env elems mosp) as [r evs]. cbn [fst] in *.
      now apply IH.
Qed.

(** C8. For a task with a record, an options buffer is read phrase by
    phrase (copies of the phrases can be allocated).
    - A phrase whose name finds no registered callback, every phrase
      before it handled with success, ends the call with [-EINVAL] and the
      report "No option callback found"; nothing is called after it.
    - A phrase whose handler answers non-zero ends the call with [-EINVAL]
      and the report of that callback; nothing is called after it.
    - If a [mos_process_start] callback is called at all, the loop over the
      phrases came to its end at an empty phrase with every phrase before
      it handled with success.
    - If some registered [mos_process_start] answers non-zero, the call
      returns [-EINVAL].
    - If every phrase up to an empty one is handled with success and every
      registered [mos_process_start] answers 0, the call returns the count
      of bytes written, after the option callbacks and then the start
      callbacks have been called in order. This is so for the bytes of any
      batch of phrases that are all handled with success. *)
Theorem lwk_options_store_batch (env : kernel_env) (st : mos_state)
  (cur : task_struct) (mosp : mos_process_t) (buff : string) :
  mos_process cur = Some mosp ->
  alloc_ok env KstrndupOption = true ->
  (forall pre phrase post,
      option_names buff = pre ++ phrase :: post ->
      forallb (option_accepted env (mos_process_option_callbacks st) mosp) pre = true ->
      phrase <> EmptyString ->
      option_handler (mos_process_option_callbacks st) phrase = None ->
      lwk_options_store env st cur buff
      = ((- EINVAL)%Z,
         option_calls (mos_process_option_callbacks st) pre
           ++ [Ras (RasNoOptionCallback (fst (split_option phrase)))]))
  /\ (forall pre phrase post elem,
      option_names buff = pre ++ phrase :: post ->
      forallb (option_accepted env (mos_process_option_callbacks st) mosp) pre = true ->
      phrase <> EmptyString ->
      option_handler (mos_process_option_callbacks st) phrase = Some elem ->
      option_callback env (opt_callback elem) (snd (split_option phrase)) mosp <> 0%Z ->
      lwk_options_store env st cur buff
      = ((- EINVAL)%Z,
         option_calls (mos_process_option_callbacks st) pre
           ++ [CallOption (opt_callback elem) (snd (split_option phrase));
               Ras (RasOptionCallbackError (opt_name elem) (opt_callback elem)
                      (option_callback env (opt_callback elem)
                         (snd (split_option phrase)) mosp))]))
  /\ (forall cb,
      In (CallProcessStart cb) (snd (lwk_options_store env st cur buff)) ->
      exists pre post,
        option_names buff = pre ++ post
        /\ forallb (option_accepted env (mos_process_option_callbacks st) mosp) pre = true
        /\ (post = [] \/ exists post', post = EmptyString :: post'))
  /\ (forall cbs,
      In cbs (mos_process_callbacks st) ->
      mos_process_start cbs <> 0%N ->
      process_callback env (mos_process_start cbs) mosp <> 0%Z ->
      fst (lwk_options_store env st cur buff) = (- EINVAL)%Z)
  /\ (forall pre post,
      option_names buff = pre ++ EmptyString :: post ->
      forallb (option_accepted env (mos_process_option_callbacks st) mosp) pre = true ->
      (forall cbs, In cbs (mos_process_callbacks st) ->
                   mos_process_start cbs <> 0%N ->
                   process_callback env (mos_process_start cbs) mosp = 0%Z) ->
      lwk_options_store env st cur buff
      = (Z.of_nat (String.length buff),
         option_calls (mos_process_option_callbacks st) pre
           ++ void_walk mos_process_start CallProcessStart (mos_process_callbacks st)))
  /\ (forall phrases,
      buff = options_buffer phrases ->
      forallb (str_free NUL) phrases = true ->
      forallb (option_accepted env (mos_process_option_callbacks st) mosp) phrases = true ->
      (forall cbs, In cbs (mos_process_callbacks st) ->
                   mos_process_start cbs <> 0%N ->
                   process_callback env (mos_process_start cbs) mosp = 0%Z) ->
      lwk_options_store env st cur buff
      = (Z.of_nat (String.length buff),
         option_calls (mos_process_option_callbacks st) phrases
           ++ void_walk mos_process_start CallProcessStart (mos_process_callbacks st))).
Proof.
  intros Hcur Hdup. unfold lwk_options_store. rewrite Hcur.
  set (elems := mos_process_option_callbacks st).
  assert (Hdone : forall pre post,
             option_names buff = pre ++ EmptyString :: post ->
             forallb (option_accepted env elems mosp) pre = true ->
             (forall cbs, In cbs (mos_process_callbacks st) ->
                          mos_process_start cbs <> 0%N ->
                          process_callback env (mos_process_start cbs) mosp = 0%Z) ->
             match options_walk env elems mosp (option_names buff) with
             | (WalkFail rc, evs) => (rc, evs)
             | (WalkDone, evs) =>
                 match process_start_walk env (mos_process_callbacks st) mosp with
                 | (WalkFail rc, evs') => (rc, evs ++ evs')
                 | (WalkDone, evs') => (Z.of_nat (String.length buff), evs ++ evs')
                 end
             end
             = (Z.of_nat (String.length buff),
                option_calls elems pre
                  ++ void_walk mos_process_start CallProcessStart (mos_process_callbacks st))).
  { intros pre post Hnames Hpre Hstart.
    rewrite Hnames,
      (options_walk_app env elems mosp Hdup pre EmptyString post Hpre).
    rewrite options_walk_cons. cbn [String.length Nat.eqb fst snd].
    rewrite (process_start_walk_ok env _ mosp Hstart).
    now rewrite app_nil_r. }
  split; [|split; [|split; [|split; [|split]]]].
  6: { intros phrases Hbuff Hfree Hok Hstart.
       assert (Hfull : forallb (fun phrase => negb (Nat.eqb (String.length phrase) 0))
                         phrases = true).
       { apply forallb_forall. intros phrase Hin.
         pose proof (proj1 (forallb_forall _ _) Hok phrase Hin) as H.
         unfold option_accepted in H. now apply andb_true_iff in H as [H _]. }
       destruct (option_names_buffer phrases Hfree Hfull) as (post & Hnames).
       rewrite <- Hbuff in Hnames. now apply (Hdone phrases post). }
  5: { exact Hdone. }
  - intros pre phrase post Hnames Hpre Hphrase Hnone.
    rewrite Hnames, (options_walk_app env elems mosp Hdup pre phrase post Hpre).
    rewrite options_walk_cons, (strlen_nonzero phrase Hphrase), Hdup. cbn [negb].
    unfold option_handler in Hnone.
    destruct (split_option phrase) as [option value]. cbn [fst snd] in *.
    now rewrite Hnone.
  - intros pre phrase post elem Hnames Hpre Hphrase Hsome Hrc.
    rewrite Hnames, (options_walk_app env elems mosp Hdup pre phrase post Hpre).
    rewrite options_walk_cons, (strlen_nonzero phrase Hphrase), Hdup. cbn [negb].
    unfold option_handler in Hsome.
    destruct (split_option phrase) as [option value]. cbn [fst snd] in *.
    rewrite Hsome. cbv zeta.
    now rewrite (proj2 (Z.eqb_neq _ _) Hrc).
  - intros cb Hin.
    pose proof (options_walk_cases env elems mosp Hdup (option_names buff)) as Hcases.
    destruct (options_walk env elems mosp (option_names buff)) as [[| rc] evs].
    + destruct Hcases as (pre & post & Hnames & Hpre & Hpost & _).
      now exists pre, post.
    + destruct Hcases as [_ Hnone]. cbn [snd] in Hin. now apply Hnone in Hin.
  - intros cbs Hreg Hstart Hrc.
    pose proof (options_walk_cases env elems mosp Hdup (option_names buff)) as Hcases.
    destruct (options_walk env elems mosp (option_names buff)) as [[| rc] evs].
    + pose proof (process_start_walk_fails env _ mosp cbs Hreg Hstart Hrc) as Hfail.
      destruct (process_start_walk env (mos_process_callbacks st) mosp) as [[| rc] evs'];
        cbn [fst] in *; [discriminate | now inversion Hfail].
    + now destruct Hcases as [-> _].
Qed.

(** C8 at boot with [opt] registered and one subsystem whose start callback
    is at address 8: the bytes [opt=1\0nop\0] call the handler of [opt],
    find nothing for [nop] and call no start callback; the bytes [opt\0]
    call the handler and then the start callback. *)
Lemma lwk_options_store_batch_witness :
  lwk_options_store sample_env
    (set_mos_process_callbacks [sample_callbacks] sample_registered_once)
    sample_lwk_task sample_options_unknown
  = ((- EINVAL)%Z, [CallOption 4%N (Some "1"%string); Ras (RasNoOptionCallback "nop")])
  /\ lwk_options_store sample_env
       (set_mos_process_callbacks [sample_callbacks] sample_registered_once)
       sample_lwk_task sample_options
     = (4%Z, [CallOption 4%N None; CallProcessStart 8%N])
  /\ fst (lwk_options_store rejecting_env
            (set_mos_process_callbacks [sample_callbacks] boot_state)
            sample_lwk_task EmptyString)
     = (- EINVAL)%Z.
Proof.
  pose (mosp := match mos_process sample_lwk_task with
                | Some p => p
                | None => new_mos_process sample_lwk_task
                end).
  destruct (lwk_options_store_batch sample_env
              (set_mos_process_callbacks [sample_callbacks] sample_registered_once)
              sample_lwk_task mosp sample_options_unknown eq_refl eq_refl)
    as (Hunknown & _).
  destruct (lwk_options_store_batch sample_env
              (set_mos_process_callbacks [sample_callbacks] sample_registered_once)
              sample_lwk_task mosp sample_options eq_refl eq_refl)
    as (_ & _ & _ & _ & Hdone & _).
  destruct (lwk_options_store_batch rejecting_env
              (set_mos_process_callbacks [sample_callbacks] boot_state)
              sample_lwk_task mosp EmptyString eq_refl eq_refl)
    as (_ & _ & _ & Hstart & _).
  split; [|split].
  - apply (Hunknown ["opt=1"%string] "nop"%string [EmptyString]);
      try reflexivity. discriminate.
  - apply (Hdone ["opt"%string] []); reflexivity.
  - apply (Hstart sample_callbacks); [now left | discriminate | discriminate].
Defined.

(** * Properties of the rest of the file *)

(** ** The registries: removing entries *)

Lemma callbacks_eqb_refl (c : mos_process_callbacks_t) : callbacks_eqb c c = true.
Proof.
  unfold callbacks_eqb. apply N.eqb_refl.
Qed.

Lemma set_mos_process_callbacks_same (st : mos_state) (l : list mos_process_callbacks_t) :
  set_mos_process_callbacks (mos_process_callbacks st)
    (set_mos_process_callbacks l st) = st.
Proof. now destruct st. Qed.

Lemma set_mos_process_option_callbacks_same (st : mos_state)
  (l : list mos_process_option_callback_elem_t) :
  set_mos_process_option_callbacks (mos_process_option_callbacks st)
    (set_mos_process_option_callbacks l st) = st.
Proof. now destruct st. Qed.

(** What [list_del_first] removes: the first entry a walk finds. *)
Lemma list_del_first_some {A : Type} (found : A -> bool) (l l' : list A) :
  list_del_first found l = Some l' <->
  exists pre x post,
    l = pre ++ x :: post /\ l' = pre ++ post
    /\ found x = true /\ forallb (fun y => negb (found y)) pre = true.
Proof.
  revert l'. induction l as [| a l IH]; intros l'; cbn [list_del_first].
  - split; [discriminate|]. intros (pre & x & post & H & _). now destruct pre.
  - destruct (found a) eqn:Ea.
    + split.
      * intros E. inversion E; subst. exists [], a, l'. now repeat split.
      * intros (pre & x & post & H & -> & Hx & Hpre).
        destruct pre as [| b pre]; cbn [app] in *.
        -- now inversion H.
        -- inversion H; subst. cbn [forallb] in Hpre. rewrite Ea in Hpre. discriminate.
    + destruct (list_del_first found l) as [r |] eqn:Er.
      * split.
        -- intros E. inversion E; subst.
           destruct (proj1 (IH r) eq_refl) as (pre & x & post & -> & -> & Hx & Hpre).
           exists (a :: pre), x, post. cbn [app forallb]. rewrite Ea. now repeat split.
        -- intros (pre & x & post & H & -> & Hx & Hpre).
           destruct pre as [| b pre]; cbn [app] in *.
           ++ inversion H; subst. congruence.
           ++ inversion H; subst. cbn [forallb] in Hpre.
              apply andb_true_iff in Hpre as [_ Hpre].
              assert (E : Some r = Some (pre ++ post)).
              { apply IH. now exists pre, x, post. }
              now inversion E.
      * split; [discriminate|].
        intros (pre & x & post & H & -> & Hx & Hpre).
        destruct pre as [| b pre]; cbn [app] in *.
        -- inversion H; subst. congruence.
        -- inversion H; subst. cbn [forallb] in Hpre.
           apply andb_true_iff in Hpre as [_ Hpre].
           assert (E : None = Some (pre ++ post)).
           { apply IH. now exists pre, x, post. }
           discriminate.
Qed.

Lemma list_del_first_none {A : Type} (found : A -> bool) (l : list A) :
  list_del_first found l = None <-> forallb (fun y => negb (found y)) l = true.
Proof.
  induction l as [| a l IH]; cbn [list_del_first forallb]; [tauto|].
  destruct (found a); cbn [negb andb]; [split; discriminate|].
  destruct (list_del_first found l); [|tauto].
  split; [discriminate|]. intros H. apply IH in H. discriminate.
Qed.

(** X1. A subsystem that registers its lifecycle callbacks and then
    unregisters them leaves the registry as it found it: the entry goes to
    the head of the list, and the walk of [mos_unregister_process_callbacks]
    finds it there first. *)
Theorem process_callbacks_round_trip (env : kernel_env) (st st1 : mos_state)
  (cbs : mos_process_callbacks_t) :
  mos_register_process_callbacks env (Some cbs) st = (0%Z, st1) ->
  mos_process_callbacks st1 = cbs :: mos_process_callbacks st
  /\ mos_unregister_process_callbacks (Some cbs) st1 = (0%Z, st).
Proof.
  unfold mos_register_process_callbacks, mos_unregister_process_callbacks, list_add.
  destruct (negb (alloc_ok env VmallocCallbacksElem)); [discriminate|].
  intros E. inversion E; subst; clear E. state_fields.
  split; [reflexivity|].
  cbn [list_del_first]. rewrite callbacks_eqb_refl.
  now rewrite set_mos_process_callbacks_same.
Qed.

Lemma process_callbacks_round_trip_witness :
  mos_process_callbacks sample_hooked = [sample_callbacks]
  /\ mos_unregister_process_callbacks (Some sample_callbacks) sample_hooked
     = (0%Z, boot_state).
Proof.
  apply (process_callbacks_round_trip sample_env boot_state sample_hooked sample_callbacks).
  reflexivity.
Defined.

(** X2. [mos_unregister_option_callback] returns 0 exactly when the
    handler is not NULL and an entry with this name and this handler is
    registered; it then takes out one entry, the one of them registered
    last, and keeps the others in their order. In every other case it
    returns [-EINVAL] and the registry is as it was. *)
Theorem unregister_option_callback_entry (st : mos_state) (name : string) (cb : fnptr) :
  let entry := {| opt_name := name; opt_callback := cb |} in
  let '(rc, st') := mos_unregister_option_callback name cb st in
  (rc = 0%Z <-> cb <> 0%N /\ In entry (mos_process_option_callbacks st))
  /\ (rc <> 0%Z -> rc = (- EINVAL)%Z /\ st' = st)
  /\ (rc = 0%Z ->
      exists pre post,
        mos_process_option_callbacks st = pre ++ entry :: post
        /\ mos_process_option_callbacks st' = pre ++ post
        /\ ~ In entry pre
        /\ lwkcpus_map st' = lwkcpus_map st
        /\ lwkcpus_reserved_map st' = lwkcpus_reserved_map st
        /\ mos_process_callbacks st' = mos_process_callbacks st).
Proof.
  cbv zeta. unfold mos_unregister_option_callback.
  set (found := fun e => N.eqb (opt_callback e) cb && String.eqb name (opt_name e)).
  assert (Hfound : forall e, found e = true <->
                             e = {| opt_name := name; opt_callback := cb |}).
  { intros [n c]. unfold found. cbn [opt_name opt_callback].
    rewrite andb_true_iff, N.eqb_eq, String.eqb_eq. split.
    - now intros [-> ->].
    - intros E. inversion E. now split. }
  destruct (N.eqb cb 0) eqn:Ecb.
  - apply N.eqb_eq in Ecb. split; [|split].
    + split; [discriminate | now intros [H _]].
    + now intros _.
    + discriminate.
  - apply N.eqb_neq in Ecb.
    destruct (list_del_first found (mos_process_option_callbacks st)) as [l |] eqn:El.
    + apply list_del_first_some in El as (pre & x & post & Hl & -> & Hx & Hpre).
      apply Hfound in Hx. subst x. split; [|split].
      * split; [|reflexivity]. intros _. split; [exact Ecb|].
        rewrite Hl. apply in_or_app. right. now left.
      * intros H. now contradiction H.
      * intros _. exists pre, post. state_fields. repeat split; try assumption.
        intros Hin.
        pose proof (proj1 (forallb_forall _ _) Hpre _ Hin) as Hno.
        apply negb_true_iff in Hno.
        assert (Hyes : found {| opt_name := name; opt_callback := cb |} = true)
          by now apply Hfound.
        congruence.
    + apply list_del_first_none in El. split; [|split].
      * split; [discriminate|]. intros [_ Hin].
        pose proof (proj1 (forallb_forall _ _) El _ Hin) as Hno.
        apply negb_true_iff in Hno.
        assert (Hyes : found {| opt_name := name; opt_callback := cb |} = true)
          by now apply Hfound.
        congruence.
      * now intros _.
      * discriminate.
Qed.

(** The option [opt] registered with the handlers 4 and 5: the entry of
    handler 4 is found and taken out; no entry is named [nop]. *)
Lemma unregister_option_callback_entry_witness :
  fst (mos_unregister_option_callback "opt" 4%N sample_registered_twice) = 0%Z
  /\ fst (mos_unregister_option_callback "nop" 4%N sample_registered_twice) = (- EINVAL)%Z.
Proof.
  split.
  - pose proof (unregister_option_callback_entry sample_registered_twice "opt" 4%N) as H.
    cbv zeta in H.
    destruct (mos_unregister_option_callback "opt" 4%N sample_registered_twice) as [rc st'].
    destruct H as [Hrc _]. apply Hrc. split; [discriminate|].
    right. left. reflexivity.
  - pose proof (unregister_option_callback_entry sample_registered_twice "nop" 4%N) as H.
    cbv zeta in H.
    destruct (mos_unregister_option_callback "nop" 4%N sample_registered_twice) as [rc st'].
    destruct H as (Hrc & Hfail & _). apply Hfail. intro H0.
    apply Hrc in H0. destruct H0 as [_ Hin].
    destruct Hin as [E | [E | []]]; discriminate E.
Defined.

(** X3. An option callback that is registered and then unregistered, with
    the same name and handler, leaves the registry as it was before: a
    handler that the registration had put in the shade is found again. *)
Theorem option_callback_round_trip (env : kernel_env) (st st1 : mos_state)
  (name : string) (cb : fnptr) :
  mos_register_option_callback env name cb st = (0%Z, st1) ->
  mos_unregister_option_callback name cb st1 = (0%Z, st)
  /\ forall other,
       find (fun elem => String.eqb (opt_name elem) other)
         (mos_process_option_callbacks (snd (mos_unregister_option_callback name cb st1)))
       = find (fun elem => String.eqb (opt_name elem) other)
           (mos_process_option_callbacks st).
Proof.
  unfold mos_register_option_callback.
  destruct (N.eqb cb 0) eqn:Ecb; [discriminate|].
  destruct (Nat.leb OPTION_NAME_SIZE (String.length name)); [discriminate|].
  destruct (negb (alloc_ok env VmallocOptionElem)); [discriminate|].
  intros E. inversion E; subst; clear E.
  assert (Hun : mos_unregister_option_callback name cb
                  (set_mos_process_option_callbacks
                     (list_add {| opt_name := name; opt_callback := cb |}
                        (mos_process_option_callbacks st)) st)
                = (0%Z, st)).
  { unfold mos_unregister_option_callback, list_add. rewrite Ecb. state_fields.
    cbn [list_del_first opt_callback opt_name].
    rewrite N.eqb_refl, String.eqb_refl. cbn [andb].
    now rewrite set_mos_process_option_callbacks_same. }
  split; [exact Hun|]. intros other. now rewrite Hun.
Qed.

Lemma option_callback_round_trip_witness :
  mos_unregister_option_callback "opt" 5%N sample_registered_twice
  = (0%Z, sample_registered_once)
  /\ find (fun elem => String.eqb (opt_name elem) "opt")
       (mos_process_option_callbacks
          (snd (mos_unregister_option_callback "opt" 5%N sample_registered_twice)))
     = Some {| opt_name := "opt"; opt_callback := 4%N |}.
Proof.
  destruct (option_callback_round_trip sample_env sample_registered_once
              sample_registered_twice "opt" 5%N eq_refl) as [Hun Hfind].
  split; [exact Hun|]. rewrite (Hfind "opt"%string). reflexivity.
Defined.

(** ** Process records: the sequence array, failures and the last thread *)

Lemma pos_cpus_sorted (p : positive) : forall i,
  StronglySorted N.lt (pos_cpus p i)
  /\ Forall (fun c => (i <= c)%N) (pos_cpus p i).
Proof.
  induction p as [q IH | q IH |]; intros i; cbn [pos_cpus].
  - destruct (IH (N.succ i)) as [Hs Hall]. split.
    + constructor; [exact Hs|].
      apply Forall_impl with (2 := Hall). intros c Hc. lia.
    + constructor; [lia|].
      apply Forall_impl with (2 := Hall). intros c Hc. lia.
  - destruct (IH (N.succ i)) as [Hs Hall]. split; [exact Hs|].
    apply Forall_impl with (2 := Hall). intros c Hc. lia.
  - split; repeat constructor. lia.
Qed.

(** [for_each_cpu] visits the CPUs of a mask in increasing order, each
    once. *)
Lemma for_each_cpu_sorted (m : cpumask) : StronglySorted N.lt (for_each_cpu m).
Proof.
  destruct m as [| p]; [constructor | apply pos_cpus_sorted].
Qed.

(** The walk over the [mos_process_init] callbacks hands back the record
    it was given, or nothing. *)
Lemma process_init_walk_record (env : kernel_env) (elems : list mos_process_callbacks_t)
  (p q : mos_process_t) (evs : list event) :
  process_init_walk env elems p = (Some q, evs) -> q = p.
Proof.
  revert evs. induction elems as [| elem elems IH]; intros evs; cbn [process_init_walk].
  - intros E. now inversion E.
  - destruct (N.eqb (mos_process_init elem) 0); [apply IH|].
    destruct (Z.eqb (process_callback env (mos_process_init elem) p) 0); [|discriminate].
    destruct (process_init_walk env elems p) as [r evs0].
    intros E. inversion E; subst. now apply (IH evs0).
Qed.

(** The return codes of a claim. *)
Lemma lwkcpus_request_set_rc (env : kernel_env) (st : mos_state) (cur : task_struct)
  (request : cpumask) :
  let rc := fst (fst (fst (_lwkcpus_request_set env st cur request))) in
  (rc = (- EINVAL)%Z /\ cpumask_subset request (lwkcpus_map st) = false)
  \/ (rc = (- EBUSY)%Z /\ cpumask_subset request (lwkcpus_map st) = true
      /\ cpumask_intersects request (lwkcpus_reserved_map st) = true)
  \/ ((rc = 0%Z \/ rc = (- ENOMEM)%Z)
      /\ cpumask_subset request (lwkcpus_map st) = true
      /\ cpumask_intersects request (lwkcpus_reserved_map st) = false).
Proof.
  cbv zeta.
  destruct (cpumask_subset request (lwkcpus_map st)) eqn:Hsub.
  - destruct (cpumask_intersects request (lwkcpus_reserved_map st)) eqn:Hfree.
    + right. left. now rewrite lwkcpus_request_set_busy.
    + right. right.
      rewrite (lwkcpus_request_set_free env st cur request Hsub Hfree).
      destruct (mos_get_process env st cur) as [[process |] evs];
        [destruct (negb (alloc_ok env VmallocCpuList))|]; cbn [fst]; auto.
  - left. now rewrite lwkcpus_request_set_invalid.
Qed.

(** X4. After a claim that returns 0 the record of the caller holds the
    sequence array the loop wrote: the CPUs of the request, each once, in
    increasing order, closed by the sentinel -1; [num_lwkcpus] is their
    number, one less than the length of the array. The record also holds
    the caller's [mm] as [yod_mm], and every utility CPU. *)
Theorem lwkcpus_request_set_sequence (env : kernel_env) (st st1 : mos_state)
  (cur cur1 : task_struct) (request : cpumask) (evs : list event) :
  _lwkcpus_request_set env st cur request = (0%Z, st1, cur1, evs) ->
  exists process,
    mos_process cur1 = Some process
    /\ lwkcpus_sequence process = Some (map Z.of_N (for_each_cpu request) ++ [(-1)%Z])
    /\ StronglySorted N.lt (for_each_cpu request)
    /\ (forall c, In c (for_each_cpu request) <-> cpumask_test_cpu c request = true)
    /\ num_lwkcpus process = Z.of_nat (List.length (for_each_cpu request))
    /\ yod_mm process = Some (mm cur)
    /\ cpumask_subset (utility_cpus_map st) (utilcpus process) = true.
Proof.
  intros E.
  pose proof (lwkcpus_request_set_rc env st cur request) as Hrc.
  cbv zeta in Hrc. rewrite E in Hrc. cbn [fst] in Hrc.
  destruct Hrc as [[Hrc _] | [[Hrc _] | (_ & Hsub & Hfree)]]; try discriminate.
  rewrite (lwkcpus_request_set_free env st cur request Hsub Hfree) in E.
  destruct (mos_get_process env st cur) as [[process |] evs0]; [|discriminate].
  destruct (negb (alloc_ok env VmallocCpuList)); [discriminate|].
  inversion E; subst; clear E.
  eexists. split; [reflexivity|]. cbn [lwkcpus_sequence num_lwkcpus yod_mm utilcpus].
  split; [reflexivity|].
  split; [apply for_each_cpu_sorted|].
  split; [intros c; apply for_each_cpu_In|].
  split; [apply cpumask_weight_length|].
  split; [reflexivity|].
  apply cpumask_subset_bits. intros c Hc. unfold cpumask_or.
  now rewrite N.lor_spec, Hc, orb_true_r.
Qed.

Lemma lwkcpus_request_set_sequence_witness :
  exists process,
    mos_process
      (snd (fst (_lwkcpus_request_set sample_env sample_partition (sample_task 100)
                   (cpumask_of_list [3; 2]%N))))
    = Some process
    /\ lwkcpus_sequence process = Some [2; 3; -1]%Z
    /\ num_lwkcpus process = 2%Z.
Proof.
  destruct (_lwkcpus_request_set sample_env sample_partition (sample_task 100)
              (cpumask_of_list [3; 2]%N)) as [[[rc st1] cur1] evs] eqn:E.
  assert (Hrc : rc = 0%Z) by (vm_compute in E; now inversion E).
  subst rc.
  destruct (lwkcpus_request_set_sequence _ _ _ _ _ _ _ E)
    as (process & Hp & Hseq & _ & _ & Hnum & _).
  exists process. cbn [fst snd]. split; [exact Hp|].
  split; [exact Hseq | exact Hnum].
Defined.

(** X5. A claim that fails with [-ENOMEM] is not taken back: the CPUs of
    the request have been added to [lwkcpus_reserved_map] and the caller is
    flagged as an LWK process, while its record, if it is left with one,
    has got no sequence array: it has the one it had before, or none. The
    same request, when it names a CPU, is then refused with [-EBUSY], for
    the same caller as for any other. *)
Theorem lwkcpus_request_set_enomem (env : kernel_env) (st st1 : mos_state)
  (cur cur1 : task_struct) (request : cpumask) (evs : list event) :
  _lwkcpus_request_set env st cur request = ((- ENOMEM)%Z, st1, cur1, evs) ->
  lwkcpus_reserved_map st1 = cpumask_or (lwkcpus_reserved_map st) request
  /\ lwkcpus_map st1 = lwkcpus_map st
  /\ mos_flags cur1 = Z.lor (mos_flags cur) (MOS_IS_LWK_PROCESS env)
  /\ (forall process, mos_process cur1 = Some process ->
                      lwkcpus_sequence process
                      = match mos_process cur with
                        | Some old => lwkcpus_sequence old
                        | None => None
                        end)
  /\ (cpumask_empty request = false ->
      forall env2 cur2,
        _lwkcpus_request_set env2 st1 cur2 request = ((- EBUSY)%Z, st1, cur2, [])).
Proof.
  intros E.
  pose proof (lwkcpus_request_set_rc env st cur request) as Hrc.
  cbv zeta in Hrc. rewrite E in Hrc. cbn [fst] in Hrc.
  destruct Hrc as [[Hrc _] | [[Hrc _] | (_ & Hsub & Hfree)]]; try discriminate.
  rewrite (lwkcpus_request_set_free env st cur request Hsub Hfree) in E.
  assert (Hbusy : cpumask_empty request = false ->
                  forall env2 cur2,
                    _lwkcpus_request_set env2
                      (set_lwkcpus_reserved_map
                         (cpumask_or (lwkcpus_reserved_map st) request) st) cur2 request
                    = ((- EBUSY)%Z,
                       set_lwkcpus_reserved_map
                         (cpumask_or (lwkcpus_reserved_map st) request) st, cur2, [])).
  { intros Hne env2 cur2. apply lwkcpus_request_set_busy; state_fields; [exact Hsub|].
    apply cpumask_intersects_or. apply cpumask_intersects_bits.
    destruct (cpumask_intersects request request) eqn:Hself.
    - now apply cpumask_intersects_bits.
    - exfalso. assert (Hz : cpumask_empty request = true).
      { apply cpumask_empty_bits. intros c.
        destruct (N.testbit request c) eqn:Hc; [|reflexivity].
        pose proof (proj1 (cpumask_disjoint_bits request request) Hself c Hc).
        congruence. }
      congruence. }
  unfold mos_get_process in E.
  destruct (mos_process cur) as [old |] eqn:Hcur.
  - destruct (negb (alloc_ok env VmallocCpuList)); [|discriminate].
    inversion E; subst; clear E. state_fields. cbn.
    repeat split; try assumption.
    intros process Hp. inversion Hp; subst. reflexivity.
  - destruct (negb (alloc_ok env VmallocProcess)).
    + inversion E; subst; clear E. state_fields. cbn.
      repeat split; try assumption. discriminate.
    + destruct (negb (alloc_ok env ZallocProcessCpumasks)).
      * inversion E; subst; clear E. state_fields. cbn.
        repeat split; try assumption. discriminate.
      * destruct (process_init_walk env (mos_process_callbacks st) (new_mos_process cur))
          as [[process |] evs0] eqn:Ewalk.
        -- apply process_init_walk_record in Ewalk. subst process.
           destruct (negb (alloc_ok env VmallocCpuList)); [|discriminate].
           inversion E; subst; clear E. state_fields. cbn.
           repeat split; try assumption.
           intros p Hp. inversion Hp; subst. reflexivity.
        -- inversion E; subst; clear E. state_fields. cbn.
           repeat split; try assumption. discriminate.
Qed.

Lemma lwkcpus_request_set_enomem_witness :
  lwkcpus_reserved_map
    (snd (fst (fst (_lwkcpus_request_set rejecting_env
                      (set_mos_process_callbacks [sample_callbacks] sample_partition)
                      (sample_task 100) (cpumask_of 2)))))
  = cpumask_of 2
  /\ fst (fst (fst (_lwkcpus_request_set sample_env
                      (snd (fst (fst (_lwkcpus_request_set rejecting_env
                         (set_mos_process_callbacks [sample_callbacks] sample_partition)
                         (sample_task 100) (cpumask_of 2)))))
                      (sample_task 100) (cpumask_of 2))))
     = (- EBUSY)%Z.
Proof.
  destruct (_lwkcpus_request_set rejecting_env
              (set_mos_process_callbacks [sample_callbacks] sample_partition)
              (sample_task 100) (cpumask_of 2)) as [[[rc st1] cur1] evs] eqn:E.
  assert (Hrc : rc = (- ENOMEM)%Z) by (vm_compute in E; now inversion E).
  subst rc.
  destruct (lwkcpus_request_set_enomem _ _ _ _ _ _ _ E) as (Hres & _ & _ & _ & Hbusy).
  cbn [fst snd]. split.
  - rewrite Hres. reflexivity.
  - now rewrite (Hbusy eq_refl sample_env (sample_task 100)).
Defined.

Lemma wrap_int_small (z : Z) :
  (- 2 ^ 31 <= z < 2 ^ 31)%Z -> wrap_int z = z.
Proof.
  intros H. unfold wrap_int. rewrite Z.mod_small; lia.
Qed.

(** Adding CPUs that were free and taking them out again with XOR gives
    the mask back. *)
Lemma cpumask_or_xor_free (a r : cpumask) :
  cpumask_intersects r a = false ->
  cpumask_xor (cpumask_or a r) r = a.
Proof.
  intros H. apply N.bits_inj. intros c. unfold cpumask_xor, cpumask_or.
  rewrite N.lxor_spec, N.lor_spec.
  destruct (N.testbit r c) eqn:Hr.
  - rewrite (proj1 (cpumask_disjoint_bits r a) H c Hr). reflexivity.
  - now rewrite orb_false_r, xorb_false_r.
Qed.

(** The record a claim that returns 0 leaves with the caller: the record
    [mos_get_process] found or made, with the request as its CPUs. *)
Lemma lwkcpus_request_set_record (env : kernel_env) (st st1 : mos_state)
  (cur cur1 : task_struct) (request : cpumask) (evs : list event) :
  _lwkcpus_request_set env st cur request = (0%Z, st1, cur1, evs) ->
  cpumask_subset request (lwkcpus_map st) = true
  /\ cpumask_intersects request (lwkcpus_reserved_map st) = false
  /\ st1 = set_lwkcpus_reserved_map (cpumask_or (lwkcpus_reserved_map st) request) st
  /\ exists process,
       mos_process cur1 = Some process
       /\ lwkcpus process = request
       /\ alive process = match mos_process cur with
                          | Some old => alive old
                          | None => 1%Z
                          end
       /\ task_tgid cur1 = task_tgid cur.
Proof.
  intros E.
  pose proof (lwkcpus_request_set_rc env st cur request) as Hrc.
  cbv zeta in Hrc. rewrite E in Hrc. cbn [fst] in Hrc.
  destruct Hrc as [[Hrc _] | [[Hrc _] | (_ & Hsub & Hfree)]]; try discriminate.
  split; [exact Hsub|]. split; [exact Hfree|].
  rewrite (lwkcpus_request_set_free env st cur request Hsub Hfree) in E.
  unfold mos_get_process in E.
  destruct (mos_process cur) as [old |] eqn:Hcur.
  - destruct (negb (alloc_ok env VmallocCpuList)); [discriminate|].
    inversion E; subst; clear E. split; [reflexivity|].
    eexists. cbn. repeat split.
  - destruct (negb (alloc_ok env VmallocProcess)); [discriminate|].
    destruct (negb (alloc_ok env ZallocProcessCpumasks)); [discriminate|].
    destruct (process_init_walk env (mos_process_callbacks st) (new_mos_process cur))
      as [[process |] evs0] eqn:Ewalk; [|discriminate].
    apply process_init_walk_record in Ewalk. subst process.
    destruct (negb (alloc_ok env VmallocCpuList)); [discriminate|].
    inversion E; subst; clear E. split; [reflexivity|].
    eexists. cbn. repeat split.
Qed.

(** The last thread of a process leaves. *)
Lemma mos_exit_thread_last (st : mos_state) (cur : task_struct)
  (process : mos_process_t) :
  mos_process cur = Some process ->
  alive process = 1%Z ->
  mos_exit_thread st cur
  = (set_lwkcpus_reserved_map
       (cpumask_xor (lwkcpus_reserved_map st) (lwkcpus process)) st,
     set_task_process (Some (set_alive 0 process)) cur,
     void_walk mos_thread_exit CallThreadExit (mos_process_callbacks st)
       ++ void_walk mos_process_exit CallProcessExit (mos_process_callbacks st)).
Proof.
  intros Hcur Halive. unfold mos_exit_thread. rewrite Hcur.
  cbn [alive set_alive lwkcpus]. rewrite Halive. reflexivity.
Qed.

(** X6. A task without a record, or with a record of one live thread,
    that claims CPUs with success and then exits gives the CPUs back:
    [mos_exit_thread] leaves the state of the file as it was before the
    claim. The pointer of the task to its record is not cleared by the
    exit. *)
Theorem claim_exit_round_trip (env : kernel_env) (st st1 : mos_state)
  (cur cur1 : task_struct) (request : cpumask) (evs : list event) :
  (forall old, mos_process cur = Some old -> alive old = 1%Z) ->
  _lwkcpus_request_set env st cur request = (0%Z, st1, cur1, evs) ->
  fst (fst (mos_exit_thread st1 cur1)) = st
  /\ mos_process (snd (fst (mos_exit_thread st1 cur1))) <> None.
Proof.
  intros Hone E.
  apply lwkcpus_request_set_record in E
    as (_ & Hfree & -> & process & Hp & Hcpus & Halive & _).
  assert (Hlast : alive process = 1%Z).
  { rewrite Halive. destruct (mos_process cur) as [old |]; [now apply Hone | reflexivity]. }
  rewrite (mos_exit_thread_last _ _ _ Hp Hlast). cbn [fst snd].
  split; [|discriminate]. state_fields.
  rewrite Hcpus, (cpumask_or_xor_free _ _ Hfree).
  now destruct st.
Qed.

(** Process 100 claims CPU 2 of the sample partition and exits. *)
Lemma claim_exit_round_trip_witness :
  fst (fst (mos_exit_thread sample_claimed sample_claimer)) = sample_partition
  /\ mos_process (snd (fst (mos_exit_thread sample_claimed sample_claimer))) <> None.
Proof.
  apply (claim_exit_round_trip sample_env sample_partition sample_claimed
           (sample_task 100) sample_claimer (cpumask_of 2)
           [] ).
  - discriminate.
  - reflexivity.
Defined.

(** X7. A process that claims CPUs twice keeps the first set reserved for
    good. The second claim replaces the CPUs of the record: the record
    holds the second set alone, so that the exit of the last thread takes
    only the second set out of [lwkcpus_reserved_map]. The first set stays
    in it, and a later claim of any of its CPUs is refused with
    [-EBUSY]. *)
Theorem second_claim_strands_first (env1 env2 : kernel_env) (st st1 st2 : mos_state)
  (cur cur1 cur2 : task_struct) (first second : cpumask) (evs1 evs2 : list event) :
  (forall old, mos_process cur = Some old -> alive old = 1%Z) ->
  _lwkcpus_request_set env1 st cur first = (0%Z, st1, cur1, evs1) ->
  _lwkcpus_request_set env2 st1 cur1 second = (0%Z, st2, cur2, evs2) ->
  let st3 := fst (fst (mos_exit_thread st2 cur2)) in
  option_map lwkcpus (mos_process cur2) = Some second
  /\ lwkcpus_reserved_map st3 = cpumask_or (lwkcpus_reserved_map st) first
  /\ forall env3 cur3 other,
       cpumask_subset other (lwkcpus_map st) = true ->
       cpumask_intersects other first = true ->
       _lwkcpus_request_set env3 st3 cur3 other = ((- EBUSY)%Z, st3, cur3, []).
Proof.
  intros Hone E1 E2.
  apply lwkcpus_request_set_record in E1
    as (_ & _ & -> & process1 & Hp1 & _ & Halive1 & _).
  apply lwkcpus_request_set_record in E2
    as (_ & Hfree2 & -> & process2 & Hp2 & Hcpus2 & Halive2 & _).
  rewrite Hp1 in Halive2.
  assert (Hlast : alive process2 = 1%Z).
  { rewrite Halive2, Halive1.
    destruct (mos_process cur) as [old |]; [now apply Hone | reflexivity]. }
  cbv zeta. rewrite (mos_exit_thread_last _ _ _ Hp2 Hlast). cbn [fst snd].
  split; [now rewrite Hp2, <- Hcpus2|]. state_fields.
  rewrite Hcpus2, (cpumask_or_xor_free _ _ Hfree2).
  split; [reflexivity|].
  intros env3 cur3 other Hother Hshare.
  apply lwkcpus_request_set_busy; state_fields; [exact Hother|].
  now apply cpumask_intersects_or.
Qed.

(** Process 100 claims CPU 2 and then CPU 3 of the sample partition, and
    exits: CPU 2 stays reserved. *)
Lemma second_claim_strands_first_witness :
  exists st2 cur2 evs2,
    _lwkcpus_request_set sample_env sample_claimed sample_claimer (cpumask_of 3)
    = (0%Z, st2, cur2, evs2)
    /\ lwkcpus_reserved_map (fst (fst (mos_exit_thread st2 cur2))) = cpumask_of 2
    /\ fst (fst (fst (_lwkcpus_request_set sample_env (fst (fst (mos_exit_thread st2 cur2)))
                        (sample_task 200) (cpumask_of 2))))
       = (- EBUSY)%Z.
Proof.
  destruct (_lwkcpus_request_set sample_env sample_claimed sample_claimer (cpumask_of 3))
    as [[[rc st2] cur2] evs2] eqn:E2.
  assert (Hrc : rc = 0%Z) by (vm_compute in E2; now inversion E2).
  subst rc. exists st2, cur2, evs2. split; [reflexivity|].
  destruct (second_claim_strands_first sample_env sample_env sample_partition
              sample_claimed st2 (sample_task 100) sample_claimer cur2
              (cpumask_of 2) (cpumask_of 3) [] evs2) as (_ & Hres & Hbusy).
  - discriminate.
  - reflexivity.
  - exact E2.
  - split; [exact Hres|].
    now rewrite (Hbusy sample_env (sample_task 200) (cpumask_of 2) eq_refl eq_refl).
Defined.

(** Calls of [mos_exit_thread] one after the other. *)
Lemma exit_threads_app (k j : nat) : forall (st : mos_state) (cur : task_struct),
  exit_threads (k + j) st cur
  = let '(st1, cur1, evs1) := exit_threads k st cur in
    let '(st2, cur2, evs2) := exit_threads j st1 cur1 in
    (st2, cur2, evs1 ++ evs2).
Proof.
  induction k as [| k IH]; intros st cur; cbn [exit_threads Nat.add].
  - now destruct (exit_threads j st cur) as [[st2 cur2] evs2].
  - destruct (mos_exit_thread st cur) as [[st1 cur1] evs1].
    rewrite IH.
    destruct (exit_threads k st1 cur1) as [[st2 cur2] evs2].
    destruct (exit_threads j st2 cur2) as [[st3 cur3] evs3].
    now rewrite app_assoc.
Qed.

(** Threads that leave while others of their process live on. *)
Lemma exit_threads_live (k : nat) :
  forall (st : mos_state) (cur : task_struct) (process : mos_process_t),
  mos_process cur = Some process ->
  (Z.of_nat k < alive process < 2 ^ 31)%Z ->
  exit_threads k st cur
  = (st, set_task_process (Some (set_alive (alive process - Z.of_nat k) process)) cur,
     List.concat
       (repeat (void_walk mos_thread_exit CallThreadExit (mos_process_callbacks st)) k)).
Proof.
  induction k as [| k IH]; intros st cur process Hcur Hlive.
  - cbn [exit_threads repeat List.concat]. destruct cur as [t m f p].
    cbn in Hcur. subst p. destruct process. cbn.
    now rewrite Z.sub_0_r.
  - cbn [exit_threads]. unfold mos_exit_thread at 1. rewrite Hcur.
    cbn [alive set_alive].
    rewrite wrap_int_small by lia.
    destruct (Z.eqb_spec (alive process - 1) 0) as [Hz | Hnz]; [lia|]. cbn [negb].
    rewrite (IH st (set_task_process (Some (set_alive (alive process - 1) process)) cur)
               (set_alive (alive process - 1) process) eq_refl)
      by (cbn [alive set_alive]; lia).
    cbn [alive set_alive repeat List.concat].
    replace (alive process - 1 - Z.of_nat k)%Z with (alive process - Z.of_nat (S k))%Z
      by lia.
    reflexivity.
Qed.

(** X8. A process with [n + 1] live threads, their number being within
    an [int]: each of the first [n] calls of [mos_exit_thread] calls the
    [mos_thread_exit] callbacks and changes nothing but the count of live
    threads in the record; the call after them calls the
    [mos_thread_exit] and then the [mos_process_exit] callbacks and takes
    the CPUs of the record out of [lwkcpus_reserved_map] with XOR. The
    pointer of the task to the record is not cleared. *)
Theorem mos_exit_thread_countdown (n : nat) (st : mos_state) (cur : task_struct)
  (process : mos_process_t) :
  mos_process cur = Some process ->
  alive process = Z.of_nat (S n) ->
  (Z.of_nat (S n) < 2 ^ 31)%Z ->
  let leave := void_walk mos_thread_exit CallThreadExit (mos_process_callbacks st) in
  (forall k, k <= n ->
     exit_threads k st cur
     = (st, set_task_process (Some (set_alive (Z.of_nat (S n - k)) process)) cur,
        List.concat (repeat leave k)))
  /\ fst (fst (exit_threads (S n) st cur))
     = set_lwkcpus_reserved_map
         (cpumask_xor (lwkcpus_reserved_map st) (lwkcpus process)) st
  /\ snd (exit_threads (S n) st cur)
     = List.concat (repeat leave n) ++ leave
         ++ void_walk mos_process_exit CallProcessExit (mos_process_callbacks st)
  /\ mos_process (snd (fst (exit_threads (S n) st cur))) <> None.
Proof.
  intros Hcur Halive Hbound leave.
  assert (Hfirst : forall k, k <= n ->
            exit_threads k st cur
            = (st, set_task_process (Some (set_alive (Z.of_nat (S n - k)) process)) cur,
               List.concat (repeat leave k))).
  { intros k Hk. rewrite (exit_threads_live k st cur process Hcur) by lia.
    rewrite Halive. replace (Z.of_nat (S n) - Z.of_nat k)%Z with (Z.of_nat (S n - k)) by lia.
    reflexivity. }
  split; [exact Hfirst|].
  assert (Hlast : exit_threads (S n) st cur
                  = (set_lwkcpus_reserved_map
                       (cpumask_xor (lwkcpus_reserved_map st) (lwkcpus process)) st,
                     set_task_process (Some (set_alive 0 process)) cur,
                     List.concat (repeat leave n) ++ leave
                       ++ void_walk mos_process_exit CallProcessExit
                            (mos_process_callbacks st))).
  { replace (S n) with (n + 1) by lia.
    rewrite exit_threads_app, (Hfirst n (le_n n)).
    replace (S n - n) with 1 by lia.
    cbn [exit_threads].
    rewrite (mos_exit_thread_last st
               (set_task_process (Some (set_alive (Z.of_nat 1) process)) cur)
               (set_alive (Z.of_nat 1) process) eq_refl eq_refl).
    cbn [lwkcpus set_alive]. now rewrite app_nil_r. }
  rewrite Hlast. cbn [fst snd].
  split; [reflexivity|]. split; [reflexivity | discriminate].
Qed.

(** Process 100 with two threads and CPU 2 of the sample partition. *)
Lemma mos_exit_thread_countdown_witness :
  exit_threads 1 sample_claimed sample_two_threads
  = (sample_claimed, sample_claimer, [])
  /\ fst (fst (exit_threads 2 sample_claimed sample_two_threads)) = sample_partition.
Proof.
  destruct (mos_exit_thread_countdown 1 sample_claimed sample_two_threads
              (match mos_process sample_two_threads with
               | Some p => p
               | None => new_mos_process sample_two_threads
               end) eq_refl eq_refl) as (Hfirst & Hlast & _); [reflexivity|].
  split.
  - rewrite (Hfirst 1 (le_n 1)). reflexivity.
  - rewrite Hlast. reflexivity.
Defined.

(** X9. [mos_get_process] for a task without a record calls the
    [mos_process_init] callbacks newest registration first and stops at the
    first that answers non-zero: the callbacks registered before it are not
    called, no record is returned, and the subsystems whose callback has
    answered 0 are not told: no other callback of theirs is called. *)
Theorem mos_get_process_init_failure (env : kernel_env) (st : mos_state)
  (cur : task_struct) (pre post : list mos_process_callbacks_t)
  (bad : mos_process_callbacks_t) :
  mos_process cur = None ->
  alloc_ok env VmallocProcess = true ->
  alloc_ok env ZallocProcessCpumasks = true ->
  mos_process_callbacks st = pre ++ bad :: post ->
  (forall elem, In elem pre -> mos_process_init elem <> 0%N ->
                process_callback env (mos_process_init elem) (new_mos_process cur) = 0%Z) ->
  mos_process_init bad <> 0%N ->
  process_callback env (mos_process_init bad) (new_mos_process cur) <> 0%Z ->
  mos_get_process env st cur
  = (None,
     void_walk mos_process_init CallProcessInit pre
       ++ [CallProcessInit (mos_process_init bad);
           Ras (RasProcessInitFailed (mos_process_init bad))]).
Proof.
  intros Hcur Hrecord Hmasks Hlist Hpre Hbad Hrc.
  unfold mos_get_process. rewrite Hcur, Hrecord, Hmasks, Hlist. cbn [negb].
  clear Hlist. unfold void_walk.
  induction pre as [| elem pre IH]; cbn [app process_init_walk filter map].
  - rewrite (proj2 (N.eqb_neq _ _) Hbad), (proj2 (Z.eqb_neq _ _) Hrc). reflexivity.
  - destruct (N.eqb (mos_process_init elem) 0) eqn:E; cbn [negb].
    + apply IH. intros e He. apply Hpre. now right.
    + apply N.eqb_neq in E. rewrite (Hpre elem (or_introl eq_refl) E). cbn [Z.eqb].
      rewrite IH by (intros e He; apply Hpre; now right).
      reflexivity.
Qed.

Lemma mos_get_process_init_failure_witness :
  mos_get_process rejecting_env
    (set_mos_process_callbacks [sample_callbacks; sample_callbacks] boot_state)
    (sample_task 100)
  = (None, [CallProcessInit 7%N; Ras (RasProcessInitFailed 7%N)]).
Proof.
  apply (mos_get_process_init_failure rejecting_env
           (set_mos_process_callbacks [sample_callbacks; sample_callbacks] boot_state)
           (sample_task 100) [] [sample_callbacks] sample_callbacks);
    try reflexivity; try discriminate.
  intros elem [].
Defined.

(** ** Writes of a CPU mask *)

(** X10. A write to [lwkcpus_request] or [lwkcpus_request_mask] of
    [count >= 0] bytes returns [count] exactly when the request mask could
    be allocated, the parser returned 0 and the claim of the parsed mask
    returned 0; in every other case it returns [-ENOMEM], [-EINVAL] or
    [-EBUSY]. When the mask cannot be allocated or the text is not parsed,
    nothing is claimed or changed; otherwise the state, the task and the
    calls are those of the claim of the parsed mask. *)
Theorem lwkcpus_request_write_outcomes (senv : sysfs_env) (parse : string -> Z * cpumask)
  (st : mos_state) (cur : task_struct) (buf : string) (count : Z) :
  (0 <= count)%Z ->
  let claim := _lwkcpus_request_set (kernel senv) st cur (snd (parse (c_str buf))) in
  let parsed := sysfs_alloc_ok senv ZallocReqmask && Z.eqb (fst (parse (c_str buf))) 0 in
  let '(rc, st', cur', evs) :=
    mos_sysfs_mask_write senv st cur buf count (lwkcpus_request_op senv parse) in
  (rc = count <-> parsed = true /\ fst (fst (fst claim)) = 0%Z)
  /\ (rc = count \/ rc = (- ENOMEM)%Z \/ rc = (- EINVAL)%Z \/ rc = (- EBUSY)%Z)
  /\ (parsed = false -> (st', cur', evs) = (st, cur, []))
  /\ (parsed = true ->
      (st', cur', evs) = (snd (fst (fst claim)), snd (fst claim), snd claim)
      /\ (rc <> count -> rc = fst (fst (fst claim)))).
Proof.
  intros Hcount. cbv zeta. unfold mos_sysfs_mask_write, lwkcpus_request_op.
  cbn [parser operation].
  destruct (sysfs_alloc_ok senv ZallocReqmask); cbn [negb andb].
  2: { split; [|split; [|split]].
       - split; [unfold ENOMEM; lia | intros [H _]; discriminate].
       - right. now left.
       - reflexivity.
       - discriminate. }
  destruct (parse (c_str buf)) as [prc reqmask]. cbn [fst snd].
  destruct (Z.eqb prc 0) eqn:Hp; cbn [negb].
  2: { split; [|split; [|split]].
       - split; [unfold EINVAL; lia | intros [H _]; discriminate].
       - right. right. now left.
       - reflexivity.
       - discriminate. }
  pose proof (lwkcpus_request_set_rc (kernel senv) st cur reqmask) as Hrc.
  cbv zeta in Hrc.
  destruct (_lwkcpus_request_set (kernel senv) st cur reqmask)
    as [[[rc st'] cur'] evs]. cbn [fst snd] in *.
  assert (Hcodes : rc = 0%Z \/ rc = (- ENOMEM)%Z \/ rc = (- EINVAL)%Z \/ rc = (- EBUSY)%Z)
    by (destruct Hrc as [[H _] | [[H _] | [[H | H] _]]]; auto).
  unfold ENOMEM, EINVAL, EBUSY in *.
  destruct (Z.ltb_spec rc 0) as [Hneg | Hpos].
  - split; [|split; [|split]].
    + split; [lia | intros [_ H]; lia].
    + destruct Hcodes as [H | H]; [lia | now right].
    + discriminate.
    + intros _. split; [reflexivity | reflexivity].
  - assert (rc = 0%Z) by lia. subst rc.
    split; [|split; [|split]].
    + split; auto.
    + now left.
    + discriminate.
    + intros _. split; [reflexivity|]. intros H. now contradiction H.
Qed.

(** The text [2] written to [lwkcpus_request] on the sample partition. *)
Lemma lwkcpus_request_write_outcomes_witness :
  lwkcpus_request_store sample_senv sample_partition (sample_task 100) "2"
  = (1%Z, sample_claimed, sample_claimer, []).
Proof.
  pose proof (lwkcpus_request_write_outcomes sample_senv
                (cpulist_parse (nr_cpu_ids (kernel sample_senv)))
                sample_partition (sample_task 100) "2" 1) as H.
  cbv zeta in H. unfold lwkcpus_request_store.
  change (Z.of_nat (String.length "2")) with 1%Z.
  destruct (mos_sysfs_mask_write sample_senv sample_partition (sample_task 100) "2" 1
              (lwkcpus_request_op sample_senv
                 (cpulist_parse (nr_cpu_ids (kernel sample_senv)))))
    as [[[rc st'] cur'] evs].
  destruct H as (Hrc & _ & _ & Hdone); [lia|].
  destruct (Hdone eq_refl) as [Hst _].
  assert (E : rc = 1%Z) by (apply Hrc; split; reflexivity).
  subst rc. inversion Hst; subst. reflexivity.
Defined.

(** X11. A write of the mask [request] to [lwkcpus_reserved] is accepted
    exactly when every CPU of [request] is an LWK CPU (the empty mask
    always is). It then makes [request] the whole of
    [lwkcpus_reserved_map], whatever processes had claimed before: a later
    claim of LWK CPUs is refused as busy exactly when it shares a CPU with
    [request]. A write that is not accepted returns [-EINVAL] and changes
    nothing. *)
Theorem lwkcpus_reserved_set_replaces (st : mos_state) (request : cpumask) :
  let '(rc, st') := _lwkcpus_reserved_set st request in
  (rc = 0%Z <-> cpumask_subset request (lwkcpus_map st) = true)
  /\ (rc <> 0%Z -> rc = (- EINVAL)%Z /\ st' = st)
  /\ (rc = 0%Z ->
      lwkcpus_reserved_map st' = request
      /\ lwkcpus_map st' = lwkcpus_map st
      /\ forall env cur other,
           cpumask_subset other (lwkcpus_map st) = true ->
           (fst (fst (fst (_lwkcpus_request_set env st' cur other))) = (- EBUSY)%Z
            <-> cpumask_intersects other request = true)).
Proof.
  unfold _lwkcpus_reserved_set, _cpus_reserved_set.
  destruct (cpumask_subset request (lwkcpus_map st)) eqn:Hsub.
  - rewrite andb_false_r. split; [tauto|]. split; [intros H; now contradiction H|].
    intros _. state_fields. split; [reflexivity|]. split; [reflexivity|].
    intros env cur other Hother.
    pose proof (lwkcpus_request_set_rc env (set_lwkcpus_reserved_map request st)
                  cur other) as Hrc.
    cbv zeta in Hrc. state_fields. unfold EINVAL, EBUSY, ENOMEM in *.
    destruct Hrc as [[_ H] | [(Hrc & _ & H) | (Hrc & _ & H)]].
    + congruence.
    + rewrite Hrc, H. tauto.
    + rewrite H. split; [lia | discriminate].
  - assert (Hne : cpumask_empty request = false).
    { destruct (cpumask_empty request) eqn:He; [|reflexivity].
      unfold cpumask_empty in He. apply N.eqb_eq in He. subst request.
      now rewrite cpumask_subset_empty in Hsub. }
    rewrite Hne. cbn [negb andb].
    split; [split; discriminate|].
    split; [|intros H; discriminate].
    intros _. split; [reflexivity|]. apply set_lwkcpus_reserved_map_same.
Qed.

(** CPU 3 written to [lwkcpus_reserved] while process 100 holds CPU 2:
    CPU 2 is no longer busy for process 200. *)
Lemma lwkcpus_reserved_set_replaces_witness :
  fst (_lwkcpus_reserved_set sample_claimed (cpumask_of 3)) = 0%Z
  /\ fst (fst (fst (_lwkcpus_request_set sample_env
                      (snd (_lwkcpus_reserved_set sample_claimed (cpumask_of 3)))
                      (sample_task 200) (cpumask_of 2)))) <> (- EBUSY)%Z.
Proof.
  pose proof (lwkcpus_reserved_set_replaces sample_claimed (cpumask_of 3)) as H.
  cbv zeta in H.
  destruct (_lwkcpus_reserved_set sample_claimed (cpumask_of 3)) as [rc st'].
  destruct H as (Hrc & _ & Hdone).
  assert (E : rc = 0%Z) by (apply Hrc; reflexivity).
  split; [exact E|].
  destruct (Hdone E) as (_ & _ & Hbusy). cbn [snd].
  intro Hb. apply (Hbusy sample_env (sample_task 200) (cpumask_of 2)) in Hb.
  - discriminate Hb.
  - reflexivity.
Defined.

(** ** Memory requests *)

(** [strsep] returns at least one piece, also for the empty string. *)
Lemma strsep_all_cons (d : ascii) (s : string) :
  exists tok toks, strsep_all d s = tok :: toks.
Proof.
  induction s as [| x r IH]; cbn [strsep_all]; [eauto|].
  destruct (Ascii.eqb x d); [eauto|].
  destruct (strsep_all d r); eauto.
Qed.

(** The loop of [_lwkmem_vec_parse] from any of its turns on, [lwkm]
    holding no more entries than the array has room for. *)
Lemma lwkmem_vec_walk_spec (senv : sysfs_env) (capacity : nat) (vals : list string) :
  forall lwkm total,
  List.length lwkm <= capacity ->
  let '(rc, lwkm', total', evs) := lwkmem_vec_walk senv capacity vals lwkm total in
  (Forall (fun val => fst (kstrtoul senv val) = 0%Z) vals ->
   List.length lwkm + List.length vals <= capacity ->
   0 < List.length lwkm + List.length vals ->
   rc = 0%Z
   /\ lwkm' = lwkm ++ map (fun val => snd (kstrtoul senv val)) vals
   /\ total' = fold_left (fun t v => ((t + v) mod 2 ^ BITS_PER_LONG senv)%N)
                 (map (fun val => snd (kstrtoul senv val)) vals) total
   /\ evs = [])
  /\ (rc = 0%Z ->
      Forall (fun val => fst (kstrtoul senv val) = 0%Z) vals
      /\ List.length lwkm + List.length vals <= capacity)
  /\ (rc <> 0%Z ->
      rc = (- EINVAL)%Z
      /\ (0 < List.length lwkm + List.length vals ->
          evs = [SysfsRas (RasLwkmemRequestOverflow capacity)]
          \/ exists val, In val vals /\ fst (kstrtoul senv val) <> 0%Z
                         /\ evs = [SysfsRas (RasLwkmemRequestInvalid val)])).
Proof.
  induction vals as [| val rest IH]; intros lwkm total Hroom; cbn [lwkmem_vec_walk].
  - cbn [List.length map fold_left]. rewrite Nat.add_0_r, app_nil_r.
    destruct (Nat.ltb_spec 0 (List.length lwkm)) as [Hpos | Hzero].
    + split; [auto|]. split; [auto|]. intros H. now contradiction H.
    + split; [intros _ _ H; lia|]. split; [discriminate|].
      intros _. split; [reflexivity | intros H; lia].
  - cbn [List.length].
    destruct (Nat.eqb_spec (List.length lwkm) capacity) as [Hfull | Hfree].
    + split; [intros _ H; lia|]. split; [discriminate|].
      intros _. split; [reflexivity|]. intros _. now left.
    + destruct (kstrtoul senv val) as [r v] eqn:Eval.
      destruct (Z.eqb_spec r 0) as [Hr | Hr]; cbn [negb].
      * subst r.
        specialize (IH (lwkm ++ [v]) ((total + v) mod 2 ^ BITS_PER_LONG senv)%N).
        rewrite length_app in IH. cbn [List.length] in IH.
        destruct (lwkmem_vec_walk senv capacity rest (lwkm ++ [v])
                    ((total + v) mod 2 ^ BITS_PER_LONG senv)%N)
          as [[[rc lwkm'] total'] evs].
        destruct IH as (Hok & Hzero & Hfail); [lia|].
        split; [|split].
        -- intros Hall Hlen _. inversion Hall; subst.
           destruct Hok as (-> & -> & -> & ->); [assumption | lia | lia |].
           cbn [map fold_left]. rewrite Eval. cbn [snd].
           now rewrite <- app_assoc.
        -- intros Hrc. destruct (Hzero Hrc) as [Hall Hlen]. split; [|lia].
           constructor; [now rewrite Eval | exact Hall].
        -- intros Hrc. destruct (Hfail Hrc) as [-> Hwhy]. split; [reflexivity|].
           intros _. destruct Hwhy as [-> | (bad & Hin & Hbad & ->)]; [lia | now left |].
           right. exists bad. split; [now right | now split].
      * split; [|split].
        -- intros Hall. inversion Hall; subst. rewrite Eval in *. cbn [fst] in *.
           contradiction.
        -- discriminate.
        -- intros _. split; [reflexivity|]. intros _. right. exists val.
           split; [now left|]. rewrite Eval. now split.
Qed.

(** X12. [_lwkmem_vec_parse] returns 0 exactly when the text has no more
    pieces between spaces than the array has room for and [kstrtoul]
    accepts every piece. The array then holds the numbers read, in the
    order of the text, [*n] is their count, [*total] their sum within an
    unsigned long, and nothing is reported. In every other case it returns
    [-EINVAL] after one report, of an array that is full or of a piece
    that [kstrtoul] does not accept: the test on [*n] after the loop never
    fails, since [strsep] returns one piece at least. *)
Theorem lwkmem_vec_parse_accepts (senv : sysfs_env) (buff : string) (capacity : nat) :
  let vals := strsep_all " " buff in
  let '(rc, lwkm, total, evs) := _lwkmem_vec_parse senv buff capacity in
  (rc = 0%Z <->
   List.length vals <= capacity
   /\ Forall (fun val => fst (kstrtoul senv val) = 0%Z) vals)
  /\ (rc = 0%Z ->
      lwkm = map (fun val => snd (kstrtoul senv val)) vals
      /\ List.length lwkm = List.length vals
      /\ total = fold_left (fun t v => ((t + v) mod 2 ^ BITS_PER_LONG senv)%N) lwkm 0%N
      /\ evs = [])
  /\ (rc <> 0%Z ->
      rc = (- EINVAL)%Z
      /\ (evs = [SysfsRas (RasLwkmemRequestOverflow capacity)]
          \/ exists val, In val vals
                         /\ fst (kstrtoul senv val) <> 0%Z
                         /\ evs = [SysfsRas (RasLwkmemRequestInvalid val)])).
Proof.
  cbv zeta. unfold _lwkmem_vec_parse.
  pose proof (lwkmem_vec_walk_spec senv capacity (strsep_all " " buff) [] 0%N
                (Nat.le_0_l capacity)) as H.
  destruct (strsep_all_cons " " buff) as (tok & toks & Etoks).
  assert (Hpos : 0 < List.length (strsep_all " " buff))
    by (rewrite Etoks; cbn [List.length]; lia).
  destruct (lwkmem_vec_walk senv capacity (strsep_all " " buff) [] 0%N)
    as [[[rc lwkm] total] evs].
  cbn [List.length app Nat.add] in H. destruct H as (Hok & Hzero & Hfail).
  split; [|split].
  - split.
    + intros Hrc. destruct (Hzero Hrc). now split.
    + intros [Hlen Hall]. now destruct (Hok Hall Hlen Hpos).
  - intros Hrc. destruct (Hzero Hrc) as [Hall Hlen].
    destruct (Hok Hall Hlen Hpos) as (_ & -> & -> & ->).
    rewrite length_map. now repeat split.
  - intros Hrc. destruct (Hfail Hrc) as [-> Hwhy]. split; [reflexivity|]. now apply Hwhy.
Qed.

(** Two numbers, and five numbers, for an array of four. *)
Lemma lwkmem_vec_parse_accepts_witness :
  fst (fst (_lwkmem_vec_parse sample_senv "1 2" 4)) = (0%Z, [1; 2]%N)
  /\ fst (fst (fst (_lwkmem_vec_parse sample_senv "1 2 3 4 5" 4))) = (- EINVAL)%Z.
Proof.
  split.
  - pose proof (lwkmem_vec_parse_accepts sample_senv "1 2" 4) as H.
    cbv zeta in H.
    destruct (_lwkmem_vec_parse sample_senv "1 2" 4) as [[[rc lwkm] total] evs].
    destruct H as (Hrc & Hdone & _).
    assert (E : rc = 0%Z).
    { apply Hrc. split; [vm_compute; lia|]. repeat constructor. }
    destruct (Hdone E) as (Hlwkm & _). cbn [fst]. rewrite E, Hlwkm. reflexivity.
  - pose proof (lwkmem_vec_parse_accepts sample_senv "1 2 3 4 5" 4) as H.
    cbv zeta in H.
    destruct (_lwkmem_vec_parse sample_senv "1 2 3 4 5" 4) as [[[rc lwkm] total] evs].
    destruct H as (Hrc & _ & Hfail). cbn [fst].
    apply Hfail. intro E. apply Hrc in E. destruct E as [Hlen _].
    vm_compute in Hlen. lia.
Defined.

(** [_lwkmem_vec_parse] reports nothing when it returns 0. *)
Lemma lwkmem_vec_parse_quiet (senv : sysfs_env) (buff : string) (capacity : nat)
  (lwkm : list N) (total : N) (evs : list sysfs_event) :
  _lwkmem_vec_parse senv buff capacity = (0%Z, lwkm, total, evs) -> evs = [].
Proof.
  unfold _lwkmem_vec_parse. intros E.
  pose proof (lwkmem_vec_walk_spec senv capacity (strsep_all " " buff) [] 0%N
                (Nat.le_0_l capacity)) as H.
  destruct (strsep_all_cons " " buff) as (tok & toks & Etoks).
  rewrite E in H. destruct H as (Hok & Hzero & _).
  destruct (Hzero eq_refl) as [Hall Hlen].
  apply Hok; try assumption. rewrite Etoks. cbn [List.length]. lia.
Qed.

(** [_lwkmem_vec_parse] calls nothing: all it lets observe are reports. *)
Lemma lwkmem_vec_parse_events (senv : sysfs_env) (buff : string) (capacity : nat) :
  forall e, In e (snd (_lwkmem_vec_parse senv buff capacity)) ->
            exists r, e = SysfsRas r.
Proof.
  unfold _lwkmem_vec_parse. intros e.
  pose proof (lwkmem_vec_walk_spec senv capacity (strsep_all " " buff) [] 0%N
                (Nat.le_0_l capacity)) as H.
  destruct (strsep_all_cons " " buff) as (tok & toks & Etoks).
  assert (Hpos : 0 < List.length (strsep_all " " buff))
    by (rewrite Etoks; cbn [List.length]; lia).
  destruct (lwkmem_vec_walk senv capacity (strsep_all " " buff) [] 0%N)
    as [[[rc lwkm] total] evs].
  cbn [List.length app Nat.add snd] in *. destruct H as (Hok & Hzero & Hfail).
  destruct (Z.eq_dec rc 0) as [Hrc | Hrc].
  - destruct (Hzero Hrc) as [Hall Hlen].
    destruct (Hok Hall Hlen Hpos) as (_ & _ & _ & ->). intros [].
  - destruct (Hfail Hrc) as [_ Hwhy].
    destruct (Hwhy Hpos) as [-> | (val & _ & _ & ->)]; intros [<- | []]; eauto.
Qed.

(** [mos_get_process] looks at the record and the [tgid] of the task
    only. *)
Lemma mos_get_process_flags (env : kernel_env) (st : mos_state) (cur : task_struct)
  (f : Z) :
  mos_get_process env st (set_task_flags f cur) = mos_get_process env st cur.
Proof. reflexivity. Qed.

(** X13. [lwkmem_request_store] does not give the calling task a record:
    whatever the outcome, the task points to the record it pointed to
    before, or to none. When the task has no record and [lwkmem_request]
    is called, it is called with a record that was made for this call,
    after every registered [mos_process_init] callback was called for it
    and answered 0; that record is not stored in the task, and the next
    call of [mos_get_process] for the task makes a record and calls the
    callbacks again. *)
Theorem lwkmem_request_store_record (senv : sysfs_env) (st : mos_state)
  (cur : task_struct) (buff : string) :
  let '(rc, cur', evs) := lwkmem_request_store senv st cur buff in
  mos_process cur' = mos_process cur
  /\ task_tgid cur' = task_tgid cur
  /\ mos_get_process (kernel senv) st cur' = mos_get_process (kernel senv) st cur
  /\ forall lwkm,
       mos_process cur = None ->
       In (CallLwkmemRequest lwkm) evs ->
       mos_flags cur' = Z.lor (mos_flags cur) (MOS_IS_LWK_PROCESS (kernel senv))
       /\ mos_get_process (kernel senv) st cur'
          = (Some (new_mos_process cur),
             void_walk mos_process_init CallProcessInit (mos_process_callbacks st))
       /\ evs = map Core (void_walk mos_process_init CallProcessInit
                            (mos_process_callbacks st))
                  ++ [CallLwkmemRequest lwkm].
Proof.
  unfold lwkmem_request_store.
  destruct (negb (sysfs_alloc_ok senv KstrdupLwkmemRequest)).
  { split; [reflexivity|]. split; [reflexivity|]. split; [reflexivity|].
    intros l _ []. }
  pose proof (lwkmem_vec_parse_events senv (c_str buff) (MAX_NIDS senv)) as Hquiet.
  destruct (_lwkmem_vec_parse senv (c_str buff) (MAX_NIDS senv))
    as [[[prc lwkm] total] pevs] eqn:Eparse.
  cbn [snd] in Hquiet.
  destruct (Z.eqb_spec prc 0) as [-> | Hprc]; cbn [negb].
  2: { split; [reflexivity|]. split; [reflexivity|]. split; [reflexivity|].
       intros l _ Hin. destruct (Hquiet _ Hin) as (r & Hr). discriminate. }
  clear Hquiet.
  apply lwkmem_vec_parse_quiet in Eparse. subst pevs.
  rewrite mos_get_process_flags.
  destruct (mos_get_process (kernel senv) st cur) as [[process |] evs1] eqn:Eget.
  2: { split; [reflexivity|]. split; [reflexivity|].
       split; [now rewrite mos_get_process_flags|].
       intros l _ Hin. exfalso. cbn [app] in Hin.
       apply in_map_iff in Hin as (e & He & _). discriminate. }
  assert (Hnew : mos_process cur = None ->
                 process = new_mos_process cur
                 /\ evs1 = void_walk mos_process_init CallProcessInit
                             (mos_process_callbacks st)).
  { intros Hcur. unfold mos_get_process in Eget. rewrite Hcur in Eget.
    destruct (negb (alloc_ok (kernel senv) VmallocProcess)); [discriminate|].
    destruct (negb (alloc_ok (kernel senv) ZallocProcessCpumasks)); [discriminate|].
    pose proof (process_init_walk_record _ _ _ _ _ Eget) as Hp. subst process.
    split; [reflexivity|].
    clear Hcur. revert evs1 Eget.
    induction (mos_process_callbacks st) as [| elem elems IH]; intros evs1 E;
      cbn [process_init_walk] in E; unfold void_walk; cbn [filter map].
    - now inversion E.
    - destruct (N.eqb (mos_process_init elem) 0); cbn [negb]; [now apply IH|].
      destruct (Z.eqb (process_callback (kernel senv) (mos_process_init elem)
                         (new_mos_process cur)) 0); [|discriminate].
      destruct (process_init_walk (kernel senv) elems (new_mos_process cur))
        as [r evs0].
      inversion E; subst. cbn [map]. f_equal. now apply IH. }
  assert (Hcall : forall l,
            In (CallLwkmemRequest l) ([] ++ map Core evs1 ++ [CallLwkmemRequest lwkm]) ->
            l = lwkm).
  { intros l Hin. cbn [app] in Hin. apply in_app_or in Hin as [Hin | [Hin | []]].
    - apply in_map_iff in Hin as (e & He & _). discriminate.
    - now inversion Hin. }
  destruct (lwkmem_request senv) as [request |].
  - destruct (negb (Z.eqb (request process lwkm) 0));
      (split; [reflexivity|]; split; [reflexivity|];
       split; [now rewrite mos_get_process_flags|];
       intros l Hcur Hin; apply Hcall in Hin; subst l;
       destruct (Hnew Hcur) as [-> ->];
       rewrite mos_get_process_flags, Eget; now repeat split).
  - split; [reflexivity|]. split; [reflexivity|].
    split; [now rewrite mos_get_process_flags|].
    intros l _ Hin. exfalso. cbn [app] in Hin.
    apply in_map_iff in Hin as (e & He & _). discriminate.
Qed.

(** A request of memory by a task without a record, with one subsystem
    registered: its callback is called, then [lwkmem_request]; the task
    has no record afterwards. *)
Lemma lwkmem_request_store_record_witness :
  mos_process (snd (fst (lwkmem_request_store sample_senv sample_hooked
                           (sample_task 100) "1 2"))) = None
  /\ snd (lwkmem_request_store sample_senv sample_hooked (sample_task 100) "1 2")
     = [Core (CallProcessInit 7%N); CallLwkmemRequest [1; 2]%N].
Proof.
  pose proof (lwkmem_request_store_record sample_senv sample_hooked
                (sample_task 100) "1 2") as H.
  cbv zeta in H.
  assert (Hcall : In (CallLwkmemRequest [1; 2]%N)
                     (snd (lwkmem_request_store sample_senv sample_hooked
                             (sample_task 100) "1 2")))
    by (vm_compute; right; left; reflexivity).
  destruct (lwkmem_request_store sample_senv sample_hooked (sample_task 100) "1 2")
    as [[rc cur'] evs].
  destruct H as (Hrecord & _ & _ & Hlost). cbn [fst snd] in *.
  split; [exact Hrecord|].
  destruct (Hlost [1; 2]%N eq_refl Hcall) as (_ & _ & Hevs).
  rewrite Hevs. reflexivity.
Defined.

(** ** The CPU sequence *)

(** A write at the first entry after [done]. *)
Lemma array_write_app (done todo : list Z) (x v : Z) :
  array_write (done ++ x :: todo) (List.length done) v = Some (done ++ v :: todo).
Proof.
  induction done as [| y done IH]; cbn [app List.length array_write]; [reflexivity|].
  now rewrite IH.
Qed.

Section SequenceWalk.

Variable senv : sysfs_env.

(** The loop of [lwkcpus_sequence_store] from any of its turns on: [done]
    are the entries behind the pointer, [todo] the entries from the
    pointer on, the last of them being the entry after the CPUs of the
    process. The loop stays within the array; it stores the values it
    accepts over the first entries of [todo] and ends in one of three
    ways. *)
Lemma sequence_walk_spec (num : nat) (vals : list string) :
  forall done todo,
  (Z.of_nat num < 2 ^ 31 - 1)%Z ->
  List.length done + List.length todo = S num ->
  List.length done <= num ->
  exists exit k,
    sequence_walk senv (Z.of_nat num) vals (done ++ todo)
      (List.length done) (Z.of_nat (List.length done))
    = Some (exit, done ++ map (sequence_entry senv) (firstn k vals) ++ skipn k todo)
    /\ k <= List.length vals
    /\ List.length done + k <= num
    /\ Forall (fun val => fst (kstrtouint senv val) = 0%Z) (firstn k vals)
    /\ match exit with
       | SequenceEnd n => n = Z.of_nat (List.length done + k) /\ k = List.length vals
       | SequenceFail RasSequenceTooMany =>
           List.length done + k = num /\ k < List.length vals
           /\ Forall (fun val => fst (kstrtouint senv val) = 0%Z) (firstn (S k) vals)
       | SequenceFail (RasSequenceInvalid kresult) =>
           exists val, nth_error vals k = Some val
                       /\ fst (kstrtouint senv val) = kresult /\ kresult <> 0%Z
       | SequenceFail _ => False
       end.
Proof.
  induction vals as [| val rest IH]; intros done todo Hnum Hlen Hdone; cbn [sequence_walk].
  - exists (SequenceEnd (Z.of_nat (List.length done))), 0.
    cbn [firstn map skipn app List.length]. rewrite Nat.add_0_r.
    repeat split; try lia. constructor.
  - destruct (kstrtouint senv val) as [kresult cpuid] eqn:Eval.
    destruct (Z.eqb_spec kresult 0) as [Hk | Hk]; cbn [negb].
    + subst kresult.
      rewrite wrap_int_small by lia.
      destruct (Z.ltb_spec (Z.of_nat num) (Z.of_nat (List.length done) + 1)) as [Hfull | Hroom].
      * exists (SequenceFail RasSequenceTooMany), 0.
        cbn [firstn map skipn app List.length].
        repeat split; try lia; try constructor; try constructor.
        now rewrite Eval.
      * destruct todo as [| x todo]; [cbn [List.length] in Hlen; lia|].
        rewrite array_write_app.
        specialize (IH (done ++ [wrap_int (Z.of_N cpuid)]) todo Hnum).
        rewrite length_app in IH. cbn [List.length] in IH, Hlen.
        destruct IH as (exit & k & E & Hk & Hin & Hall & Hexit); [lia | lia |].
        replace (Z.of_nat (List.length done) + 1)%Z
          with (Z.of_nat (List.length done + 1)) by lia.
        replace (S (List.length done)) with (List.length done + 1) by lia.
        rewrite <- app_assoc in E. cbn [app] in E. rewrite E.
        exists exit, (S k). cbn [firstn map skipn List.length].
        assert (Hstored : sequence_entry senv val = wrap_int (Z.of_N cpuid))
          by (unfold sequence_entry; now rewrite Eval).
        rewrite Hstored, <- app_assoc. cbn [app].
        split; [reflexivity|]. split; [lia|]. split; [lia|].
        assert (Hval : fst (kstrtouint senv val) = 0%Z) by now rewrite Eval.
        split; [now constructor|].
        destruct exit as [n | report].
        -- destruct Hexit as [-> ->]. split; [f_equal; lia | reflexivity].
        -- destruct report; try contradiction.
           ++ exact Hexit.
           ++ destruct Hexit as (Hend & Hmore & Hnext).
              split; [lia|]. split; [lia|]. now constructor.
    + exists (SequenceFail (RasSequenceInvalid kresult)), 0.
      cbn [firstn map skipn app List.length nth_error].
      repeat split; try lia; try constructor.
      exists val. rewrite Eval. now repeat split.
Qed.

End SequenceWalk.



Lemma skipn_last {A : Type} (l : list A) (n : nat) (d : A) :
  List.length l = S n -> skipn n l = [last l d].
Proof.
  revert n. induction l as [| x l IH]; intros n Hlen; [discriminate|].
  cbn [List.length] in Hlen. destruct n as [| n].
  - destruct l; [reflexivity | discriminate].
  - cbn [skipn]. rewrite (IH n) by lia.
    destruct l; [discriminate | reflexivity].
Qed.

Lemma set_lwkcpus_sequence_same (proc : mos_process_t) (seq : list Z) :
  lwkcpus_sequence proc = Some seq -> set_lwkcpus_sequence (Some seq) proc = proc.
Proof. destruct proc. cbn. now intros ->. Qed.

Section SequenceStore.

Variable senv : sysfs_env.
Variable cur : task_struct.
Variable proc : mos_process_t.
Variable seq : list Z.
Hypothesis Hcur : mos_process cur = Some proc.
Hypothesis Hsized : sequence_sized proc seq.

(** The loop of [lwkcpus_sequence_store] for a record with an array of the
    right size, from its first turn. *)
Lemma sequence_store_walk (vals : list string) :
  exists exit k,
    sequence_walk senv (num_lwkcpus proc) vals seq 0 0
    = Some (exit, map (sequence_entry senv) (firstn k vals) ++ skipn k seq)
    /\ k <= List.length vals
    /\ (Z.of_nat k <= num_lwkcpus proc)%Z
    /\ Forall (fun val => fst (kstrtouint senv val) = 0%Z) (firstn k vals)
    /\ match exit with
       | SequenceEnd n => n = Z.of_nat k /\ k = List.length vals
       | SequenceFail RasSequenceTooMany =>
           Z.of_nat k = num_lwkcpus proc /\ k < List.length vals
           /\ Forall (fun val => fst (kstrtouint senv val) = 0%Z) (firstn (S k) vals)
       | SequenceFail (RasSequenceInvalid kresult) =>
           exists val, nth_error vals k = Some val
                       /\ fst (kstrtouint senv val) = kresult /\ kresult <> 0%Z
       | SequenceFail _ => False
       end.
Proof.
  destruct Hsized as (_ & Hnum & Hlen).
  destruct (sequence_walk_spec senv (Z.to_nat (num_lwkcpus proc)) vals [] seq)
    as (exit & k & E & Hk & Hin & Hall & Hexit);
    cbn [List.length Nat.add]; try lia.
  rewrite Z2Nat.id in E by lia. cbn [app List.length Nat.add] in *.
  exists exit, k. split; [exact E|]. split; [exact Hk|]. split; [lia|].
  split; [exact Hall|].
  destruct exit as [n | report]; [exact Hexit|].
  destruct report; try exact Hexit.
  destruct Hexit as (Hend & Hmore & Hnext). split; [lia|]. now split.
Qed.

End SequenceStore.



(** X15. With an array of the right size and the copy of the text made,
    [lwkcpus_sequence_store] returns the count of bytes exactly when the
    text has as many pieces between commas as the record counts CPUs and
    [kstrtouint] accepts each piece. The array then holds the numbers read,
    each as an [int], in the order of the text, and the sentinel after
    them. The numbers are not compared with the CPUs of the process, nor
    with each other. *)
Theorem lwkcpus_sequence_store_accepts (senv : sysfs_env) (cur : task_struct)
  (buff : string) (proc : mos_process_t) (seq : list Z) :
  mos_process cur = Some proc ->
  sequence_sized proc seq ->
  sysfs_alloc_ok senv KstrndupSequence = true ->
  let vals := strsep_all "," (c_str buff) in
  let count := Z.of_nat (String.length buff) in
  (option_map (fun r => fst (fst r)) (lwkcpus_sequence_store senv cur buff) = Some count
   <-> Z.of_nat (List.length vals) = num_lwkcpus proc
       /\ Forall (fun val => fst (kstrtouint senv val) = 0%Z) vals)
  /\ (Z.of_nat (List.length vals) = num_lwkcpus proc ->
      Forall (fun val => fst (kstrtouint senv val) = 0%Z) vals ->
      lwkcpus_sequence_store senv cur buff
      = Some (count,
              set_task_process
                (Some (set_lwkcpus_sequence
                         (Some (map (sequence_entry senv) vals ++ [last seq 0%Z])) proc))
                cur,
              [])).
Proof.
  intros Hcur Hsized Halloc vals count.
  pose proof Hsized as (Hseq & Hnum & Hlen).
  unfold lwkcpus_sequence_store. rewrite Hcur, Hseq, Halloc. cbn [negb].
  fold vals. fold count.
  destruct (sequence_store_walk senv proc seq Hsized vals)
    as (exit & k & E & Hk & Hin & Hall & Hexit).
  rewrite E.
  assert (Hcount : count <> (- EINVAL)%Z) by (unfold count, EINVAL; lia).
  assert (Hdone : Z.of_nat (List.length vals) = num_lwkcpus proc ->
                  Forall (fun val => fst (kstrtouint senv val) = 0%Z) vals ->
                  exit = SequenceEnd (num_lwkcpus proc) /\ k = List.length vals).
  { intros Hn Hok. destruct exit as [n | report].
    - destruct Hexit as [-> ->]. now rewrite Hn.
    - exfalso. destruct report; try contradiction.
      + destruct Hexit as (val & Hnth & Hres & Hne).
        apply nth_error_In in Hnth.
        pose proof (proj1 (Forall_forall _ _) Hok val Hnth) as Hval.
        cbv beta in Hval. congruence.
      + lia. }
  split.
  - split.
    + destruct exit as [n | report]; cbn [option_map fst].
      * destruct Hexit as [-> ->].
        destruct (Z.ltb_spec (Z.of_nat (List.length vals)) (num_lwkcpus proc))
          as [Hlt | Hge]; cbn [option_map fst]; intros Hrc; inversion Hrc;
          try (symmetry in H0; contradiction).
        split; [lia|]. now rewrite firstn_all in Hall.
      * intros Hrc. inversion Hrc. symmetry in H0. contradiction.
    + intros [Hn Hok]. destruct (Hdone Hn Hok) as [-> ->].
      rewrite Z.ltb_irrefl. reflexivity.
  - intros Hn Hok. destruct (Hdone Hn Hok) as [-> ->].
    rewrite Z.ltb_irrefl, firstn_all.
    rewrite (skipn_last seq (List.length vals) 0%Z) by lia.
    reflexivity.
Qed.

Lemma lwkcpus_sequence_store_accepts_witness :
  lwkcpus_sequence_store sample_senv sample_two_cpus "9,9"
  = Some (3%Z,
          set_task_process
            (option_map (set_lwkcpus_sequence (Some [9; 9; -1]%Z))
               (mos_process sample_two_cpus))
            sample_two_cpus,
          []).
Proof.
  pose (proc := match mos_process sample_two_cpus with
                | Some p => p
                | None => new_mos_process sample_two_cpus
                end).
  destruct (lwkcpus_sequence_store_accepts sample_senv sample_two_cpus "9,9" proc
              [2; 3; -1]%Z eq_refl) as [_ Hdone].
  - split; [reflexivity|]. split; [split; [discriminate | reflexivity] | reflexivity].
  - reflexivity.
  - rewrite Hdone.
    + reflexivity.
    + reflexivity.
    + repeat constructor.
Defined.

(** X16. A process that holds no CPU cannot set a sequence: with the
    array of one entry that a claim of no CPU leaves, every write is
    refused with [-EINVAL], for a value that is not a number or for too
    many values, and the task is left as it was. [strsep] returns one
    piece at least, also for the empty text. *)
Theorem lwkcpus_sequence_store_no_cpus (senv : sysfs_env) (cur : task_struct)
  (buff : string) (proc : mos_process_t) (seq : list Z) :
  mos_process cur = Some proc ->
  sequence_sized proc seq ->
  num_lwkcpus proc = 0%Z ->
  sysfs_alloc_ok senv KstrndupSequence = true ->
  exists report,
    lwkcpus_sequence_store senv cur buff = Some ((- EINVAL)%Z, cur, [SysfsRas report])
    /\ (report = RasSequenceTooMany \/ exists kresult, report = RasSequenceInvalid kresult).
Proof.
  intros Hcur Hsized Hnone Halloc.
  pose proof Hsized as (Hseq & Hnum & Hlen).
  unfold lwkcpus_sequence_store. rewrite Hcur, Hseq, Halloc. cbn [negb].
  destruct (sequence_store_walk senv proc seq Hsized (strsep_all "," (c_str buff)))
    as (exit & k & E & Hk & Hin & Hall & Hexit).
  rewrite E.
  assert (k = 0) by lia. subst k. cbn [firstn map skipn app].
  assert (Hsame : set_task_process (Some (set_lwkcpus_sequence (Some seq) proc)) cur = cur).
  { rewrite (set_lwkcpus_sequence_same _ _ Hseq). destruct cur as [t m f p].
    cbn in Hcur. now subst p. }
  rewrite Hsame.
  destruct (strsep_all_cons "," (c_str buff)) as (tok & toks & Etoks).
  destruct exit as [n | report].
  - destruct Hexit as [_ Hlen0]. rewrite Etoks in Hlen0. discriminate.
  - exists report. split; [reflexivity|].
    destruct report; try contradiction; [right; eauto | now left].
Qed.

Lemma lwkcpus_sequence_store_no_cpus_witness :
  exists report,
    lwkcpus_sequence_store sample_senv sample_lwk_task "" = Some ((- EINVAL)%Z, sample_lwk_task, [SysfsRas report]).
Proof.
  pose (proc := match mos_process sample_lwk_task with
                | Some p => p
                | None => new_mos_process sample_lwk_task
                end).
  destruct (lwkcpus_sequence_store_no_cpus sample_senv sample_lwk_task "" proc
              [(-1)%Z] eq_refl) as (report & E & _).
  - split; [reflexivity|]. split; [split; [reflexivity | reflexivity] | reflexivity].
  - reflexivity.
  - reflexivity.
  - now exists report.
Defined.

(** X17. A write that [lwkcpus_sequence_store] refuses for its length has
    changed the array all the same. With fewer accepted values than the
    record counts CPUs, all of them have been stored over the first
    entries, and with more, the first [num_lwkcpus] of them have replaced
    the whole sequence, before the call returns [-EINVAL]: the earlier
    sequence is not restored. *)
Theorem lwkcpus_sequence_store_partial (senv : sysfs_env) (cur : task_struct)
  (buff : string) (proc : mos_process_t) (seq : list Z) :
  mos_process cur = Some proc ->
  sequence_sized proc seq ->
  sysfs_alloc_ok senv KstrndupSequence = true ->
  let vals := strsep_all "," (c_str buff) in
  Forall (fun val => fst (kstrtouint senv val) = 0%Z) vals ->
  ((Z.of_nat (List.length vals) < num_lwkcpus proc)%Z ->
   lwkcpus_sequence_store senv cur buff
   = Some ((- EINVAL)%Z,
           set_task_process
             (Some (set_lwkcpus_sequence
                      (Some (map (sequence_entry senv) vals
                               ++ skipn (List.length vals) seq)) proc))
             cur,
           [SysfsRas RasSequenceTooFew]))
  /\ ((num_lwkcpus proc < Z.of_nat (List.length vals))%Z ->
      lwkcpus_sequence_store senv cur buff
      = Some ((- EINVAL)%Z,
              set_task_process
                (Some (set_lwkcpus_sequence
                         (Some (map (sequence_entry senv)
                                  (firstn (Z.to_nat (num_lwkcpus proc)) vals)
                                  ++ [last seq 0%Z])) proc))
                cur,
              [SysfsRas RasSequenceTooMany])).
Proof.
  intros Hcur Hsized Halloc vals Hok.
  pose proof Hsized as (Hseq & Hnum & Hlen).
  unfold lwkcpus_sequence_store. rewrite Hcur, Hseq, Halloc. cbn [negb].
  fold vals.
  destruct (sequence_store_walk senv proc seq Hsized vals)
    as (exit & k & E & Hk & Hin & Hall & Hexit).
  rewrite E.
  assert (Hvalid : forall kresult, exit <> SequenceFail (RasSequenceInvalid kresult)).
  { intros kresult ->. destruct Hexit as (val & Hnth & Hres & Hne).
    apply nth_error_In in Hnth.
    pose proof (proj1 (Forall_forall _ _) Hok val Hnth) as Hval.
    cbv beta in Hval. congruence. }
  split.
  - intros Hfew. destruct exit as [n | report].
    + destruct Hexit as [-> ->].
      rewrite (proj2 (Z.ltb_lt _ _) Hfew), firstn_all. reflexivity.
    + exfalso. destruct report; try contradiction.
      * now apply (Hvalid kresult).
      * lia.
  - intros Hmany. destruct exit as [n | report].
    + exfalso. lia.
    + destruct report; try contradiction.
      * exfalso. now apply (Hvalid kresult).
      * destruct Hexit as (Hend & _).
        replace (Z.to_nat (num_lwkcpus proc)) with k by lia.
        rewrite (skipn_last seq k 0%Z) by lia. reflexivity.
Qed.

Lemma lwkcpus_sequence_store_partial_witness :
  option_map (fun r => (fst (fst r), option_map lwkcpus_sequence (mos_process (snd (fst r)))))
    (lwkcpus_sequence_store sample_senv sample_two_cpus "9")
  = Some ((- EINVAL)%Z, Some (Some [9; 3; -1]%Z)).
Proof.
  pose (proc := match mos_process sample_two_cpus with
                | Some p => p
                | None => new_mos_process sample_two_cpus
                end).
  destruct (lwkcpus_sequence_store_partial sample_senv sample_two_cpus "9" proc
              [2; 3; -1]%Z eq_refl) as [Hfew _].
  - split; [reflexivity|]. split; [split; [discriminate | reflexivity] | reflexivity].
  - reflexivity.
  - repeat constructor.
  - rewrite Hfew; reflexivity.
Defined.

(** ** The count of utility threads *)

(** A claim that returns 0 for a task with a record keeps what the record
    says of the process. *)
Lemma lwkcpus_request_set_keeps (env : kernel_env) (st st1 : mos_state)
  (cur cur1 : task_struct) (old : mos_process_t) (request : cpumask) (evs : list event) :
  mos_process cur = Some old ->
  _lwkcpus_request_set env st cur request = (0%Z, st1, cur1, evs) ->
  exists process,
    mos_process cur1 = Some process
    /\ tgid process = tgid old
    /\ num_util_threads process = num_util_threads old
    /\ alive process = alive old.
Proof.
  intros Hcur E.
  pose proof (lwkcpus_request_set_rc env st cur request) as Hrc.
  cbv zeta in Hrc. rewrite E in Hrc. cbn [fst] in Hrc.
  destruct Hrc as [[Hrc _] | [[Hrc _] | (_ & Hsub & Hfree)]]; try discriminate.
  rewrite (lwkcpus_request_set_free env st cur request Hsub Hfree) in E.
  unfold mos_get_process in E. rewrite Hcur in E.
  destruct (negb (alloc_ok env VmallocCpuList)); [discriminate|].
  inversion E; subst; clear E. eexists. cbn. repeat split.
Qed.

(** X18. [lwk_util_threads_store] returns the count of bytes exactly when
    the task has a record, [kstrtoint] accepts the text and the number is
    not negative; the record then holds the number and is otherwise as it
    was. In every other case the call returns [-EINVAL] and leaves the
    task alone. The number is kept by a later claim of CPUs that returns
    0. *)
Theorem lwk_util_threads_store_count (senv : sysfs_env) (cur : task_struct)
  (buff : string) :
  let count := Z.of_nat (String.length buff) in
  let number := kstrtoint senv (c_str buff) in
  let '(rc, cur', evs) := lwk_util_threads_store senv cur buff in
  (rc = count <->
   mos_process cur <> None /\ fst number = 0%Z /\ (0 <= snd number)%Z)
  /\ (rc <> count -> rc = (- EINVAL)%Z /\ cur' = cur /\ exists report, evs = [SysfsRas report])
  /\ (rc = count ->
      evs = []
      /\ (exists proc, mos_process cur = Some proc
                       /\ cur' = set_task_process
                                   (Some (set_num_util_threads (snd number) proc)) cur)
      /\ forall env st request st1 cur1 evs1,
           _lwkcpus_request_set env st cur' request = (0%Z, st1, cur1, evs1) ->
           option_map num_util_threads (mos_process cur1) = Some (snd number)).
Proof.
  cbv zeta. unfold lwk_util_threads_store.
  assert (Hcount : Z.of_nat (String.length buff) <> (- EINVAL)%Z) by (unfold EINVAL; lia).
  destruct (mos_process cur) as [proc |] eqn:Hcur.
  - destruct (kstrtoint senv (c_str buff)) as [rc num]. cbn [fst snd].
    destruct (Z.eqb_spec rc 0) as [-> | Hrc]; cbn [negb orb].
    + destruct (Z.ltb_spec num 0) as [Hneg | Hpos].
      * split; [|split].
        -- split; [intros H; symmetry in H; contradiction | intros (_ & _ & H); lia].
        -- intros _. split; [reflexivity|]. split; [reflexivity|]. eauto.
        -- intros H. symmetry in H. contradiction.
      * split; [|split].
        -- split; [intros _|reflexivity]. split; [discriminate|]. now split.
        -- intros H. now contradiction H.
        -- intros _. split; [reflexivity|]. split; [eauto|].
           intros env st request st1 cur1 evs1 E.
           apply (lwkcpus_request_set_keeps env st st1
                    (set_task_process (Some (set_num_util_threads num proc)) cur) cur1
                    (set_num_util_threads num proc) request evs1 eq_refl) in E
             as (process & -> & _ & Hnum & _).
           cbn [option_map]. now rewrite Hnum.
    + split; [|split].
      * split; [intros H; symmetry in H; contradiction | intros (_ & H & _); contradiction].
      * intros _. split; [reflexivity|]. split; [reflexivity|]. eauto.
      * intros H. symmetry in H. contradiction.
  - split; [|split].
    + split; [intros H; symmetry in H; contradiction | intros (H & _); now contradiction H].
    + intros _. split; [reflexivity|]. split; [reflexivity|]. eauto.
    + intros H. symmetry in H. contradiction.
Qed.

(** The text [3] written by a task with a record, and by one without. *)
Lemma lwk_util_threads_store_count_witness :
  fst (fst (lwk_util_threads_store sample_senv sample_lwk_task "3")) = 1%Z
  /\ fst (fst (lwk_util_threads_store sample_senv (sample_task 100) "3")) = (- EINVAL)%Z.
Proof.
  split.
  - pose proof (lwk_util_threads_store_count sample_senv sample_lwk_task "3") as H.
    cbv zeta in H.
    destruct (lwk_util_threads_store sample_senv sample_lwk_task "3") as [[rc cur'] evs].
    destruct H as [Hrc _]. cbn [fst]. apply Hrc.
    split; [discriminate|]. split; [reflexivity|]. vm_compute. discriminate.
  - pose proof (lwk_util_threads_store_count sample_senv (sample_task 100) "3") as H.
    cbv zeta in H.
    destruct (lwk_util_threads_store sample_senv (sample_task 100) "3") as [[rc cur'] evs].
    destruct H as (Hrc & Hfail & _). cbn [fst]. apply Hfail.
    intro E. apply Hrc in E. destruct E as [Hproc _]. apply Hproc. reflexivity.
Defined.

(** ** Memory domains *)

Section DomainInfo.

Variable senv : sysfs_env.
Variable mosp : mos_process_t.

(** One turn of the loop over the phrases. *)
Lemma domain_info_walk_cons (typ_str : string) (rest : list string) :
  domain_info_walk senv mosp (typ_str :: rest)
  = if Nat.eqb (String.length typ_str) 0 then domain_info_walk senv mosp rest
    else if domain_phrase_accepted senv mosp typ_str then
      (fst (domain_info_walk senv mosp rest),
       domain_phrase_call senv typ_str ++ snd (domain_info_walk senv mosp rest))
    else
      (WalkFail (- EINVAL)%Z,
       match strchr typ_str "=" with
       | None => []
       | Some (typ_name, nids_str) =>
           match lwkmem_type_of typ_name with
           | None => [SysfsRas (RasDomainInfoType typ_name)]
           | Some typ =>
               match nids_walk senv (strsep_all "," nids_str) [] with
               | inl report => [SysfsRas report]
               | inr nids =>
                   match lwkmem_set_domain_info senv with
                   | Some set_domain_info =>
                       [CallLwkmemSetDomainInfo typ nids;
                        SysfsRas (RasDomainInfoRejected (set_domain_info mosp typ nids))]
                   | None => []
                   end
               end
           end
       end).
Proof.
  cbn [domain_info_walk]. unfold domain_phrase_accepted, domain_phrase_call, domain_phrase.
  destruct (Nat.eqb (String.length typ_str) 0); [reflexivity|].
  destruct (strchr typ_str "=") as [[typ_name nids_str] |]; [|reflexivity].
  destruct (lwkmem_type_of typ_name) as [typ |]; [|reflexivity].
  destruct (nids_walk senv (strsep_all "," nids_str) []) as [report | nids]; [reflexivity|].
  destruct (lwkmem_set_domain_info senv) as [set_domain_info |].
  - destruct (Z.eqb (set_domain_info mosp typ nids) 0); cbn [negb]; [|reflexivity].
    now destruct (domain_info_walk senv mosp rest).
  - now destruct (domain_info_walk senv mosp rest).
Qed.

(** Phrases that are accepted, with any empty pieces between them, are
    passed over. *)
Lemma domain_info_walk_app (pre rest : list string) :
  forallb (domain_phrase_accepted senv mosp)
    (filter (fun phrase => negb (Nat.eqb (String.length phrase) 0)) pre) = true ->
  domain_info_walk senv mosp (pre ++ rest)
  = (fst (domain_info_walk senv mosp rest),
     flat_map (domain_phrase_call senv)
       (filter (fun phrase => negb (Nat.eqb (String.length phrase) 0)) pre)
       ++ snd (domain_info_walk senv mosp rest)).
Proof.
  induction pre as [| typ_str pre IH]; cbn [app filter]; intros Hpre.
  - now destruct (domain_info_walk senv mosp rest).
  - rewrite domain_info_walk_cons.
    destruct (Nat.eqb (String.length typ_str) 0); cbn [negb] in *; [now apply IH|].
    cbn [forallb flat_map] in *. apply andb_true_iff in Hpre as [Hok Hpre].
    rewrite Hok, (IH Hpre). cbn [fst snd]. now rewrite app_assoc.
Qed.

End DomainInfo.

(** X19. For a task with a record, a write to [lwkmem_domain_info] whose
    phrases are all well-formed and accepted by the memory subsystem
    returns the count of bytes, after one call of [lwkmem_set_domain_info]
    for each phrase, in the order of the text, with the type and the ids
    of the phrase. Runs of spaces count as one: empty pieces between spaces
    are passed over, and a text of spaces alone is accepted with no call
    made. *)
Theorem lwkmem_domain_info_store_accepts (senv : sysfs_env) (cur : task_struct)
  (mosp : mos_process_t) (buff : string) :
  mos_process cur = Some mosp ->
  sysfs_alloc_ok senv KstrdupDomainInfo = true ->
  forallb (domain_phrase_accepted senv mosp) (phrases_of (c_str buff)) = true ->
  lwkmem_domain_info_store senv cur buff
  = (Z.of_nat (String.length buff),
     flat_map (domain_phrase_call senv) (phrases_of (c_str buff))).
Proof.
  intros Hcur Halloc Hok. unfold lwkmem_domain_info_store. rewrite Hcur, Halloc.
  cbn [negb]. unfold phrases_of in *.
  rewrite <- (app_nil_r (strsep_all " " (c_str buff))) at 1.
  rewrite (domain_info_walk_app senv mosp _ [] Hok). cbn [domain_info_walk fst snd].
  now rewrite app_nil_r.
Qed.

Lemma lwkmem_domain_info_store_accepts_witness :
  lwkmem_domain_info_store sample_senv sample_lwk_task "hbm=0,1  dram=2"
  = (15%Z, [CallLwkmemSetDomainInfo lwkmem_hbm [0; 1]%N;
            CallLwkmemSetDomainInfo lwkmem_dram [2]%N]).
Proof.
  pose (mosp := match mos_process sample_lwk_task with
                | Some p => p
                | None => new_mos_process sample_lwk_task
                end).
  rewrite (lwkmem_domain_info_store_accepts sample_senv sample_lwk_task mosp
             "hbm=0,1  dram=2" eq_refl eq_refl eq_refl).
  reflexivity.
Defined.

(** X20. A write to [lwkmem_domain_info] stops at the first phrase that
    is not well-formed or that the memory subsystem refuses, and returns
    [-EINVAL]. The phrases before it have been handed to
    [lwkmem_set_domain_info] already and are not taken back; the phrases
    after it are not looked at: no call is made for them. *)
Theorem lwkmem_domain_info_store_stops (senv : sysfs_env) (cur : task_struct)
  (mosp : mos_process_t) (buff : string) (pre post : list string) (bad : string) :
  mos_process cur = Some mosp ->
  sysfs_alloc_ok senv KstrdupDomainInfo = true ->
  strsep_all " " (c_str buff) = pre ++ bad :: post ->
  forallb (domain_phrase_accepted senv mosp)
    (filter (fun phrase => negb (Nat.eqb (String.length phrase) 0)) pre) = true ->
  bad <> EmptyString ->
  domain_phrase_accepted senv mosp bad = false ->
  exists tail,
    lwkmem_domain_info_store senv cur buff
    = ((- EINVAL)%Z,
       flat_map (domain_phrase_call senv)
         (filter (fun phrase => negb (Nat.eqb (String.length phrase) 0)) pre) ++ tail)
    /\ (tail = []
        \/ (exists report, tail = [SysfsRas report])
        \/ exists typ nids rc,
             domain_phrase senv bad = Some (typ, nids)
             /\ rc <> 0%Z
             /\ tail = [CallLwkmemSetDomainInfo typ nids;
                        SysfsRas (RasDomainInfoRejected rc)]).
Proof.
  intros Hcur Halloc Hsplit Hpre Hbad Hrefused.
  unfold lwkmem_domain_info_store. rewrite Hcur, Halloc, Hsplit. cbn [negb].
  rewrite (domain_info_walk_app senv mosp pre (bad :: post) Hpre).
  rewrite domain_info_walk_cons, (strlen_nonzero bad Hbad), Hrefused. cbn [fst snd].
  eexists. split; [reflexivity|].
  unfold domain_phrase_accepted, domain_phrase in *.
  destruct (strchr bad "=") as [[typ_name nids_str] |]; [|now left].
  destruct (lwkmem_type_of typ_name) as [typ |]; [|right; left; eauto].
  destruct (nids_walk senv (strsep_all "," nids_str) []) as [report | nids];
    [right; left; eauto|].
  destruct (lwkmem_set_domain_info senv) as [set_domain_info |]; [|discriminate].
  right. right. exists typ, nids, (set_domain_info mosp typ nids).
  split; [reflexivity|]. split; [|reflexivity].
  now apply Z.eqb_neq.
Qed.

Lemma lwkmem_domain_info_store_stops_witness :
  lwkmem_domain_info_store sample_senv sample_lwk_task "hbm=0 ram=1 dram=2"
  = ((- EINVAL)%Z, [CallLwkmemSetDomainInfo lwkmem_hbm [0]%N;
                    SysfsRas (RasDomainInfoType "ram")]).
Proof.
  pose (mosp := match mos_process sample_lwk_task with
                | Some p => p
                | None => new_mos_process sample_lwk_task
                end).
  destruct (lwkmem_domain_info_store_stops sample_senv sample_lwk_task mosp
              "hbm=0 ram=1 dram=2" ["hbm=0"%string] ["dram=2"%string] "ram=1"
              eq_refl eq_refl eq_refl eq_refl) as (tail & E & _).
  - discriminate.
  - reflexivity.
  - rewrite E. vm_compute in E. inversion E. reflexivity.
Defined.

(** ** The partition configuration *)

(** The pieces [strsep] returns, joined by the delimiter, are the text. *)
Lemma strsep_all_join (d : ascii) (s : string) :
  String.concat (String d EmptyString) (strsep_all d s) = s.
Proof.
  induction s as [| x r IH]; [reflexivity|]. cbn [strsep_all].
  destruct (strsep_all_cons d r) as (tok & toks & E).
  rewrite E in *.
  destruct (Ascii.eqb_spec x d) as [-> | Hx].
  - change (String.concat (String d EmptyString) (EmptyString :: tok :: toks))
      with (String d (String.concat (String d EmptyString) (tok :: toks))).
    now rewrite IH.
  - destruct toks as [| tok' toks].
    + change (String x tok = String x r). f_equal. exact IH.
    + change (String x (String.concat (String d EmptyString) (tok :: tok' :: toks))
              = String x r).
      f_equal. exact IH.
Qed.

Lemma strsep_all_free (d : ascii) (piece : string) :
  str_free d piece = true -> strsep_all d piece = [piece].
Proof.
  induction piece as [| x piece IH]; cbn [str_free strsep_all]; [reflexivity|].
  intros H. apply andb_true_iff in H as [Hx Hfree]. apply negb_true_iff in Hx.
  now rewrite Hx, (IH Hfree).
Qed.

(** Pieces free of the delimiter, joined by it, are found again. *)
Lemma strsep_all_concat (d : ascii) (pieces : list string) :
  pieces <> [] ->
  forallb (str_free d) pieces = true ->
  strsep_all d (String.concat (String d EmptyString) pieces) = pieces.
Proof.
  induction pieces as [| piece pieces IH]; [contradiction|].
  intros _ H. cbn [forallb] in H. apply andb_true_iff in H as [Hp Hrest].
  destruct pieces as [| next pieces].
  - cbn [String.concat]. now apply strsep_all_free.
  - change (String.concat (String d EmptyString) (piece :: next :: pieces))
      with (piece ++ String d (String.concat (String d EmptyString) (next :: pieces)))%string.
    rewrite (strsep_all_app d _ _ Hp), IH; [reflexivity | discriminate | exact Hrest].
Qed.

Lemma validate_auto_walk_zero (resources : list string) :
  validate_auto_walk resources = 0%Z
  <-> Forall (fun r => r = "cpu"%string \/ r = "mem"%string) resources.
Proof.
  induction resources as [| r rest IH]; cbn [validate_auto_walk].
  - split; [constructor | reflexivity].
  - destruct (String.eqb_spec r "cpu") as [-> | Hcpu]; cbn [negb andb].
    + rewrite IH. split; [intros H; constructor; auto | intros H; now inversion H].
    + destruct (String.eqb_spec r "mem") as [-> | Hmem]; cbn [negb].
      * rewrite IH. split; [intros H; constructor; auto | intros H; now inversion H].
      * split; [discriminate|]. intros H. inversion H; subst. tauto.
Qed.

(** X21. [lwk_validate_auto] returns 0 or -1, and 0 exactly when the copy
    of the text can be made and the text is [cpu] or [mem], or several of
    them joined by single commas. The empty text, a trailing comma and any
    other word are refused; a word may come more than once. *)
Theorem lwk_validate_auto_accepts (senv : sysfs_env) (auto_s : string) :
  (lwk_validate_auto senv auto_s = 0%Z \/ lwk_validate_auto senv auto_s = (-1)%Z)
  /\ (lwk_validate_auto senv auto_s = 0%Z
      <-> sysfs_alloc_ok senv KstrdupAuto = true
          /\ exists resources,
               resources <> []
               /\ Forall (fun r => r = "cpu"%string \/ r = "mem"%string) resources
               /\ auto_s = String.concat "," resources).
Proof.
  unfold lwk_validate_auto.
  destruct (sysfs_alloc_ok senv KstrdupAuto); cbn [negb].
  2: { split; [now right|]. split; [discriminate | intros [H _]; discriminate]. }
  split.
  - induction (strsep_all "," auto_s) as [| r rest IH]; cbn [validate_auto_walk];
      [now left|].
    destruct (negb (String.eqb r "cpu") && negb (String.eqb r "mem")); [now right | exact IH].
  - rewrite validate_auto_walk_zero. split.
    + intros Hall. split; [reflexivity|].
      exists (strsep_all "," auto_s). split; [|split; [exact Hall|]].
      * destruct (strsep_all_cons "," auto_s) as (tok & toks & ->). discriminate.
      * symmetry. apply strsep_all_join.
    + intros (_ & resources & Hne & Hall & ->).
      rewrite strsep_all_concat; [exact Hall | exact Hne|].
      apply forallb_forall. intros r Hin.
      destruct (proj1 (Forall_forall _ _) Hall r Hin) as [-> | ->]; reflexivity.
Qed.

(** [cpu,mem] is accepted and the empty text is refused. *)
Lemma lwk_validate_auto_accepts_witness :
  lwk_validate_auto sample_senv "cpu,mem" = 0%Z
  /\ lwk_validate_auto sample_senv "" = (-1)%Z.
Proof.
  split.
  - apply (lwk_validate_auto_accepts sample_senv "cpu,mem").
    split; [reflexivity|]. exists ["cpu"; "mem"]%string.
    split; [discriminate|]. split; [|reflexivity].
    constructor; [now left|]. constructor; [now right|]. constructor.
  - destruct (lwk_validate_auto_accepts sample_senv "") as [[H0 | Hm] Hiff];
      [exfalso | exact Hm].
    apply Hiff in H0. destruct H0 as (_ & resources & Hne & Hall & Heq).
    destruct resources as [|r rest]; [now apply Hne|].
    inversion Hall as [|? ? Hr _]; subst.
    destruct rest as [|r2 rest]; destruct Hr as [-> | ->]; discriminate Heq.
Defined.

Section ConfigKeywords.

Variable senv : sysfs_env.

(** The loop over the pieces of the text calls nothing: all it lets
    observe are reports. *)
Lemma config_keywords_events (keywords : list string) :
  forall vars e,
  In e (snd (config_keywords senv keywords vars)) -> exists r, e = SysfsRas r.
Proof.
  induction keywords as [| s_keyword rest IH]; intros vars e; cbn [config_keywords].
  - intros [].
  - destruct (Nat.eqb (String.length s_keyword) 0); [apply IH|].
    destruct (strchr s_keyword "=") as [[keyword s_value] |].
    + destruct (config_assign keyword (first_line s_value) vars) as [vars' |].
      * destruct (negb (sysfs_alloc_ok senv KstrdupConfigValue)); [intros [] | apply IH].
      * specialize (IH vars e).
        destruct (config_keywords senv rest vars) as [r evs]. cbn [snd] in *.
        intros [<- | Hin]; eauto.
    + cbn [snd]. intros [<- | []]. eauto.
Qed.

(** A piece that is not empty and has no [=] makes the loop leave. *)
Lemma config_keywords_no_sign (keywords : list string) (bad : string) :
  In bad keywords -> bad <> EmptyString -> strchr bad "=" = None ->
  forall vars, fst (config_keywords senv keywords vars) = None.
Proof.
  intros Hin Hbad Hsign.
  induction keywords as [| s_keyword rest IH]; intros vars; [destruct Hin|].
  cbn [config_keywords].
  destruct Hin as [-> | Hin].
  - now rewrite (strlen_nonzero bad Hbad), Hsign.
  - destruct (Nat.eqb (String.length s_keyword) 0); [now apply IH|].
    destruct (strchr s_keyword "=") as [[keyword s_value] |]; [|reflexivity].
    destruct (config_assign keyword (first_line s_value) vars) as [vars' |].
    + destruct (negb (sysfs_alloc_ok senv KstrdupConfigValue)); [reflexivity | now apply IH].
    + specialize (IH Hin vars). now destruct (config_keywords senv rest vars).
Qed.

(** When every piece that is not empty has an [=] and the values can be
    copied, the loop runs to its end and leaves the variables as
    [config_step] has them piece after piece. *)
Lemma config_keywords_read (keywords : list string) :
  sysfs_alloc_ok senv KstrdupConfigValue = true ->
  Forall (fun piece => piece = EmptyString \/ strchr piece "=" <> None) keywords ->
  forall vars,
  fst (config_keywords senv keywords vars) = Some (fold_left config_step keywords vars).
Proof.
  intros Halloc Hsign.
  induction keywords as [| s_keyword rest IH]; intros vars; [reflexivity|].
  inversion Hsign as [| x l Hhead Hrest]; subst.
  cbn [config_keywords fold_left]. unfold config_step at 2.
  destruct (Nat.eqb (String.length s_keyword) 0) eqn:Hlen.
  - apply strlen_zero in Hlen. subst s_keyword. cbn [strchr]. now apply IH.
  - destruct Hhead as [-> | Hhead]; [discriminate|].
    destruct (strchr s_keyword "=") as [[keyword s_value] |]; [|contradiction].
    destruct (config_assign keyword (first_line s_value) vars) as [vars' |].
    + rewrite Halloc. cbn [negb]. now apply IH.
    + specialize (IH Hrest vars). now destruct (config_keywords senv rest vars).
Qed.

End ConfigKeywords.

(** Each flag says whether the value it goes with is empty. *)
Lemma config_read_flags (keywords : list string) :
  let vars := config_read keywords in
  delete_lwkcpu vars = match cfg_lwkcpus vars with
                       | Some value => Nat.eqb (String.length value) 0
                       | None => false
                       end
  /\ delete_lwkmem vars = match cfg_lwkmem vars with
                          | Some value => Nat.eqb (String.length value) 0
                          | None => false
                          end.
Proof.
  cbv zeta. unfold config_read.
  assert (Hgen : forall vars,
            (delete_lwkcpu vars = match cfg_lwkcpus vars with
                                  | Some value => Nat.eqb (String.length value) 0
                                  | None => false
                                  end
             /\ delete_lwkmem vars = match cfg_lwkmem vars with
                                     | Some value => Nat.eqb (String.length value) 0
                                     | None => false
                                     end) ->
            let vars' := fold_left config_step keywords vars in
            delete_lwkcpu vars' = match cfg_lwkcpus vars' with
                                  | Some value => Nat.eqb (String.length value) 0
                                  | None => false
                                  end
            /\ delete_lwkmem vars' = match cfg_lwkmem vars' with
                                     | Some value => Nat.eqb (String.length value) 0
                                     | None => false
                                     end).
  { induction keywords as [| s_keyword rest IH]; intros vars Hvars; [exact Hvars|].
    cbn [fold_left]. apply IH. unfold config_step.
    destruct (strchr s_keyword "=") as [[keyword s_value] |]; [|exact Hvars].
    unfold config_assign.
    destruct (String.eqb keyword "lwkcpus"); [cbn; tauto|].
    destruct (String.eqb keyword "lwkcpu_profile"); [exact Hvars|].
    destruct (String.eqb keyword "lwkmem"); [cbn; tauto|].
    destruct (String.eqb keyword "auto"); exact Hvars. }
  apply Hgen. split; reflexivity.
Qed.

(** [lwk_config_lwkcpus] and [lwk_config_lwkmem] as [lwk_config_store]
    calls them do not touch [lwkauto]. *)
Lemma config_apply_lwkauto (senv : sysfs_env) (vars : config_vars) (count : Z)
  (cst : config_state) :
  lwkauto (snd (fst (config_apply senv vars count cst))) = lwkauto cst.
Proof.
  assert (Hcpus : forall value c,
            lwkauto (snd (fst (config_store_lwkcpus senv vars value c))) = lwkauto c).
  { intros value c. unfold config_store_lwkcpus.
    destruct (lwk_config_lwkcpus _ _ _ _) as [[rc st'] evs].
    now destruct (Z.ltb rc 0). }
  unfold config_apply.
  destruct (cfg_lwkcpus vars) as [lwkcpus_value |];
    destruct (cfg_lwkmem vars) as [lwkmem_value |];
    destruct (lwkmem_static_enabled senv); cbn [negb];
    try reflexivity;
    try (pose proof (Hcpus lwkcpus_value cst) as H;
         destruct (config_store_lwkcpus senv vars lwkcpus_value cst) as [[ok c1] evs1];
         cbn [fst snd] in H; now destruct ok).
  destruct (negb (Bool.eqb (delete_lwkcpu vars) (delete_lwkmem vars))); [reflexivity|].
  destruct (delete_lwkcpu vars).
  - pose proof (Hcpus lwkcpus_value cst) as H.
    destruct (config_store_lwkcpus senv vars lwkcpus_value cst) as [[ok c1] evs1].
    cbn [fst snd] in H. destruct ok; cbn [negb]; [|exact H].
    destruct (config_store_lwkmem senv lwkmem_value) as [ok2 evs2].
    now destruct ok2.
  - destruct (config_store_lwkmem senv lwkmem_value) as [ok1 evs1].
    destruct ok1; cbn [negb]; [|reflexivity].
    pose proof (Hcpus lwkcpus_value cst) as H.
    destruct (config_store_lwkcpus senv vars lwkcpus_value cst) as [[ok c1] evs2].
    cbn [fst snd] in H. now destruct ok.
Qed.

(** [lwk_config_store] once the text is read: the stored auto setting is
    checked and replaced, and the partitions are worked on. *)
Lemma lwk_config_store_read (senv : sysfs_env) (cst : config_state) (buff : string) :
  sysfs_alloc_ok senv KstrdupConfigStore = true ->
  sysfs_alloc_ok senv KstrdupConfigValue = true ->
  Forall (fun piece => piece = EmptyString \/ strchr piece "=" <> None)
    (strsep_all " " (c_str buff)) ->
  let vars := config_read (strsep_all " " (c_str buff)) in
  let evs := snd (config_keywords senv (strsep_all " " (c_str buff)) config_vars_init) in
  lwk_config_store senv cst buff
  = if match cfg_auto_config vars with
       | Some auto_config => negb (Z.eqb (lwk_validate_auto senv auto_config) 0)
       | None => false
       end
    then ((- EINVAL)%Z, cst,
          evs ++ match cfg_auto_config vars with
                 | Some auto_config => [SysfsRas (RasConfigAuto auto_config)]
                 | None => []
                 end)
    else
      let '(rc', cst', evs') :=
        config_apply senv vars (Z.of_nat (String.length buff))
          (set_lwkauto (cfg_auto_config vars) cst) in
      (rc', cst', evs ++ evs').
Proof.
  intros Hstore Hvalue Hsign. cbv zeta. unfold lwk_config_store. rewrite Hstore.
  cbn [negb].
  pose proof (config_keywords_read senv (strsep_all " " (c_str buff)) Hvalue Hsign
                config_vars_init) as Hread.
  fold (config_read (strsep_all " " (c_str buff))) in Hread.
  destruct (config_keywords senv (strsep_all " " (c_str buff)) config_vars_init)
    as [r evs]. cbn [fst snd] in *. subst r.
  destruct (cfg_auto_config (config_read (strsep_all " " (c_str buff)))) as [a |];
    [|reflexivity].
  now destruct (negb (Z.eqb (lwk_validate_auto senv a) 0)).
Qed.

(** X22. A text written to [lwk_config] with a piece between spaces that
    is not empty and has no [=] changes nothing, wherever the piece
    stands: the call returns [-EINVAL], the state is as it was, also the
    stored auto setting, and nothing but reports is made. No part of the
    text is applied before the whole of it has been read. *)
Theorem lwk_config_store_no_sign (senv : sysfs_env) (cst : config_state) (buff bad : string) :
  In bad (strsep_all " " (c_str buff)) ->
  bad <> EmptyString ->
  strchr bad "=" = None ->
  exists evs,
    lwk_config_store senv cst buff = ((- EINVAL)%Z, cst, evs)
    /\ forall e, In e evs -> exists r, e = SysfsRas r.
Proof.
  intros Hin Hbad Hsign. unfold lwk_config_store.
  destruct (negb (sysfs_alloc_ok senv KstrdupConfigStore)).
  { exists []. split; [reflexivity | intros e []]. }
  pose proof (config_keywords_no_sign senv _ bad Hin Hbad Hsign config_vars_init) as Hnone.
  pose proof (config_keywords_events senv (strsep_all " " (c_str buff)) config_vars_init)
    as Hevs.
  destruct (config_keywords senv (strsep_all " " (c_str buff)) config_vars_init)
    as [r evs]. cbn [fst snd] in *. subst r.
  exists evs. split; [reflexivity | exact Hevs].
Qed.

Lemma lwk_config_store_no_sign_witness :
  exists evs,
    lwk_config_store sample_senv boot_config "lwkcpus=1.2 lwkmem" = ((- EINVAL)%Z, boot_config, evs).
Proof.
  destruct (lwk_config_store_no_sign sample_senv boot_config "lwkcpus=1.2 lwkmem" "lwkmem")
    as (evs & E & _).
  - right. now left.
  - discriminate.
  - reflexivity.
  - now exists evs.
Defined.

(** X23. Once the text written to [lwk_config] is read, its auto setting
    takes the place of the stored one: [lwkauto] is the [auto=] value of
    the text when that is a valid one, and it is erased when the text has
    no [auto=], whatever is then made of the text. A write that names no
    partition, or one partition alone where the memory partition is not
    static, is refused with [-EINVAL], and has changed [lwkauto] all the
    same. An [auto=] value that is not valid makes the call return
    [-EINVAL] with the state as it was. *)
Theorem lwk_config_store_lwkauto (senv : sysfs_env) (cst : config_state) (buff : string) :
  sysfs_alloc_ok senv KstrdupConfigStore = true ->
  sysfs_alloc_ok senv KstrdupConfigValue = true ->
  Forall (fun piece => piece = EmptyString \/ strchr piece "=" <> None)
    (strsep_all " " (c_str buff)) ->
  let vars := config_read (strsep_all " " (c_str buff)) in
  let '(rc, cst', evs) := lwk_config_store senv cst buff in
  (forall auto_config,
      cfg_auto_config vars = Some auto_config ->
      lwk_validate_auto senv auto_config <> 0%Z ->
      rc = (- EINVAL)%Z /\ cst' = cst)
  /\ ((forall auto_config,
          cfg_auto_config vars = Some auto_config ->
          lwk_validate_auto senv auto_config = 0%Z) ->
      lwkauto cst' = cfg_auto_config vars
      /\ (lwkmem_static_enabled senv = false ->
          cfg_lwkcpus vars = None \/ cfg_lwkmem vars = None ->
          rc = (- EINVAL)%Z /\ cst' = set_lwkauto (cfg_auto_config vars) cst)).
Proof.
  intros Hstore Hvalue Hsign vars.
  rewrite (lwk_config_store_read senv cst buff Hstore Hvalue Hsign). fold vars.
  destruct (cfg_auto_config vars) as [a |] eqn:Hauto.
  - destruct (Z.eqb_spec (lwk_validate_auto senv a) 0) as [Hvalid | Hvalid]; cbn [negb].
    + pose proof (config_apply_lwkauto senv vars (Z.of_nat (String.length buff))
                    (set_lwkauto (Some a) cst)) as Hkeep.
      assert (Halone : lwkmem_static_enabled senv = false ->
                       cfg_lwkcpus vars = None \/ cfg_lwkmem vars = None ->
                       exists evs,
                         config_apply senv vars (Z.of_nat (String.length buff))
                           (set_lwkauto (Some a) cst)
                         = ((- EINVAL)%Z, set_lwkauto (Some a) cst, evs)).
      { intros Hdyn Hone. unfold config_apply. rewrite Hdyn.
        destruct Hone as [-> | Hmem].
        - destruct (cfg_lwkmem vars); eexists; reflexivity.
        - rewrite Hmem. destruct (cfg_lwkcpus vars); eexists; reflexivity. }
      destruct (config_apply senv vars (Z.of_nat (String.length buff))
                  (set_lwkauto (Some a) cst)) as [[rc cst'] evs'].
      cbn [fst snd] in Hkeep. split.
      * intros b Hb Hbad. inversion Hb; subst. contradiction.
      * intros _. split; [exact Hkeep|]. intros Hdyn Hone.
        destruct (Halone Hdyn Hone) as (evs & E). inversion E. now split.
    + split.
      * intros b Hb _. now split.
      * intros Hall. exfalso. apply Hvalid. now apply Hall.
  - pose proof (config_apply_lwkauto senv vars (Z.of_nat (String.length buff))
                  (set_lwkauto None cst)) as Hkeep.
    assert (Halone : lwkmem_static_enabled senv = false ->
                     cfg_lwkcpus vars = None \/ cfg_lwkmem vars = None ->
                     exists evs,
                       config_apply senv vars (Z.of_nat (String.length buff))
                         (set_lwkauto None cst)
                       = ((- EINVAL)%Z, set_lwkauto None cst, evs)).
    { intros Hdyn Hone. unfold config_apply. rewrite Hdyn.
      destruct Hone as [-> | Hmem].
      - destruct (cfg_lwkmem vars); eexists; reflexivity.
      - rewrite Hmem. destruct (cfg_lwkcpus vars); eexists; reflexivity. }
    destruct (config_apply senv vars (Z.of_nat (String.length buff))
                (set_lwkauto None cst)) as [[rc cst'] evs'].
    cbn [fst snd] in Hkeep. split.
    + intros b Hb. discriminate.
    + intros _. split; [exact Hkeep|]. intros Hdyn Hone.
      destruct (Halone Hdyn Hone) as (evs & E). inversion E. now split.
Qed.

(** The text [auto=cpu] alone: refused, and stored. *)
Lemma lwk_config_store_lwkauto_witness :
  fst (fst (lwk_config_store sample_senv boot_config "auto=cpu")) = (- EINVAL)%Z
  /\ lwkauto (snd (fst (lwk_config_store sample_senv boot_config "auto=cpu")))
     = Some "cpu"%string.
Proof.
  pose proof (lwk_config_store_lwkauto sample_senv boot_config "auto=cpu"
                eq_refl eq_refl) as H.
  cbv zeta in H.
  destruct (lwk_config_store sample_senv boot_config "auto=cpu") as [[rc cst'] evs].
  destruct H as [_ H].
  - pieces_have_sign.
  - destruct H as [Hauto Halone].
    + intros a Ha. vm_compute in Ha. inversion Ha. reflexivity.
    + cbn [fst snd]. destruct (Halone eq_refl) as [Hrc _]; [now left|].
      split; [exact Hrc|]. rewrite Hauto. reflexivity.
Defined.

(** X24. Where the memory partition is not static, a text that gives an
    empty value to one of [lwkcpus] and [lwkmem] and a value that is not
    empty to the other is refused with [-EINVAL]: reports are all it
    makes, no partition is made or released, and nothing but the stored
    auto setting changes. *)
Theorem lwk_config_store_mismatch (senv : sysfs_env) (cst : config_state) (buff : string)
  (lwkcpus_value lwkmem_value : string) :
  sysfs_alloc_ok senv KstrdupConfigStore = true ->
  sysfs_alloc_ok senv KstrdupConfigValue = true ->
  Forall (fun piece => piece = EmptyString \/ strchr piece "=" <> None)
    (strsep_all " " (c_str buff)) ->
  let vars := config_read (strsep_all " " (c_str buff)) in
  (forall auto_config,
      cfg_auto_config vars = Some auto_config ->
      lwk_validate_auto senv auto_config = 0%Z) ->
  lwkmem_static_enabled senv = false ->
  cfg_lwkcpus vars = Some lwkcpus_value ->
  cfg_lwkmem vars = Some lwkmem_value ->
  (lwkcpus_value = EmptyString <-> lwkmem_value <> EmptyString) ->
  exists evs,
    lwk_config_store senv cst buff
    = ((- EINVAL)%Z, set_lwkauto (cfg_auto_config vars) cst, evs)
    /\ forall e, In e evs -> exists r, e = SysfsRas r.
Proof.
  intros Hstore Hvalue Hsign vars Hauto Hdyn Hcpus Hmem Hone.
  rewrite (lwk_config_store_read senv cst buff Hstore Hvalue Hsign). fold vars.
  assert (Hvalid : match cfg_auto_config vars with
                   | Some auto_config => negb (Z.eqb (lwk_validate_auto senv auto_config) 0)
                   | None => false
                   end = false).
  { destruct (cfg_auto_config vars) as [a |]; [|reflexivity].
    now rewrite (Hauto a eq_refl). }
  rewrite Hvalid.
  destruct (config_read_flags (strsep_all " " (c_str buff))) as [Hdc Hdm].
  fold vars in Hdc, Hdm. rewrite Hcpus in Hdc. rewrite Hmem in Hdm.
  unfold config_apply. rewrite Hcpus, Hmem, Hdyn, Hdc, Hdm.
  assert (Hdiff : Bool.eqb (Nat.eqb (String.length lwkcpus_value) 0)
                    (Nat.eqb (String.length lwkmem_value) 0) = false).
  { destruct (Nat.eqb (String.length lwkcpus_value) 0) eqn:Ec;
      destruct (Nat.eqb (String.length lwkmem_value) 0) eqn:Em; try reflexivity; exfalso.
    - apply strlen_zero in Ec, Em. apply (proj1 Hone Ec Em).
    - assert (Hm : lwkmem_value <> EmptyString)
        by (intros ->; discriminate).
      apply Hone in Hm. subst. discriminate. }
  rewrite Hdiff. cbn [negb].
  eexists. split; [reflexivity|].
  intros e Hin. apply in_app_or in Hin as [Hin | [<- | []]]; [|eauto].
  now apply (config_keywords_events senv _ _ _ Hin).
Qed.

Lemma lwk_config_store_mismatch_witness :
  exists evs,
    lwk_config_store sample_senv boot_config "lwkcpus=1.2 lwkmem="
    = ((- EINVAL)%Z, boot_config, evs).
Proof.
  destruct (lwk_config_store_mismatch sample_senv boot_config "lwkcpus=1.2 lwkmem="
              "1.2" "" eq_refl eq_refl) as (evs & E & _).
  - pieces_have_sign.
  - intros a Ha. discriminate.
  - reflexivity.
  - reflexivity.
  - reflexivity.
  - split; [discriminate | intros H; now contradiction H].
  - now exists evs.
Defined.

(** The empty specification on a state without LWK CPUs: the call returns
    -1, calls nothing and leaves the masks and the routes alone. *)
Lemma release_without_partition (env : kernel_env) (st : mos_state)
  (profile : option string) :
  cpumask_empty (lwkcpus_map st) = true ->
  exists st' evs,
    lwk_config_lwkcpus env st EmptyString profile = ((-1)%Z, st', evs)
    /\ (forall e, In e evs -> exists r, e = Ras r)
    /\ lwkcpus_map st' = lwkcpus_map st
    /\ utility_cpus_map st' = utility_cpus_map st
    /\ lwkcpus_reserved_map st' = lwkcpus_reserved_map st
    /\ forall cpu, mos_syscall_mask st' cpu = mos_syscall_mask st cpu.
Proof.
  intros Hempty. unfold lwk_config_lwkcpus. rewrite Hempty.
  cbn [String.length Nat.eqb negb andb].
  destruct (negb (alloc_ok env KstrdupConfig)).
  { do 2 eexists. split; [reflexivity|]. repeat split.
    intros e [<- | []]. eauto. }
  destruct (negb (alloc_ok env ZallocConfig)).
  { do 2 eexists. split; [reflexivity|]. repeat split.
    intros e [<- | []]. eauto. }
  rewrite commit_partition_release, Hempty.
  do 2 eexists. split; [reflexivity|]. state_fields.
  split; [intros e []|]. repeat split.
  intros cpu. rewrite route_self_spec.
  unfold cpumask_empty in Hempty. apply N.eqb_eq in Hempty. rewrite Hempty.
  unfold cpumask_test_cpu. now rewrite N.bits_0.
Qed.

Section ConfigApplied.

Variable senv : sysfs_env.
Variable cst : config_state.
Variable buff : string.
Hypothesis Hstore : sysfs_alloc_ok senv KstrdupConfigStore = true.
Hypothesis Hvalue : sysfs_alloc_ok senv KstrdupConfigValue = true.
Hypothesis Hsign :
  Forall (fun piece => piece = EmptyString \/ strchr piece "=" <> None)
    (strsep_all " " (c_str buff)).
Hypothesis Hauto :
  forall auto_config,
    cfg_auto_config (config_read (strsep_all " " (c_str buff))) = Some auto_config ->
    lwk_validate_auto senv auto_config = 0%Z.

(** A text that is read and whose auto setting is valid: what follows is
    the work on the partitions. *)
Lemma lwk_config_store_applied :
  let vars := config_read (strsep_all " " (c_str buff)) in
  lwk_config_store senv cst buff
  = let '(rc', cst', evs') :=
      config_apply senv vars (Z.of_nat (String.length buff))
        (set_lwkauto (cfg_auto_config vars) cst) in
    (rc', cst',
     snd (config_keywords senv (strsep_all " " (c_str buff)) config_vars_init) ++ evs').
Proof.
  cbv zeta. rewrite (lwk_config_store_read senv cst buff Hstore Hvalue Hsign).
  destruct (cfg_auto_config (config_read (strsep_all " " (c_str buff)))) as [a |];
    [|reflexivity].
  now rewrite (Hauto a eq_refl).
Qed.

End ConfigApplied.

(** X25. Where the memory partition is not static, the text that releases
    both partitions, with [lwkcpus=] and [lwkmem=] both empty, is refused
    with [-EINVAL] when there are no LWK CPUs: [lwk_config_lwkcpus]
    returns -1 for the release of nothing, and the memory partition is
    not released. Nothing is called, and the masks, the routes and the
    recorded specification are as they were. *)
Theorem lwk_config_store_release_nothing (senv : sysfs_env) (cst : config_state)
  (buff : string) :
  sysfs_alloc_ok senv KstrdupConfigStore = true ->
  sysfs_alloc_ok senv KstrdupConfigValue = true ->
  Forall (fun piece => piece = EmptyString \/ strchr piece "=" <> None)
    (strsep_all " " (c_str buff)) ->
  let vars := config_read (strsep_all " " (c_str buff)) in
  (forall auto_config,
      cfg_auto_config vars = Some auto_config ->
      lwk_validate_auto senv auto_config = 0%Z) ->
  lwkmem_static_enabled senv = false ->
  cfg_lwkcpus vars = Some EmptyString ->
  cfg_lwkmem vars = Some EmptyString ->
  cpumask_empty (lwkcpus_map (core cst)) = true ->
  let '(rc, cst', evs) := lwk_config_store senv cst buff in
  rc = (- EINVAL)%Z
  /\ (forall e, In e evs -> (exists r, e = SysfsRas r) \/ (exists r, e = Core (Ras r)))
  /\ lwkcpus_map (core cst') = lwkcpus_map (core cst)
  /\ utility_cpus_map (core cst') = utility_cpus_map (core cst)
  /\ lwkcpus_reserved_map (core cst') = lwkcpus_reserved_map (core cst)
  /\ (forall cpu, mos_syscall_mask (core cst') cpu = mos_syscall_mask (core cst) cpu)
  /\ lwkctrl_cpus_spec cst' = lwkctrl_cpus_spec cst
  /\ lwkctrl_cpu_profile_spec cst' = lwkctrl_cpu_profile_spec cst.
Proof.
  intros Hstore Hvalue Hsign vars Hauto Hdyn Hcpus Hmem Hempty.
  rewrite (lwk_config_store_applied senv cst buff Hstore Hvalue Hsign Hauto). fold vars.
  destruct (config_read_flags (strsep_all " " (c_str buff))) as [Hdc Hdm].
  fold vars in Hdc, Hdm. rewrite Hcpus in Hdc. rewrite Hmem in Hdm.
  cbn [String.length Nat.eqb] in Hdc, Hdm.
  unfold config_apply. rewrite Hcpus, Hmem, Hdyn, Hdc, Hdm. cbn [Bool.eqb negb].
  unfold config_store_lwkcpus. cbn [core set_lwkauto].
  destruct (release_without_partition (kernel senv) (core cst) (cfg_lwkcpu_profile vars)
              Hempty) as (st' & evs1 & -> & Hevs & Hlwk & Hutil & Hres & Hroute).
  cbn [Z.ltb Z.compare negb]. state_fields. cbn [core lwkctrl_cpus_spec
    lwkctrl_cpu_profile_spec set_core set_lwkauto].
  split; [reflexivity|]. split.
  - intros e Hin. apply in_app_or in Hin as [Hin | Hin].
    + left. now apply (config_keywords_events senv _ _ _ Hin).
    + apply in_app_or in Hin as [Hin | [<- | []]]; [|left; eauto].
      apply in_map_iff in Hin as (e0 & <- & Hin). right.
      destruct (Hevs e0 Hin) as (r & ->). eauto.
  - repeat split; assumption.
Qed.

Lemma lwk_config_store_release_nothing_witness :
  fst (fst (lwk_config_store sample_senv boot_config "lwkcpus= lwkmem=")) = (- EINVAL)%Z.
Proof.
  pose proof (lwk_config_store_release_nothing sample_senv boot_config "lwkcpus= lwkmem="
                eq_refl eq_refl) as H.
  cbv zeta in H.
  destruct (lwk_config_store sample_senv boot_config "lwkcpus= lwkmem=") as [[rc cst'] evs].
  destruct H as [Hrc _]; try reflexivity.
  - pieces_have_sign.
  - intros a Ha. discriminate.
  - exact Hrc.
Defined.

(** X26. Where the memory partition is not static, a text that makes
    both partitions makes the memory partition first. When
    [lwkmem_partition_create] fails, the call returns [-EINVAL] and the CPU
    specification is not looked at. When it succeeds and
    [lwk_config_lwkcpus] then fails, the call returns [-EINVAL] with the
    memory partition made: it is not released again. *)
Theorem lwk_config_store_create_order (senv : sysfs_env) (cst : config_state)
  (buff lwkcpus_value lwkmem_value : string) :
  sysfs_alloc_ok senv KstrdupConfigStore = true ->
  sysfs_alloc_ok senv KstrdupConfigValue = true ->
  Forall (fun piece => piece = EmptyString \/ strchr piece "=" <> None)
    (strsep_all " " (c_str buff)) ->
  let vars := config_read (strsep_all " " (c_str buff)) in
  (forall auto_config,
      cfg_auto_config vars = Some auto_config ->
      lwk_validate_auto senv auto_config = 0%Z) ->
  lwkmem_static_enabled senv = false ->
  cfg_lwkcpus vars = Some lwkcpus_value ->
  cfg_lwkmem vars = Some lwkmem_value ->
  lwkcpus_value <> EmptyString ->
  lwkmem_value <> EmptyString ->
  let warnings := snd (config_keywords senv (strsep_all " " (c_str buff)) config_vars_init) in
  let cpus := lwk_config_lwkcpus (kernel senv) (core cst) lwkcpus_value
                (cfg_lwkcpu_profile vars) in
  ((lwkmem_partition_create senv lwkmem_value < 0)%Z ->
   lwk_config_store senv cst buff
   = ((- EINVAL)%Z, set_lwkauto (cfg_auto_config vars) cst,
      warnings ++ [CallLwkmemPartitionCreate lwkmem_value;
                   SysfsRas (RasConfigLwkmem lwkmem_value)]))
  /\ ((0 <= lwkmem_partition_create senv lwkmem_value)%Z ->
      (fst (fst cpus) < 0)%Z ->
      lwk_config_store senv cst buff
      = ((- EINVAL)%Z,
         set_core (snd (fst cpus)) (set_lwkauto (cfg_auto_config vars) cst),
         warnings ++ [CallLwkmemPartitionCreate lwkmem_value]
           ++ map Core (snd cpus) ++ [SysfsRas (RasConfigLwkcpus lwkcpus_value)])
      /\ ~ In CallLwkmemPartitionDestroy
             (snd (lwk_config_store senv cst buff))).
Proof.
  intros Hstore Hvalue Hsign vars Hauto Hdyn Hcpus Hmem Hc Hm warnings cpus.
  rewrite (lwk_config_store_applied senv cst buff Hstore Hvalue Hsign Hauto).
  fold vars. fold warnings.
  destruct (config_read_flags (strsep_all " " (c_str buff))) as [Hdc Hdm].
  fold vars in Hdc, Hdm. rewrite Hcpus in Hdc. rewrite Hmem in Hdm.
  rewrite (strlen_nonzero _ Hc) in Hdc. rewrite (strlen_nonzero _ Hm) in Hdm.
  unfold config_apply. rewrite Hcpus, Hmem, Hdyn, Hdc, Hdm. cbn [Bool.eqb negb].
  unfold config_store_lwkmem, lwk_config_lwkmem.
  rewrite Hdyn, (strlen_nonzero _ Hm).
  split.
  - intros Hfail. now rewrite (proj2 (Z.ltb_lt _ _) Hfail).
  - intros Hmade Hcpu. rewrite (proj2 (Z.ltb_ge _ _) Hmade). cbn [negb].
    unfold config_store_lwkcpus. cbn [core set_lwkauto]. fold cpus.
    destruct cpus as [[rc st'] evs]. cbn [fst snd] in *.
    rewrite (proj2 (Z.ltb_lt _ _) Hcpu). cbn [negb snd].
    split; [reflexivity|].
    intros Hin. apply in_app_or in Hin as [Hin | Hin].
    + apply (config_keywords_events senv _ _ _) in Hin as (r & Hr). discriminate.
    + cbn [app] in Hin. destruct Hin as [Hin | Hin]; [discriminate|].
      apply in_app_or in Hin as [Hin | [Hin | []]]; [|discriminate].
      apply in_map_iff in Hin as (e & He & _). discriminate.
Qed.

(** On the sample partition the specification [4.5] is refused, since a
    partition exists; the memory partition [1G] has been made by then. *)
Lemma lwk_config_store_create_order_witness :
  lwk_config_store sample_senv sample_config "lwkcpus=4.5 lwkmem=1G"
  = ((- EINVAL)%Z, sample_config,
     [CallLwkmemPartitionCreate "1G"; Core (Ras RasModifyExisting);
      SysfsRas (RasConfigLwkcpus "4.5")]).
Proof.
  destruct (lwk_config_store_create_order sample_senv sample_config
              "lwkcpus=4.5 lwkmem=1G" "4.5" "1G" eq_refl eq_refl) as [_ Hcpu].
  - pieces_have_sign.
  - intros a Ha. discriminate.
  - reflexivity.
  - reflexivity.
  - reflexivity.
  - discriminate.
  - discriminate.
  - destruct Hcpu as [E _]; [discriminate | reflexivity|].
    rewrite E. reflexivity.
Defined.

(** When the loop over the pieces runs to its end it leaves the variables
    as [config_step] has them piece after piece. *)
Lemma config_keywords_some (senv : sysfs_env) (keywords : list string) :
  forall vars vars' evs,
  config_keywords senv keywords vars = (Some vars', evs) ->
  vars' = fold_left config_step keywords vars.
Proof.
  induction keywords as [| s_keyword rest IH]; intros vars vars' evs;
    cbn [config_keywords fold_left].
  - intros E. now inversion E.
  - unfold config_step at 2.
    destruct (Nat.eqb (String.length s_keyword) 0) eqn:Hlen.
    + apply strlen_zero in Hlen. subst s_keyword. cbn [strchr]. apply IH.
    + destruct (strchr s_keyword "=") as [[keyword s_value] |]; [|discriminate].
      destruct (config_assign keyword (first_line s_value) vars) as [vars1 |].
      * destruct (negb (sysfs_alloc_ok senv KstrdupConfigValue)); [discriminate | apply IH].
      * destruct (config_keywords senv rest vars) as [r evs0] eqn:E.
        intros H. inversion H; subst. now apply (IH vars vars' evs0).
Qed.

(** A string that fits is stored whole. *)
Lemma substring_whole (s : string) (n : nat) :
  String.length s <= n -> substring 0 n s = s.
Proof.
  revert n. induction s as [| c s IH]; intros n Hn.
  - now destruct n.
  - destruct n as [| n]; cbn [String.length] in Hn; [lia|].
    cbn [substring]. now rewrite IH by lia.
Qed.

(** When the work on the partitions ends with the count of bytes, the
    [lwkcpus] value was handed to [lwk_config_lwkcpus], the answer was not
    negative, and the two arrays have been written in the state that call
    left. *)
Lemma config_apply_done (senv : sysfs_env) (vars : config_vars) (count : Z)
  (cst cst' : config_state) (evs : list sysfs_event) :
  (0 <= count)%Z ->
  config_apply senv vars count cst = (count, cst', evs) ->
  exists lwkcpus_value,
    cfg_lwkcpus vars = Some lwkcpus_value
    /\ (0 <= fst (fst (lwk_config_lwkcpus (kernel senv) (core cst) lwkcpus_value
                         (cfg_lwkcpu_profile vars))))%Z
    /\ cst' = update_lwkctrl_specs senv vars lwkcpus_value
                (set_core (snd (fst (lwk_config_lwkcpus (kernel senv) (core cst)
                                       lwkcpus_value (cfg_lwkcpu_profile vars)))) cst)
    /\ exists before after,
         evs = before
               ++ map Core (snd (lwk_config_lwkcpus (kernel senv) (core cst) lwkcpus_value
                                   (cfg_lwkcpu_profile vars)))
               ++ after.
Proof.
  intros Hcount.
  assert (Hne : (- EINVAL)%Z <> count) by (unfold EINVAL; lia).
  assert (Hcpus : forall value c1 evs1,
            config_store_lwkcpus senv vars value cst = (true, c1, evs1) ->
            (0 <= fst (fst (lwk_config_lwkcpus (kernel senv) (core cst) value
                              (cfg_lwkcpu_profile vars))))%Z
            /\ c1 = set_core (snd (fst (lwk_config_lwkcpus (kernel senv) (core cst) value
                                          (cfg_lwkcpu_profile vars)))) cst
            /\ evs1 = map Core (snd (lwk_config_lwkcpus (kernel senv) (core cst) value
                                       (cfg_lwkcpu_profile vars)))).
  { intros value c1 evs1. unfold config_store_lwkcpus.
    destruct (lwk_config_lwkcpus _ _ _ _) as [[rc st'] evs0]. cbn [fst snd].
    destruct (Z.ltb_spec rc 0) as [Hneg | Hpos]; intros E; inversion E; subst.
    now repeat split. }
  unfold config_apply.
  destruct (cfg_lwkcpus vars) as [lwkcpus_value |].
  2: { destruct (cfg_lwkmem vars); destruct (lwkmem_static_enabled senv); cbn [negb];
       intros E; exfalso; inversion E; subst; congruence. }
  assert (Hstatic : forall lwkmem_given,
            (let '(done, rc1, cst1, evs1) :=
               let '(ok, cst1, evs1) := config_store_lwkcpus senv vars lwkcpus_value cst in
               if negb ok then (false, (- EINVAL)%Z, cst1, evs1)
               else (true, count, update_lwkctrl_specs senv vars lwkcpus_value cst1, evs1) in
             if negb done then (rc1, cst1, evs1)
             else
               match lwkmem_given with
               | Some lwkmem_value =>
                   (rc1, cst1, evs1 ++ [SysfsRas (RasConfigStatic lwkmem_value)])
               | None => (rc1, cst1, evs1)
               end) = (count, cst', evs) ->
            exists value,
              Some lwkcpus_value = Some value
              /\ (0 <= fst (fst (lwk_config_lwkcpus (kernel senv) (core cst) value
                                   (cfg_lwkcpu_profile vars))))%Z
              /\ cst' = update_lwkctrl_specs senv vars value
                          (set_core (snd (fst (lwk_config_lwkcpus (kernel senv) (core cst)
                                                 value (cfg_lwkcpu_profile vars)))) cst)
              /\ exists before after,
                   evs = before
                         ++ map Core (snd (lwk_config_lwkcpus (kernel senv) (core cst) value
                                             (cfg_lwkcpu_profile vars)))
                         ++ after).
  { intros lwkmem_given.
    destruct (config_store_lwkcpus senv vars lwkcpus_value cst) as [[ok c1] evs1] eqn:E1.
    destruct ok; cbn [negb].
    - apply Hcpus in E1 as (Hrc & -> & ->).
      destruct lwkmem_given as [lwkmem_value |]; intros E; inversion E; subst;
        exists lwkcpus_value.
      + split; [reflexivity|]. split; [exact Hrc|]. split; [reflexivity|].
        exists [], [SysfsRas (RasConfigStatic lwkmem_value)]. reflexivity.
      + split; [reflexivity|]. split; [exact Hrc|]. split; [reflexivity|].
        exists [], []. now rewrite app_nil_r.
    - intros E. exfalso. inversion E; subst. congruence. }
  destruct (cfg_lwkmem vars) as [lwkmem_value |];
    destruct (lwkmem_static_enabled senv); cbn [negb].
  - exact (Hstatic (Some lwkmem_value)).
  - destruct (negb (Bool.eqb (delete_lwkcpu vars) (delete_lwkmem vars)));
      [intros E; exfalso; inversion E; subst; congruence|].
    destruct (delete_lwkcpu vars).
    + destruct (config_store_lwkcpus senv vars lwkcpus_value cst) as [[ok c1] evs1] eqn:E1.
      destruct ok; cbn [negb]; [|intros E; exfalso; inversion E; subst; congruence].
      apply Hcpus in E1 as (Hrc & -> & ->).
      destruct (config_store_lwkmem senv lwkmem_value) as [ok2 evs2].
      destruct ok2; cbn [negb]; [|intros E; exfalso; inversion E; subst; congruence].
      intros E. inversion E; subst. exists lwkcpus_value.
      split; [reflexivity|]. split; [exact Hrc|]. split; [reflexivity|].
      exists [], evs2. reflexivity.
    + destruct (config_store_lwkmem senv lwkmem_value) as [ok1 evs1].
      destruct ok1; cbn [negb]; [|intros E; exfalso; inversion E; subst; congruence].
      destruct (config_store_lwkcpus senv vars lwkcpus_value cst) as [[ok c2] evs2] eqn:E2.
      destruct ok; cbn [negb]; [|intros E; exfalso; inversion E; subst; congruence].
      apply Hcpus in E2 as (Hrc & -> & ->).
      intros E. inversion E; subst. exists lwkcpus_value.
      split; [reflexivity|]. split; [exact Hrc|]. split; [reflexivity|].
      exists evs1, []. now rewrite app_nil_r.
  - exact (Hstatic None).
  - intros E. exfalso. inversion E; subst. congruence.
Qed.

(** X27. A write to [lwk_config] that returns the count of bytes has
    handed the [lwkcpus] value of the text to [lwk_config_lwkcpus] and got
    an answer that is not negative: 0 is not asked for. The state of the
    file is the one that call left, and the calls it made are among those
    of the write. What [lwk_config_show] then prints is the text recorded:
    the [lwkcpus] value, cut to the size of its array, the profile
    recorded with it, which is empty after a release, whatever
    specification the memory subsystem reports, and the auto setting of
    the text if it has one, in one line that ends with a newline and whose
    length is returned. *)
Theorem lwk_config_store_show (senv : sysfs_env) (cst cst' : config_state)
  (buff : string) (evs : list sysfs_event) :
  lwk_config_store senv cst buff = (Z.of_nat (String.length buff), cst', evs) ->
  let vars := config_read (strsep_all " " (c_str buff)) in
  exists lwkcpus_value,
    cfg_lwkcpus vars = Some lwkcpus_value
    /\ (let cpus := lwk_config_lwkcpus (kernel senv) (core cst) lwkcpus_value
                      (cfg_lwkcpu_profile vars) in
        (0 <= fst (fst cpus))%Z
        /\ core cst' = snd (fst cpus)
        /\ exists before after, evs = before ++ map Core (snd cpus) ++ after)
    /\ lwkauto cst' = cfg_auto_config vars
    /\ lwkctrl_cpus_spec cst'
       = snprintf_s (LWKCTRL_CPUS_SPECSZ senv) (lwkctrl_cpus_spec cst) lwkcpus_value
    /\ (lwkcpus_value = EmptyString -> lwkctrl_cpu_profile_spec cst' = EmptyString)
    /\ (String.length lwkcpus_value < LWKCTRL_CPUS_SPECSZ senv ->
        sysfs_alloc_ok senv KstrdupShowAuto = true ->
        sysfs_alloc_ok senv KmallocShowAuto = true ->
        let text :=
          ("lwkcpus=" ++ lwkcpus_value
           ++ " lwkcpu_profile=" ++ lwkctrl_cpu_profile_spec cst'
           ++ " lwkmem=" ++ lwkmem_get_spec senv
           ++ match cfg_auto_config vars with
              | Some auto_config => " auto=" ++ auto_config
              | None => EmptyString
              end
           ++ String LF EmptyString)%string in
        String.length text < PAGE_SIZE senv ->
        lwk_config_show senv cst' = (Z.of_nat (String.length text), Some text)).
Proof.
  intros E vars.
  assert (Hne : (- EINVAL)%Z <> Z.of_nat (String.length buff)) by (unfold EINVAL; lia).
  unfold lwk_config_store in E.
  destruct (negb (sysfs_alloc_ok senv KstrdupConfigStore));
    [inversion E; contradiction|].
  destruct (config_keywords senv (strsep_all " " (c_str buff)) config_vars_init)
    as [[vars0 |] evs0] eqn:Ekw; [|inversion E; contradiction].
  apply config_keywords_some in Ekw. fold (config_read (strsep_all " " (c_str buff))) in Ekw.
  fold vars in Ekw. subst vars0.
  assert (Happly : exists evs',
            config_apply senv vars (Z.of_nat (String.length buff))
              (set_lwkauto (cfg_auto_config vars) cst)
            = (Z.of_nat (String.length buff), cst', evs')
            /\ evs = evs0 ++ evs').
  { destruct (cfg_auto_config vars) as [a |].
    - destruct (negb (Z.eqb (lwk_validate_auto senv a) 0)); [inversion E; contradiction|].
      destruct (config_apply senv vars _ _) as [[rc c] evs'].
      inversion E; subst. now exists evs'.
    - destruct (config_apply senv vars _ _) as [[rc c] evs'].
      inversion E; subst. now exists evs'. }
  destruct Happly as (evs' & Happly & ->).
  apply config_apply_done in Happly as (value & Hvalue & Hrc & -> & before & after & ->);
    [|lia].
  cbn [core set_lwkauto] in *.
  set (cpus := lwk_config_lwkcpus (kernel senv) (core cst) value (cfg_lwkcpu_profile vars))
    in *.
  set (shown := update_lwkctrl_specs senv vars value
                  (set_core (snd (fst cpus)) (set_lwkauto (cfg_auto_config vars) cst))).
  assert (Hauto' : lwkauto shown = cfg_auto_config vars) by reflexivity.
  assert (Hspec' : lwkctrl_cpus_spec shown
                   = snprintf_s (LWKCTRL_CPUS_SPECSZ senv) (lwkctrl_cpus_spec cst) value)
    by reflexivity.
  exists value. split; [exact Hvalue|].
  split.
  { cbv zeta. fold cpus. split; [exact Hrc|]. split; [reflexivity|].
    exists (evs0 ++ before), after. now rewrite <- app_assoc. }
  split; [exact Hauto'|]. split; [exact Hspec'|].
  split.
  - intros ->. destruct (config_read_flags (strsep_all " " (c_str buff))) as [Hdc _].
    fold vars in Hdc. rewrite Hvalue in Hdc. cbn [String.length Nat.eqb] in Hdc.
    unfold shown, update_lwkctrl_specs.
    cbn [lwkctrl_cpu_profile_spec set_lwkctrl_specs]. now rewrite Hdc.
  - intros Hfits Hdup Hmalloc. cbv zeta. intros Hpage.
    unfold lwk_config_show. rewrite Hauto', Hspec', Hdup, Hmalloc.
    assert (Hstored : snprintf_s (LWKCTRL_CPUS_SPECSZ senv) (lwkctrl_cpus_spec cst) value
                      = value).
    { unfold snprintf_s. destruct (LWKCTRL_CPUS_SPECSZ senv) as [| n]; [lia|].
      apply substring_whole. lia. }
    rewrite Hstored. unfold scnprintf.
    destruct (PAGE_SIZE senv) as [| n]; [lia|].
    destruct (cfg_auto_config vars) as [a |];
      now rewrite substring_whole by lia.
Qed.

(** On a machine whose driver answers 5 to [lwkcpu_partition_create], the
    text [lwkcpus=1.2,3 auto=cpu] is accepted and shown, and there is no
    LWK CPU. *)
Lemma lwk_config_store_show_witness :
  exists cst' evs,
    lwk_config_store positive_senv boot_config "lwkcpus=1.2,3 auto=cpu"
    = (22%Z, cst', evs)
    /\ lwkcpus_map (core cst') = cpumask_clear
    /\ In (Core (CallPartitionCreate (cpumask_of_list [2; 3]%N))) evs
    /\ lwk_config_show positive_senv cst'
       = (55%Z, Some ("lwkcpus=1.2,3 lwkcpu_profile=normal lwkmem=1G auto=cpu"
                        ++ String LF EmptyString)%string).
Proof.
  destruct (lwk_config_store positive_senv boot_config "lwkcpus=1.2,3 auto=cpu")
    as [[rc cst'] evs] eqn:E.
  assert (Hrc : rc = 22%Z) by (vm_compute in E; now inversion E).
  subst rc. exists cst', evs. split; [reflexivity|].
  destruct (lwk_config_store_show positive_senv boot_config cst'
              "lwkcpus=1.2,3 auto=cpu" evs E)
    as (value & Hvalue & Hcall & _ & _ & _ & Hshow).
  vm_compute in Hvalue. inversion Hvalue; subst value.
  cbv zeta in Hcall. destruct Hcall as (_ & Hcore & before & after & Hevs).
  split; [now rewrite Hcore|].
  split.
  { rewrite Hevs. apply in_or_app. right. apply in_or_app. left.
    apply in_map. vm_compute. right. now left. }
  assert (Hprof : lwkctrl_cpu_profile_spec cst' = "normal"%string)
    by (vm_compute in E; now inversion E).
  rewrite Hprof in Hshow.
  assert (Hfits : String.length "1.2,3" < LWKCTRL_CPUS_SPECSZ positive_senv)
    by (apply Nat.ltb_lt; reflexivity).
  specialize (Hshow Hfits eq_refl eq_refl). cbv zeta in Hshow.
  rewrite Hshow; [reflexivity|].
  apply Nat.ltb_lt. reflexivity.
Defined.

(** ** The per-CPU copies of the LWK mask *)

(** The end of [lwk_config_lwkcpus] writes [new_lwkcpus] into the copy of
    every possible CPU, whatever it returns. *)
Lemma commit_partition_copies (env : kernel_env) (st : mos_state)
  (back new_lwk new_util : cpumask) (profile : option string) (rc : Z) :
  forall rc' st' evs,
  commit_partition env st back new_lwk new_util profile rc = (rc', st', evs) ->
  forall cpu,
    lwkcpus_mask st' cpu
    = if cpumask_test_cpu cpu (cpu_possible_mask env) then new_lwk
      else lwkcpus_mask st cpu.
Proof.
  intros rc' st' evs. unfold commit_partition.
  destruct (if negb (cpumask_empty back) then _ else _) as [rc1 evs1].
  destruct (if negb (cpumask_empty new_lwk) then _ else _) as [rc2 evs2].
  destruct (negb (Z.eqb rc2 0)); intros H; inversion H; subst; reflexivity.
Qed.

(** X28. When [lwkcpu_partition_create] fails, [lwk_config_lwkcpus]
    returns its answer and leaves [lwkcpus_map] and [utility_cpus_map]
    empty, but what it has written on the way stays: the system-call
    routes are those of the specification, and the copy of the LWK mask of
    every possible CPU holds the CPUs of the partition that was not
    made. *)
Theorem lwk_config_lwkcpus_create_fails (env : kernel_env) (st : mos_state)
  (spec : string) (profile : option string) :
  spec <> EmptyString ->
  alloc_ok env KstrdupConfig = true ->
  alloc_ok env ZallocConfig = true ->
  cpumask_empty (lwkcpus_map st) = true ->
  fst (validate_lwkcpus_spec env spec) = 0%Z ->
  let new_lwkcpus := reserved_cpus env (strsep_all ":" spec) in
  cpumask_empty new_lwkcpus = false ->
  lwkcpu_partition_create env new_lwkcpus <> 0%Z ->
  let '(rc, st', evs) := lwk_config_lwkcpus env st spec profile in
  rc = lwkcpu_partition_create env new_lwkcpus
  /\ lwkcpus_map st' = lwkcpus_map st
  /\ utility_cpus_map st' = utility_cpus_map st
  /\ cpumask_empty (lwkcpus_map st') = true
  /\ (forall cpu,
        cpumask_test_cpu cpu (cpu_possible_mask env) = true ->
        lwkcpus_mask st' cpu = new_lwkcpus)
  /\ (forall cpu,
        mos_syscall_mask st' cpu
        = fst (fst (config_groups env (strsep_all ":" spec) (mos_syscall_mask st)
                      cpumask_clear cpumask_clear)) cpu)
  /\ exists called, evs = called ++ [CallPartitionCreate new_lwkcpus].
Proof.
  intros Hspec Hdup Hmasks Hempty Hvalid new_lwkcpus Hsome Hfail.
  unfold lwk_config_lwkcpus.
  rewrite Hdup, Hmasks, Hempty, (strlen_nonzero spec Hspec). cbn [negb andb].
  destruct (validate_lwkcpus_spec env spec) as [vrc vevs]. cbn [fst] in Hvalid. subst vrc.
  destruct (config_groups_spec env (strsep_all ":" spec) (mos_syscall_mask st)
              cpumask_clear cpumask_clear) as (table & E & _).
  rewrite E. cbn [fst].
  fold (reserved_cpus env (strsep_all ":" spec)). fold new_lwkcpus.
  fold (target_cpus env (strsep_all ":" spec)).
  destruct (commit_partition_create env (set_mos_syscall_mask table st) new_lwkcpus
              (target_cpus env (strsep_all ":" spec)) profile Hsome) as (called & Ecommit).
  rewrite Ecommit, (proj2 (Z.eqb_neq _ _) Hfail). state_fields.
  split; [reflexivity|]. split; [reflexivity|]. split; [reflexivity|].
  split; [exact Hempty|].
  split; [intros cpu Hcpu; now rewrite Hcpu|].
  split; [reflexivity|]. now exists called.
Qed.

(** The specification [1.2,3] at boot with a driver that cannot make the
    partition. *)
Lemma lwk_config_lwkcpus_create_fails_witness :
  fst (fst (lwk_config_lwkcpus failing_env boot_state "1.2,3" None)) = (-5)%Z
  /\ lwkcpus_map (snd (fst (lwk_config_lwkcpus failing_env boot_state "1.2,3" None)))
     = cpumask_clear
  /\ lwkcpus_mask (snd (fst (lwk_config_lwkcpus failing_env boot_state "1.2,3" None))) 0
     = cpumask_of_list [2; 3]%N.
Proof.
  pose proof (lwk_config_lwkcpus_create_fails failing_env boot_state "1.2,3" None) as H.
  cbv zeta in H.
  destruct (lwk_config_lwkcpus failing_env boot_state "1.2,3" None) as [[rc st1] evs].
  destruct H as (Hrc & Hmap & _ & _ & Hcopies & _); try reflexivity; try discriminate.
  cbn [fst snd]. split; [exact Hrc|]. split; [exact Hmap|].
  now rewrite (Hcopies 0%N eq_refl).
Defined.

(** X29. After a call of [lwk_config_lwkcpus] that returns 0, for a
    specification or for the release, the copy of the LWK mask of every
    possible CPU is [lwkcpus_map]; the copies of other CPUs are not
    written. *)
Theorem lwk_config_lwkcpus_copies (env : kernel_env) (st st' : mos_state)
  (spec : string) (profile : option string) (evs : list event) :
  lwk_config_lwkcpus env st spec profile = (0%Z, st', evs) ->
  forall cpu,
    lwkcpus_mask st' cpu
    = if cpumask_test_cpu cpu (cpu_possible_mask env) then lwkcpus_map st'
      else lwkcpus_mask st cpu.
Proof.
  unfold lwk_config_lwkcpus.
  destruct (negb (alloc_ok env KstrdupConfig)); [discriminate|].
  destruct (negb (cpumask_empty (lwkcpus_map st)) && negb (Nat.eqb (String.length spec) 0));
    [discriminate|].
  destruct (negb (alloc_ok env ZallocConfig)); [discriminate|].
  destruct (Nat.eqb (String.length spec) 0).
  - intros E cpu.
    pose proof (commit_partition_copies _ _ _ _ _ _ _ _ _ _ E cpu) as Hcopy.
    apply commit_partition_fields in E as (_ & _ & Hok & _).
    destruct (Hok eq_refl) as [Hlwk _]. rewrite Hlwk. exact Hcopy.
  - destruct (validate_lwkcpus_spec env spec) as [[| p | p] vevs]; try discriminate.
    destruct (config_groups env _ _ _ _) as [[table lwk] util].
    intros E cpu.
    pose proof (commit_partition_copies _ _ _ _ _ _ _ _ _ _ E cpu) as Hcopy.
    apply commit_partition_fields in E as (_ & _ & Hok & _).
    destruct (Hok eq_refl) as [Hlwk _]. rewrite Hlwk. exact Hcopy.
Qed.

Lemma lwk_config_lwkcpus_copies_witness :
  lwkcpus_mask sample_partition 63 = lwkcpus_map sample_partition
  /\ lwkcpus_mask sample_partition 64 = cpumask_clear.
Proof.
  destruct (lwk_config_lwkcpus sample_env boot_state "1.2,3" None) as [[rc st'] evs] eqn:E.
  assert (Hrc : rc = 0%Z) by (vm_compute in E; now inversion E).
  subst rc.
  assert (Hst : sample_partition = st') by (unfold sample_partition; now rewrite E).
  rewrite Hst.
  pose proof (lwk_config_lwkcpus_copies _ _ _ _ _ _ E) as Hcopies.
  split.
  - now rewrite (Hcopies 63%N).
  - now rewrite (Hcopies 64%N).
Defined.

(** ** The view of a CPU mask *)

(** X30. [get_mos_view_cpumask] only ever takes CPUs out of the mask it
    is given. It reads through a NULL pointer exactly when the task is in
    the LWK-local view and has no record. The Linux view and the LWK view
    split the mask: a CPU of the mask is in one of the two and not in the
    other, and the LWK view is the part of the mask within
    [cpu_lwkcpus_mask]. *)
Theorem get_mos_view_cpumask_views (is_view : mos_view_t -> bool)
  (cpu_lwkcpus_mask : cpumask) (cur : task_struct) (src : cpumask) :
  (forall dst,
      get_mos_view_cpumask is_view cpu_lwkcpus_mask cur src = Some dst ->
      cpumask_subset dst src = true)
  /\ (get_mos_view_cpumask is_view cpu_lwkcpus_mask cur src = None
      <-> is_view MOS_VIEW_LWK_LOCAL = true /\ mos_process cur = None)
  /\ forall linux_view lwk_view,
       linux_view MOS_VIEW_LWK_LOCAL = false ->
       linux_view MOS_VIEW_LINUX = true ->
       lwk_view MOS_VIEW_LWK_LOCAL = false ->
       lwk_view MOS_VIEW_LINUX = false ->
       lwk_view MOS_VIEW_LWK = true ->
       exists in_linux in_lwk,
         get_mos_view_cpumask linux_view cpu_lwkcpus_mask cur src = Some in_linux
         /\ get_mos_view_cpumask lwk_view cpu_lwkcpus_mask cur src = Some in_lwk
         /\ cpumask_or in_linux in_lwk = src
         /\ cpumask_intersects in_linux in_lwk = false
         /\ cpumask_subset in_lwk cpu_lwkcpus_mask = true
         /\ cpumask_intersects in_linux cpu_lwkcpus_mask = false.
Proof.
  split; [|split].
  - intros dst. unfold get_mos_view_cpumask.
    destruct (is_view MOS_VIEW_LWK_LOCAL).
    + destruct (mos_process cur) as [process |]; [|discriminate].
      intros E. inversion E; subst. apply cpumask_subset_bits. intros c.
      unfold cpumask_and. rewrite N.land_spec. intros H.
      now apply andb_true_iff in H as [H _].
    + destruct (is_view MOS_VIEW_LINUX); [|destruct (is_view MOS_VIEW_LWK)];
        intros E; inversion E; subst; apply cpumask_subset_bits; intros c.
      * unfold cpumask_andnot. rewrite N.ldiff_spec. intros H.
        now apply andb_true_iff in H as [H _].
      * unfold cpumask_and. rewrite N.land_spec. intros H.
        now apply andb_true_iff in H as [H _].
      * auto.
  - unfold get_mos_view_cpumask.
    destruct (is_view MOS_VIEW_LWK_LOCAL).
    + destruct (mos_process cur); split; try discriminate; auto.
      intros [_ H]. discriminate.
    + split; [|intros [H _]; discriminate].
      destruct (is_view MOS_VIEW_LINUX); [|destruct (is_view MOS_VIEW_LWK)]; discriminate.
  - intros linux_view lwk_view H1 H2 H3 H4 H5. unfold get_mos_view_cpumask.
    rewrite H1, H2, H3, H4, H5. do 2 eexists. split; [reflexivity|]. split; [reflexivity|].
    unfold cpumask_or, cpumask_andnot, cpumask_and.
    split; [|split; [|split]].
    + apply N.bits_inj. intros c. rewrite N.lor_spec, N.ldiff_spec, N.land_spec.
      destruct (N.testbit src c), (N.testbit cpu_lwkcpus_mask c); reflexivity.
    + apply cpumask_disjoint_bits. intros c.
      rewrite N.ldiff_spec, N.land_spec.
      destruct (N.testbit src c), (N.testbit cpu_lwkcpus_mask c); auto.
    + apply cpumask_subset_bits. intros c. rewrite N.land_spec. intros H.
      now apply andb_true_iff in H as [_ H].
    + apply cpumask_disjoint_bits. intros c. rewrite N.ldiff_spec.
      destruct (N.testbit src c), (N.testbit cpu_lwkcpus_mask c); auto.
Qed.

(** The mask of CPUs 0, 2 and 3 where CPUs 2 and 3 are LWK CPUs, seen in
    the Linux view and in the LWK view. *)
Lemma get_mos_view_cpumask_views_witness :
  exists in_linux in_lwk,
    get_mos_view_cpumask sample_linux_view (cpumask_of_list [2; 3]%N) sample_claimer
      (cpumask_of_list [0; 2; 3]%N) = Some in_linux
    /\ get_mos_view_cpumask sample_lwk_view (cpumask_of_list [2; 3]%N) sample_claimer
         (cpumask_of_list [0; 2; 3]%N) = Some in_lwk
    /\ cpumask_or in_linux in_lwk = cpumask_of_list [0; 2; 3]%N
    /\ cpumask_intersects in_linux in_lwk = false
    /\ cpumask_subset in_lwk (cpumask_of_list [2; 3]%N) = true
    /\ cpumask_intersects in_linux (cpumask_of_list [2; 3]%N) = false.
Proof.
  exact (proj2 (proj2 (get_mos_view_cpumask_views sample_linux_view
                         (cpumask_of_list [2; 3]%N) sample_claimer
                         (cpumask_of_list [0; 2; 3]%N)))
           sample_linux_view sample_lwk_view eq_refl eq_refl eq_refl eq_refl eq_refl).
Defined.
